(** * NIRA backend: access control, menu composition, soft-delete lifecycle
      and the citizen status audit trail

    A shallow embedding of the service layer of the Node.js/Express/Mongoose
    backend: [rbac.service.js], [auth.middleware.js],
    [permission.middleware.js], [user.service.js], [citizen.service.js],
    [nationalIdGenerator.util.js], [dashboard.service.js], the citizen report
    of [report.service.js], and the Mongoose schemas they rely on.

    Conventions of the embedding:
    - an [ObjectId] is a natural number; its hexadecimal rendering
      ([toString]) is injective and is not modelled;
    - a JavaScript [Date] is its epoch time in milliseconds, a [Z];
    - a JavaScript string is the string of the bytes of its UTF-8 encoding;
      its [length], which counts UTF-16 code units, is [Js.length];
    - a MongoDB collection is the list of its documents in natural
      (insertion) order;
    - JavaScript objects shared by reference (the nodes of the menu tree)
      live in a map and are named by their key;
    - an [async] function that writes to the database is a function from the
      store to a result and a new store; a thrown [Error] is a left injection,
      and the writes made before the throw stay in the store, as there is no
      transaction anywhere in the code. *)

From stdpp Require Import gmap strings pretty list sorting.
From Stdlib Require Import ZArith Lia.

(** ** JavaScript values *)

Definition ObjectId := nat.
Definition Date := Z.
Bind Scope Z_scope with Date.

Module Js.

(** [String.prototype.trim], on the white space of the ASCII range. *)
Fixpoint trimStart (s : string) : string :=
  match s with
  | String c s' => if Ascii.is_space c then trimStart s' else s
  | EmptyString => EmptyString
  end.

Definition trimEnd (s : string) : string :=
  String.rev (trimStart (String.rev s)).

Definition trim (s : string) : string := trimEnd (trimStart s).

Definition upper (c : Ascii.ascii) : Ascii.ascii :=
  let n := Ascii.nat_of_ascii c in
  if (97 <=? n)%nat && (n <=? 122)%nat then Ascii.ascii_of_nat (n - 32) else c.

(** [String.prototype.toUpperCase], on the letters of the ASCII range. *)
Fixpoint toUpperCase (s : string) : string :=
  match s with
  | String c s' => String (upper c) (toUpperCase s')
  | EmptyString => EmptyString
  end.

(** The UTF-16 code units that a byte of a UTF-8 encoding stands for: one
    for a byte that starts a code point, two when the code point lies
    outside the basic plane (a sequence of four bytes), none for a
    continuation byte. *)
Definition units (c : Ascii.ascii) : nat :=
  let n := Ascii.nat_of_ascii c in
  if (n <? 128)%nat then 1%nat
  else if (n <? 192)%nat then 0%nat
  else if (n <? 240)%nat then 1%nat
  else 2%nat.

(** [s.length] *)
Fixpoint length (s : string) : nat :=
  match s with
  | String c s' => (units c + length s')%nat
  | EmptyString => 0%nat
  end.

(** Truthiness of a string: every string but the empty one. *)
Definition truthy (s : string) : bool := bool_decide (s ≠ "").

(** Truthiness of [undefined | string]. *)
Definition truthy_opt (o : option string) : bool :=
  match o with
  | Some s => truthy s
  | None => false
  end.

Definition startsWith (s p : string) : bool := String.prefix p s.

Definition is_digit (c : Ascii.ascii) : bool :=
  let n := Ascii.nat_of_ascii c in (48 <=? n)%nat && (n <=? 57)%nat.

Fixpoint all_digits (s : string) : bool :=
  match s with
  | String c s' => is_digit c && all_digits s'
  | EmptyString => true
  end.

(** [Array.prototype.includes] and [Array.prototype.some]. *)
Definition includes `{EqDecision A} (l : list A) (x : A) : bool :=
  bool_decide (x ∈ l).

Definition some {A} (f : A → bool) (l : list A) : bool := existsb f l.

End Js.

(** ** Errors *)

Inductive error :=
| Error (message : string)
| ValidationError (path : string)
| DuplicateKeyError (index : string)
| MongoError (message : string).

Global Instance error_eq_dec : EqDecision error.
Proof. solve_decision. Defined.

Definition result (A : Type) : Type := error + A.

(** ** Sorting

    [Array.prototype.sort] is stable (ECMAScript 2019, Node 12 and later);
    the same stable order models the [sort] stage of a MongoDB query, taken
    over the natural order of the collection.  [le a b] is the comparator's
    "a does not come after b". *)

Section Sort.
Context {A : Type} (le : A → A → bool).

Fixpoint insert_sorted (x : A) (l : list A) : list A :=
  match l with
  | [] => [x]
  | y :: l' => if le x y then x :: y :: l' else y :: insert_sorted x l'
  end.

Definition sort_by (l : list A) : list A := foldr insert_sorted [] l.

End Sort.

(** ** Documents (the Mongoose schemas) *)

Module Permission.
Record t := mk {
  _id : ObjectId;
  code : string;
  name : string;
  description : option string
}.
Global Instance eq_dec : EqDecision t.
Proof. solve_decision. Defined.
End Permission.

Module Role.
Record t := mk {
  _id : ObjectId;
  name : string;
  description : option string;
  permissions : list ObjectId
}.
Global Instance eq_dec : EqDecision t.
Proof. solve_decision. Defined.
End Role.

(** [orderIndex] is a [Number]; the seeded and the administered values are
    integers. *)
Module Menu.
Record t := mk {
  _id : ObjectId;
  name : string;
  route : option string;
  icon : option string;
  parentId : option ObjectId;
  orderIndex : Z;
  permissionCode : option string
}.
Global Instance eq_dec : EqDecision t.
Proof. solve_decision. Defined.
End Menu.

Module User.
Record t := mk {
  _id : ObjectId;
  username : string;
  password : string;
  roleId : ObjectId;
  role : string;
  status : string;
  phoneNumber : option string;
  profilePicturePath : option string;
  deletedAt : option Date;
  createdAt : Date;
  updatedAt : Date
}.
Global Instance eq_dec : EqDecision t.
Proof. solve_decision. Defined.

Definition set_deletedAt (u : t) (d : option Date) : t :=
  mk (_id u) (username u) (password u) (roleId u) (role u) (status u)
     (phoneNumber u) (profilePicturePath u) d (createdAt u) (updatedAt u).

Definition set_updatedAt (u : t) (d : Date) : t :=
  mk (_id u) (username u) (password u) (roleId u) (role u) (status u)
     (phoneNumber u) (profilePicturePath u) (deletedAt u) (createdAt u) d.

Definition set_password (u : t) (p : string) : t :=
  mk (_id u) (username u) p (roleId u) (role u) (status u)
     (phoneNumber u) (profilePicturePath u) (deletedAt u) (createdAt u)
     (updatedAt u).
Definition set_roleId (u : t) (r : ObjectId) : t :=
  mk (_id u) (username u) (password u) r (role u) (status u)
     (phoneNumber u) (profilePicturePath u) (deletedAt u) (createdAt u)
     (updatedAt u).

Definition set_role (u : t) (r : string) : t :=
  mk (_id u) (username u) (password u) (roleId u) r (status u)
     (phoneNumber u) (profilePicturePath u) (deletedAt u) (createdAt u)
     (updatedAt u).

Definition set_status (u : t) (s : string) : t :=
  mk (_id u) (username u) (password u) (roleId u) (role u) s
     (phoneNumber u) (profilePicturePath u) (deletedAt u) (createdAt u)
     (updatedAt u).

Definition set_phoneNumber (u : t) (p : option string) : t :=
  mk (_id u) (username u) (password u) (roleId u) (role u) (status u)
     p (profilePicturePath u) (deletedAt u) (createdAt u) (updatedAt u).

Definition set_profilePicturePath (u : t) (p : option string) : t :=
  mk (_id u) (username u) (password u) (roleId u) (role u) (status u)
     (phoneNumber u) p (deletedAt u) (createdAt u) (updatedAt u).
End User.

Module Citizen.
Record t := mk {
  _id : ObjectId;
  nationalId : string;
  firstName : string;
  middleName : option string;
  lastName : string;
  gender : string;
  dateOfBirth : Date;
  placeOfBirth : string;
  nationality : string;
  imagePath : option string;
  documentPath : option string;
  status : string;
  deletedAt : option Date;
  createdAt : Date;
  updatedAt : Date
}.
Global Instance eq_dec : EqDecision t.
Proof. solve_decision. Defined.

Definition set_firstName (c : t) (v : string) : t :=
  mk (_id c) (nationalId c) v (middleName c) (lastName c) (gender c)
     (dateOfBirth c) (placeOfBirth c) (nationality c) (imagePath c)
     (documentPath c) (status c) (deletedAt c) (createdAt c) (updatedAt c).

Definition set_middleName (c : t) (v : option string) : t :=
  mk (_id c) (nationalId c) (firstName c) v (lastName c) (gender c)
     (dateOfBirth c) (placeOfBirth c) (nationality c) (imagePath c)
     (documentPath c) (status c) (deletedAt c) (createdAt c) (updatedAt c).

Definition set_lastName (c : t) (v : string) : t :=
  mk (_id c) (nationalId c) (firstName c) (middleName c) v (gender c)
     (dateOfBirth c) (placeOfBirth c) (nationality c) (imagePath c)
     (documentPath c) (status c) (deletedAt c) (createdAt c) (updatedAt c).

Definition set_gender (c : t) (v : string) : t :=
  mk (_id c) (nationalId c) (firstName c) (middleName c) (lastName c) v
     (dateOfBirth c) (placeOfBirth c) (nationality c) (imagePath c)
     (documentPath c) (status c) (deletedAt c) (createdAt c) (updatedAt c).

Definition set_dateOfBirth (c : t) (v : Date) : t :=
  mk (_id c) (nationalId c) (firstName c) (middleName c) (lastName c)
     (gender c) v (placeOfBirth c) (nationality c) (imagePath c)
     (documentPath c) (status c) (deletedAt c) (createdAt c) (updatedAt c).

Definition set_placeOfBirth (c : t) (v : string) : t :=
  mk (_id c) (nationalId c) (firstName c) (middleName c) (lastName c)
     (gender c) (dateOfBirth c) v (nationality c) (imagePath c)
     (documentPath c) (status c) (deletedAt c) (createdAt c) (updatedAt c).

Definition set_nationality (c : t) (v : string) : t :=
  mk (_id c) (nationalId c) (firstName c) (middleName c) (lastName c)
     (gender c) (dateOfBirth c) (placeOfBirth c) v (imagePath c)
     (documentPath c) (status c) (deletedAt c) (createdAt c) (updatedAt c).

Definition set_status (c : t) (v : string) : t :=
  mk (_id c) (nationalId c) (firstName c) (middleName c) (lastName c)
     (gender c) (dateOfBirth c) (placeOfBirth c) (nationality c)
     (imagePath c) (documentPath c) v (deletedAt c) (createdAt c)
     (updatedAt c).

Definition set_deletedAt (c : t) (v : option Date) : t :=
  mk (_id c) (nationalId c) (firstName c) (middleName c) (lastName c)
     (gender c) (dateOfBirth c) (placeOfBirth c) (nationality c)
     (imagePath c) (documentPath c) (status c) v (createdAt c) (updatedAt c).

Definition set_updatedAt (c : t) (v : Date) : t :=
  mk (_id c) (nationalId c) (firstName c) (middleName c) (lastName c)
     (gender c) (dateOfBirth c) (placeOfBirth c) (nationality c)
     (imagePath c) (documentPath c) (status c) (deletedAt c) (createdAt c) v.

Definition set_imagePath (c : t) (v : option string) : t :=
  mk (_id c) (nationalId c) (firstName c) (middleName c) (lastName c)
     (gender c) (dateOfBirth c) (placeOfBirth c) (nationality c) v
     (documentPath c) (status c) (deletedAt c) (createdAt c) (updatedAt c).

Definition set_documentPath (c : t) (v : option string) : t :=
  mk (_id c) (nationalId c) (firstName c) (middleName c) (lastName c)
     (gender c) (dateOfBirth c) (placeOfBirth c) (nationality c)
     (imagePath c) v (status c) (deletedAt c) (createdAt c) (updatedAt c).

(** The virtual [fullName]. *)
Definition fullName (c : t) : string :=
  match middleName c with
  | Some m =>
      if Js.truthy m
      then firstName c +:+ " " +:+ m +:+ " " +:+ lastName c
      else firstName c +:+ " " +:+ lastName c
  | None => firstName c +:+ " " +:+ lastName c
  end.
End Citizen.

Module StatusChangeLog.
Record t := mk {
  _id : ObjectId;
  nationalId : string;
  oldStatus : string;
  newStatus : string;
  changedBy : ObjectId;
  changedAt : Date
}.
Global Instance eq_dec : EqDecision t.
Proof. solve_decision. Defined.
End StatusChangeLog.

(** ** The database and the environment of a request *)

Record Store := mkStore {
  users : list User.t;
  roles : list Role.t;
  permissions : list Permission.t;
  menus : list Menu.t;
  citizens : list Citizen.t;
  statusChangeLogs : list StatusChangeLog.t
}.

Definition set_users (st : Store) (l : list User.t) : Store :=
  mkStore l (roles st) (permissions st) (menus st) (citizens st)
          (statusChangeLogs st).

Definition set_citizens (st : Store) (l : list Citizen.t) : Store :=
  mkStore (users st) (roles st) (permissions st) (menus st) l
          (statusChangeLogs st).

Definition set_statusChangeLogs (st : Store) (l : list StatusChangeLog.t)
  : Store :=
  mkStore (users st) (roles st) (permissions st) (menus st) (citizens st) l.

(** The outcome of [jwt.verify(token, process.env.JWT_SECRET)]. *)
Inductive JwtResult :=
| Decoded (userId : ObjectId)
| JsonWebTokenError
| TokenExpiredError
| OtherJwtError.

(** What a request reads from outside the database: the clock ([new Date()]
    and the same instant with [setFullYear(getFullYear() - 100)]), the
    [BASE_URL] variable, the password hash of the pre-save hook, the token
    verifier, and for each collection (by its name) whether the database
    carries out a write to it or the driver throws. *)
Record Env := mkEnv {
  now : Date;
  hundredYearsAgo : Date;
  BASE_URL : option string;
  bcrypt_hash : string → string;
  jwt_verify : string → JwtResult;
  write_ok : string → bool
}.

(** ** The query layer (Mongoose over MongoDB) *)

Module Mongo.

Section Collection.
Context {A : Type}.

Definition find (P : A → Prop) `{!∀ x, Decision (P x)} (l : list A) : list A :=
  filter P l.

Definition findOne (P : A → Prop) `{!∀ x, Decision (P x)} (l : list A)
  : option A :=
  head (filter P l).

Definition countDocuments (P : A → Prop) `{!∀ x, Decision (P x)} (l : list A)
  : Z :=
  Z.of_nat (length (filter P l)).

(** [skip] refuses a negative argument. *)
Definition skip (n : Z) (l : list A) : result (list A) :=
  if (n <? 0)%Z then inl (MongoError "Skip value must be non-negative")
  else inr (drop (Z.to_nat n) l).

(** [limit(0)] is no limit; a negative limit is taken by its absolute
    value. *)
Definition limit (n : Z) (l : list A) : list A :=
  if (n =? 0)%Z then l else take (Z.to_nat (Z.abs n)) l.

(** The update that [save] sends for a document loaded before: the stored
    document with the same [_id] gets the fields of the document in memory. *)
Definition replaceById (key : A → ObjectId) (d : A) (l : list A) : list A :=
  (λ x, if decide (key x = key d) then d else x) <$> l.

Fixpoint deleteOne (P : A → Prop) `{!∀ x, Decision (P x)} (l : list A)
  : list A :=
  match l with
  | [] => []
  | x :: l' => if decide (P x) then l' else x :: deleteOne P l'
  end.

End Collection.

(** A fresh [ObjectId] for a document made with [new Model(...)]. *)
Definition freshId (ids : list ObjectId) : ObjectId := S (foldr max 0 ids).

(** Order of [sort({ field: 1 })] on a nullable date: [null] sorts first. *)
Definition date_le (a b : option Date) : bool :=
  match a, b with
  | None, _ => true
  | Some _, None => false
  | Some x, Some y => (x <=? y)%Z
  end.

End Mongo.

(** [Math.ceil(total / limit)]: not a finite number when [limit] is 0,
    which [res.json] renders as [null]. *)
Definition pages_of (total limit : Z) : option Z :=
  if (limit =? 0)%Z then None else Some (- ((- total) / limit))%Z.

Record Pagination := mkPagination {
  page : Z;
  limit : Z;
  total : Z;
  pages : option Z
}.

Record Listing (A : Type) := mkListing {
  data : list A;
  pagination : Pagination
}.
Arguments mkListing {A} _ _.
Arguments data {A} _.
Arguments pagination {A} _.

(** ** Schema validation and [save] *)

Definition in_range (lo hi : nat) (s : string) : bool :=
  (lo <=? Js.length s)%nat && (Js.length s <=? hi)%nat.

(** [/^[+]?[0-9]{8,15}$/] *)
Definition phone_ok (s : string) : bool :=
  let digits :=
    match s with
    | String c s' => if decide (c = Ascii.ascii_of_nat 43) then s' else s
    | EmptyString => s
    end in
  Js.all_digits digits && in_range 8 15 digits.

(** [/^\d{10}$/] *)
Definition nationalId_ok (s : string) : bool :=
  Js.all_digits s && in_range 10 10 s.

(** A [match] validator passes on [null] and on the empty string. *)
Definition match_opt (ok : string → bool) (o : option string) : bool :=
  match o with
  | Some s => if Js.truthy s then ok s else true
  | None => true
  end.

Definition maxlength_opt (n : nat) (o : option string) : bool :=
  match o with
  | Some s => (Js.length s <=? n)%nat
  | None => true
  end.

(** The first path of the schema that fails, in the order of declaration. *)
Fixpoint first_failure (checks : list (string * bool)) : option string :=
  match checks with
  | [] => None
  | (path, ok) :: rest => if ok then first_failure rest else Some path
  end.

Definition User_validate (u : User.t) : option string :=
  first_failure [
    ("username", Js.truthy (User.username u) && in_range 3 100 (User.username u));
    ("password", Js.truthy (User.password u)
                 && (6 <=? Js.length (User.password u))%nat);
    ("role", Js.includes ["ADMIN"; "OFFICER"; "VIEWER"] (User.role u));
    ("status", Js.includes ["ACTIVE"; "DISABLED"] (User.status u));
    ("phoneNumber", match_opt phone_ok (User.phoneNumber u))
  ].

Definition Citizen_validate (env : Env) (c : Citizen.t) : option string :=
  first_failure [
    ("nationalId", Js.truthy (Citizen.nationalId c)
                   && nationalId_ok (Citizen.nationalId c));
    ("firstName", Js.truthy (Citizen.firstName c)
                  && in_range 0 100 (Citizen.firstName c));
    ("middleName", maxlength_opt 100 (Citizen.middleName c));
    ("lastName", Js.truthy (Citizen.lastName c)
                 && in_range 0 100 (Citizen.lastName c));
    ("gender", Js.includes ["MALE"; "FEMALE"] (Citizen.gender c));
    ("dateOfBirth", (Citizen.dateOfBirth c <=? now env)%Z
                    && (hundredYearsAgo env <=? Citizen.dateOfBirth c)%Z);
    ("placeOfBirth", Js.truthy (Citizen.placeOfBirth c)
                     && in_range 0 200 (Citizen.placeOfBirth c));
    ("nationality", in_range 0 100 (Citizen.nationality c));
    ("status", Js.includes ["ACTIVE"; "DECEASED"] (Citizen.status c))
  ].

Definition StatusChangeLog_validate (l : StatusChangeLog.t) : option string :=
  first_failure [
    ("nationalId", Js.truthy (StatusChangeLog.nationalId l));
    ("oldStatus", Js.includes ["ACTIVE"; "DECEASED"]
                    (StatusChangeLog.oldStatus l));
    ("newStatus", Js.includes ["ACTIVE"; "DECEASED"]
                    (StatusChangeLog.newStatus l))
  ].

(** ** rbac.service.js *)

(** A node of the menu tree as [buildMenuTree] allocates it.  The objects are
    shared: the same object sits in [menuMap], possibly in [rootMenus], and in
    the [children] array of its parent, and [push] and [sort] mutate it in
    place.  After the first pass every live node is the value of exactly one
    key of [menuMap] (a later [set] on the same key drops the earlier object,
    which nothing else holds yet), so a reference to a node is that key. *)
Record MenuItem := mkMenuItem {
  id : ObjectId;
  label : string;
  route : option string;
  icon : option string;
  orderIndex : Z;
  children : list ObjectId
}.

(** The tree that the caller reads off the returned array, as [res.json]
    serialises it. *)
#[local] Unset Elimination Schemes.
Inductive MenuNode :=
| Node (id : ObjectId) (label : string) (route icon : option string)
       (orderIndex : Z) (children : list MenuNode).
#[local] Set Elimination Schemes.

Definition node_id (n : MenuNode) : ObjectId :=
  match n with Node i _ _ _ _ _ => i end.

Definition node_label (n : MenuNode) : string :=
  match n with Node _ l _ _ _ _ => l end.

Definition node_orderIndex (n : MenuNode) : Z :=
  match n with Node _ _ _ _ o _ => o end.

Definition node_children (n : MenuNode) : list MenuNode :=
  match n with Node _ _ _ _ _ c => c end.

Module RBACService.

(** [populate('permissions')]: the referenced documents that exist, in the
    order of the references. *)
Definition populate_permissions (st : Store) (r : Role.t) : list Permission.t :=
  omap (λ pid, Mongo.findOne (λ p, Permission._id p = pid) (permissions st))
       (Role.permissions r).

(** [populate('roleId')]: the referenced role, or [null]. *)
Definition populate_role (st : Store) (u : User.t) : option Role.t :=
  Mongo.findOne (λ r, Role._id r = User.roleId u) (roles st).

Definition getUserPermissions (st : Store) (userId : ObjectId) : list string :=
  match Mongo.findOne (λ u, User._id u = userId) (users st) with
  | None => []
  | Some user =>
      match populate_role st user with
      | None => []
      | Some role => Permission.code <$> populate_permissions st role
      end
  end.

Definition newItem (menu : Menu.t) : MenuItem :=
  mkMenuItem (Menu._id menu) (Menu.name menu) (Menu.route menu)
             (Menu.icon menu) (Menu.orderIndex menu) [].

Definition push_child (parent : MenuItem) (child : ObjectId) : MenuItem :=
  mkMenuItem (id parent) (label parent) (route parent) (icon parent)
             (orderIndex parent) (children parent ++ [child]).

Definition set_children (item : MenuItem) (l : list ObjectId) : MenuItem :=
  mkMenuItem (id item) (label item) (route item) (icon item)
             (orderIndex item) l.

(** First pass: create menu map. *)
Definition first_pass (menus : list Menu.t) : gmap ObjectId MenuItem :=
  foldl (λ menuMap menu, <[Menu._id menu := newItem menu]> menuMap) ∅ menus.

(** Second pass: build tree.  A menu with a parent reference is pushed to the
    parent's children when the parent is in the map, and goes nowhere when it
    is not; a menu without a parent reference is pushed to the roots. *)
Definition second_pass_step (acc : gmap ObjectId MenuItem * list ObjectId)
    (menu : Menu.t) : gmap ObjectId MenuItem * list ObjectId :=
  let menuItem := Menu._id menu in
  match Menu.parentId menu with
  | Some pid =>
      match acc.1 !! pid with
      | Some parent => (<[pid := push_child parent menuItem]> acc.1, acc.2)
      | None => acc
      end
  | None => (acc.1, acc.2 ++ [menuItem])
  end.

Definition second_pass (menuMap : gmap ObjectId MenuItem)
    (menus : list Menu.t) : gmap ObjectId MenuItem * list ObjectId :=
  foldl second_pass_step (menuMap, []) menus.

(** [a.orderIndex - b.orderIndex] on two references. *)
Definition orderIndex_of (menuMap : gmap ObjectId MenuItem) (r : ObjectId) : Z :=
  from_option orderIndex 0%Z (menuMap !! r).

Definition by_orderIndex (menuMap : gmap ObjectId MenuItem)
    (a b : ObjectId) : bool :=
  (orderIndex_of menuMap a <=? orderIndex_of menuMap b)%Z.

(** [menu.children.sort(...)] on the node [r]. *)
Definition sort_children (menuMap : gmap ObjectId MenuItem) (r : ObjectId)
  : gmap ObjectId MenuItem :=
  match menuMap !! r with
  | Some item =>
      <[r := set_children item
               (sort_by (by_orderIndex menuMap) (children item))]> menuMap
  | None => menuMap
  end.

(** The nested value under a reference, [fuel] levels deep. *)
Fixpoint reify (fuel : nat) (menuMap : gmap ObjectId MenuItem) (r : ObjectId)
  : option MenuNode :=
  match fuel with
  | O => None
  | S fuel' =>
      match menuMap !! r with
      | Some item =>
          Some (Node (id item) (label item) (route item) (icon item)
                     (orderIndex item)
                     (omap (reify fuel' menuMap) (children item)))
      | None => None
      end
  end.

(** The three steps of [buildMenuTree] on the heap of nodes: the two passes,
    then the sort of the roots and of the children of each root. *)
Definition buildMenuHeap (menus : list Menu.t)
  : gmap ObjectId MenuItem * list ObjectId :=
  let built := second_pass (first_pass menus) menus in
  let rootMenus := sort_by (by_orderIndex built.1) built.2 in
  (foldl sort_children built.1 rootMenus, rootMenus).

(** A chain of parent references among [n] nodes is shorter than [n], so
    [length menus] levels unfold every node under a root (see
    [reify_forest_fuel]). *)
Definition reify_forest (fuel : nat)
    (heap : gmap ObjectId MenuItem * list ObjectId) : list MenuNode :=
  omap (reify fuel heap.1) heap.2.

Definition buildMenuTree (menus : list Menu.t) : list MenuNode :=
  reify_forest (length menus) (buildMenuHeap menus).

(** [{ $or: [{ permissionCode: { $in: permissions } },
             { permissionCode: null }] }] *)
Definition menu_visible (permissions : list string) (m : Menu.t) : Prop :=
  match Menu.permissionCode m with
  | Some c => c ∈ permissions
  | None => True
  end.

Global Instance menu_visible_dec permissions m
  : Decision (menu_visible permissions m).
Proof. unfold menu_visible. destruct (Menu.permissionCode m); apply _. Defined.

Definition menu_order (a b : Menu.t) : bool :=
  (Menu.orderIndex a <=? Menu.orderIndex b)%Z.

Definition fetchMenus (st : Store) (permissions : list string) : list Menu.t :=
  sort_by menu_order (Mongo.find (menu_visible permissions) (menus st)).

Definition getUserMenus (st : Store) (userId : ObjectId) : list MenuNode :=
  let permissions := getUserPermissions st userId in
  if decide (length permissions = 0%nat) then []
  else buildMenuTree (fetchMenus st permissions).

(** The role of a user as [getUserRole] returns it, or [null]. *)
Record RoleInfo := mkRoleInfo {
  ri_id : ObjectId;
  ri_name : string;
  ri_description : option string
}.

Definition getUserRole (st : Store) (userId : ObjectId) : option RoleInfo :=
  match Mongo.findOne (λ u, User._id u = userId) (users st) with
  | None => None
  | Some user =>
      match populate_role st user with
      | None => None
      | Some role =>
          Some (mkRoleInfo (Role._id role) (Role.name role)
                           (Role.description role))
      end
  end.

End RBACService.

(** All the ids of a forest, parents before children. *)
Fixpoint node_ids (n : MenuNode) : list ObjectId :=
  match n with
  | Node i _ _ _ _ c => i :: (c ≫= node_ids)
  end.

Definition forest_ids (f : list MenuNode) : list ObjectId := f ≫= node_ids.

(** ** Database writes: a state and error monad over the store *)

Definition M (A : Type) : Type := Store → result A * Store.

Definition ret {A} (x : A) : M A := λ st, (inr x, st).

Definition throw {A} (e : error) : M A := λ st, (inl e, st).

Definition bind {A B} (m : M A) (k : A → M B) : M B :=
  λ st,
    match m st with
    | (inl e, st') => (inl e, st')
    | (inr x, st') => k x st'
    end.

Definition get : M Store := λ st, (inr st, st).

Definition put (st' : Store) : M unit := λ _, (inr tt, st').

(** A step that only throws or goes on. *)
Definition check (ok : bool) (e : error) : M unit :=
  if ok then ret tt else throw e.

Notation "'let!' x ':=' m 'in' k" := (bind m (λ x, k))
  (at level 10, x name, m at level 100, k at level 200,
   format "'[v' 'let!'  x  ':='  m  'in' '/' k ']'").

Notation "m ';;' k" := (bind m (λ _, k))
  (at level 100, k at level 200, right associativity).

Definition validated (failure : option string) : M unit :=
  match failure with
  | Some path => throw (ValidationError path)
  | None => ret tt
  end.

(** The unique index that [unique: true] on [username] declares. *)
Definition username_taken (u : User.t) (l : list User.t) : bool :=
  bool_decide (Exists (λ x, User.username x = User.username u
                            ∧ User._id x ≠ User._id u) l).

(** The unique index that [unique: true] on [nationalId] declares. *)
Definition nationalId_taken (c : Citizen.t) (l : list Citizen.t) : bool :=
  bool_decide (Exists (λ x, Citizen.nationalId x = Citizen.nationalId c
                            ∧ Citizen._id x ≠ Citizen._id c) l).

(** [save] of a new user: validation, the pre-save hook that hashes the
    password, then the insert. *)
Definition User_insert (env : Env) (u : User.t) : M User.t :=
  validated (User_validate u);;
  let! st := get in
  check (write_ok env "users") (MongoError "write failed");;
  check (negb (username_taken u (users st))) (DuplicateKeyError "username_1");;
  let u' :=
    User.mk (User._id u) (User.username u) (bcrypt_hash env (User.password u))
            (User.roleId u) (User.role u) (User.status u) (User.phoneNumber u)
            (User.profilePicturePath u) (User.deletedAt u) (now env) (now env) in
  put (set_users st (users st ++ [u']));;
  ret u'.

(** [save] of a user loaded before.  Validation runs on every [save]; the
    update is sent only when a path was modified, and sets [updatedAt]. *)
Definition User_save (env : Env) (u : User.t) : M User.t :=
  validated (User_validate u);;
  let! st := get in
  match Mongo.findOne (λ x, User._id x = User._id u) (users st) with
  | None => throw (MongoError "No document found")
  | Some stored =>
      if decide (stored = u) then ret u
      else
        let hashed :=
          if decide (User.password stored = User.password u) then u
          else User.set_password u (bcrypt_hash env (User.password u)) in
        let u' := User.set_updatedAt hashed (now env) in
        check (write_ok env "users") (MongoError "write failed");;
        check (negb (username_taken u' (users st)))
              (DuplicateKeyError "username_1");;
        put (set_users st (Mongo.replaceById User._id u' (users st)));;
        ret u'
  end.

Definition Citizen_save (env : Env) (c : Citizen.t) : M Citizen.t :=
  validated (Citizen_validate env c);;
  let! st := get in
  match Mongo.findOne (λ x, Citizen._id x = Citizen._id c) (citizens st) with
  | None => throw (MongoError "No document found")
  | Some stored =>
      if decide (stored = c) then ret c
      else
        let c' := Citizen.set_updatedAt c (now env) in
        check (write_ok env "citizens") (MongoError "write failed");;
        check (negb (nationalId_taken c' (citizens st)))
              (DuplicateKeyError "nationalId_1");;
        put (set_citizens st (Mongo.replaceById Citizen._id c' (citizens st)));;
        ret c'
  end.

(** [StatusChangeLog.create({ nationalId, oldStatus, newStatus, changedBy })];
    the schema stamps [changedAt]. *)
Definition StatusChangeLog_create (env : Env) (nationalId oldStatus
    newStatus : string) (changedBy : ObjectId) : M StatusChangeLog.t :=
  let! st := get in
  let row :=
    StatusChangeLog.mk
      (Mongo.freshId (StatusChangeLog._id <$> statusChangeLogs st))
      nationalId oldStatus newStatus changedBy (now env) in
  validated (StatusChangeLog_validate row);;
  check (write_ok env "status_change_logs") (MongoError "write failed");;
  put (set_statusChangeLogs st (statusChangeLogs st ++ [row]));;
  ret row.

(** [save] of a new citizen: validation, then the insert. *)
Definition Citizen_insert (env : Env) (c : Citizen.t) : M Citizen.t :=
  validated (Citizen_validate env c);;
  let! st := get in
  check (write_ok env "citizens") (MongoError "write failed");;
  check (negb (nationalId_taken c (citizens st)))
        (DuplicateKeyError "nationalId_1");;
  let c' :=
    Citizen.mk (Citizen._id c) (Citizen.nationalId c) (Citizen.firstName c)
               (Citizen.middleName c) (Citizen.lastName c) (Citizen.gender c)
               (Citizen.dateOfBirth c) (Citizen.placeOfBirth c)
               (Citizen.nationality c) (Citizen.imagePath c)
               (Citizen.documentPath c) (Citizen.status c)
               (Citizen.deletedAt c) (now env) (now env) in
  put (set_citizens st (citizens st ++ [c']));;
  ret c'.

(** ** fileUpload.util.js *)

Definition strip_dot_slash (s : string) : string :=
  if Js.startsWith s "./" then String.substring 2 (String.length s - 2) s
  else s.

Definition getFileUrl (env : Env) (filePath : option string) : option string :=
  match filePath with
  | None => None
  | Some p =>
      if negb (Js.truthy p) then None
      else if Js.startsWith p "http" then Some p
      else
        let baseUrl :=
          if Js.truthy_opt (BASE_URL env) then default "" (BASE_URL env)
          else "http://localhost:3000" in
        Some (baseUrl +:+ "/" +:+ strip_dot_slash p)
  end.

(** [a || null] on [undefined | null | string]. *)
Definition or_null (o : option string) : option string :=
  match o with
  | Some s => if Js.truthy s then Some s else None
  | None => None
  end.

(** ** auth.middleware.js and permission.middleware.js *)

(** [req.user]: the user document with [roleId] populated (the role
    document, or [null] when the reference does not resolve). *)
Record PopulatedUser := mkPopulatedUser {
  doc : User.t;
  roleDoc : option Role.t
}.

Record Request := mkRequest {
  authorization : option string;
  user : option PopulatedUser;
  userId : option ObjectId;
  userRole : option string
}.

Record Response := mkResponse {
  statusCode : nat;
  success : bool;
  message : string
}.

(** A middleware answers the request or hands it on with [next()]. *)
Inductive Outcome :=
| Respond (res : Response)
| Next (req : Request).

Definition deny (code : nat) (msg : string) : Outcome :=
  Respond (mkResponse code false msg).

Definition authenticate (env : Env) (st : Store) (req : Request) : Outcome :=
  match authorization req with
  | None => deny 401 "Authentication required. Please login."
  | Some authHeader =>
      if negb (Js.startsWith authHeader "Bearer ")
      then deny 401 "Authentication required. Please login."
      else
        let token :=
          String.substring 7 (String.length authHeader - 7) authHeader in
        match jwt_verify env token with
        | Decoded uid =>
            match Mongo.findOne (λ u, User._id u = uid) (users st) with
            | None => deny 401 "User not found"
            | Some u =>
                if negb (bool_decide (User.status u = "ACTIVE"))
                then deny 401 "User account is disabled"
                else if bool_decide (is_Some (User.deletedAt u))
                then deny 401 "User account has been deleted"
                else
                  Next (mkRequest (authorization req)
                          (Some (mkPopulatedUser (User.set_password u "")
                                   (RBACService.populate_role st u)))
                          (Some (User._id u))
                          (Some (User.role u)))
            end
        | JsonWebTokenError => deny 401 "Invalid token"
        | TokenExpiredError => deny 401 "Token expired"
        | OtherJwtError => deny 500 "Authentication error"
        end
  end.

(** [Role.findById(req.user.roleId).populate('permissions')], then
    [permissionCodes.some(code => userPermissions.includes(code))]. *)
Definition requirePermission (permissionCodes : list string) (st : Store)
    (req : Request) : Outcome :=
  match user req with
  | None => deny 401 "Authentication required"
  | Some u =>
      match roleDoc u ≫= λ r,
            Mongo.findOne (λ x, Role._id x = Role._id r) (roles st) with
      | None => deny 403 "Role not found"
      | Some role =>
          let userPermissions :=
            Permission.code <$> RBACService.populate_permissions st role in
          if Js.some (Js.includes userPermissions) permissionCodes
          then Next req
          else deny 403 "Insufficient permissions"
      end
  end.

(** [requireRole(...roles)]: the role name that [authenticate] copied from the
    user document has to be one of [roles]. *)
Definition requireRole (roles : list string) (req : Request) : Outcome :=
  match user req with
  | None => deny 401 "Authentication required"
  | Some _ =>
      match userRole req with
      | Some r =>
          if Js.includes roles r then Next req
          else deny 403 "Insufficient permissions"
      | None => deny 403 "Insufficient permissions"
      end
  end.

(** The middleware list of a route: each one runs when the one before it
    called [next()]. *)
Fixpoint run_middlewares (ms : list (Request → Outcome)) (req : Request)
  : Outcome :=
  match ms with
  | [] => Next req
  | m :: ms' =>
      match m req with
      | Respond res => Respond res
      | Next req' => run_middlewares ms' req'
      end
  end.

(** Every route that names a permission is declared as
    [authenticate, requirePermission(...)]. *)
Definition authorize (env : Env) (st : Store) (permissionCodes : list string)
    (req : Request) : Outcome :=
  run_middlewares [authenticate env st; requirePermission permissionCodes st]
                  req.

Definition allowed (o : Outcome) : bool :=
  match o with
  | Next _ => true
  | Respond _ => false
  end.

(** ** user.service.js *)

(** The [role] field of a normalized user: [null], the role name kept on the
    user, or the populated role. *)
Inductive RoleView :=
| RoleNull
| RoleName (name : string)
| RoleObject (id : ObjectId) (name : string) (description : option string).

Record NormalizedUser := mkNormalizedUser {
  nu_id : ObjectId;
  nu_username : string;
  nu_roleId : option ObjectId;
  nu_role : RoleView;
  nu_status : string;
  nu_phoneNumber : option string;
  nu_profilePicturePath : option string;
  nu_profilePictureUrl : option string;
  nu_createdAt : Date;
  nu_updatedAt : Date
}.

(** [user.roleId] as the service holds it: the raw reference, or what
    [populate('roleId')] put in its place. *)
Inductive RoleRef :=
| Unpopulated
| Populated (r : option Role.t).

Record CreateUserData := mkCreateUserData {
  cu_username : option string;
  cu_password : option string;
  cu_role_id : option ObjectId;
  cu_roleId : option ObjectId;
  cu_status : option string;
  cu_phoneNumber : option string;
  cu_profilePicturePath : option string
}.

(** A role reference of a request body: a value that
    [mongoose.Types.ObjectId.isValid] accepts, as the id it casts to, or any
    other string (such as ["1"], ["2"], ["3"]). *)
Inductive RoleKey :=
| ValidId (id : ObjectId)
| Literal (s : string).

Definition RoleKey_truthy (k : option RoleKey) : bool :=
  match k with
  | Some (ValidId _) => true
  | Some (Literal s) => Js.truthy s
  | None => false
  end.

(** The body of a user update.  A field is [None] when the body does not
    have it; [phoneNumber] and [profilePicturePath] may also be an explicit
    [null]. *)
Record UpdateUserData := mkUpdateUserData {
  uu_role_id : option RoleKey;
  uu_roleId : option RoleKey;
  uu_roleName : option string;
  uu_status : option string;
  uu_phoneNumber : option (option string);
  uu_profilePicturePath : option (option string)
}.

Module UserService.

Definition normalizeUser (env : Env) (u : User.t) (ref : RoleRef)
  : NormalizedUser :=
  let roleId :=
    match ref with
    | Unpopulated => Some (User.roleId u)
    | Populated (Some r) => Some (Role._id r)
    | Populated None => None
    end in
  let kept := if Js.truthy (User.role u) then RoleName (User.role u)
              else RoleNull in
  let role :=
    match ref with
    | Populated (Some r) =>
        if Js.truthy (Role.name r)
        then RoleObject (Role._id r) (Role.name r) (Role.description r)
        else kept
    | _ => kept
    end in
  mkNormalizedUser (User._id u) (User.username u) roleId role (User.status u)
    (User.phoneNumber u) (User.profilePicturePath u)
    (getFileUrl env (User.profilePicturePath u))
    (User.createdAt u) (User.updatedAt u).

Definition createUser (env : Env) (data : CreateUserData) : M NormalizedUser :=
  check (Js.truthy_opt (cu_username data)
         && Js.truthy (Js.trim (default "" (cu_username data))))
        (Error "Username is required");;
  check (Js.truthy_opt (cu_password data)
         && Js.truthy (Js.trim (default "" (cu_password data))))
        (Error "Password is required");;
  match (match cu_role_id data with Some r => Some r | None => cu_roleId data end)
  with
  | None => throw (Error "Role ID is required")
  | Some roleId =>
      let username := Js.trim (default "" (cu_username data)) in
      let password := default "" (cu_password data) in
      check (negb ((Js.length username <? 3)%nat
                   || (100 <? Js.length username)%nat))
            (Error "Username must be between 3 and 100 characters");;
      check (negb (Js.length password <? 6)%nat)
            (Error "Password must be at least 6 characters");;
      let! st := get in
      match Mongo.findOne (λ r, Role._id r = roleId) (roles st) with
      | None => throw (Error "Invalid role ID")
      | Some role =>
          (* Check if username already exists (excluding deleted users) *)
          match Mongo.findOne (λ u, User.username u = username
                                    ∧ User.deletedAt u = None) (users st) with
          | Some existingUser => throw (Error "Username already exists")
          | None =>
              check (negb (Js.truthy_opt (cu_phoneNumber data)
                           && negb (phone_ok
                                (Js.trim (default "" (cu_phoneNumber data))))))
                    (Error "Invalid phone number format. Use 8-15 digits with optional country code");;
              let u :=
                User.mk (Mongo.freshId (User._id <$> users st))
                  username password roleId (Role.name role)
                  (if Js.truthy_opt (cu_status data)
                   then default "" (cu_status data) else "ACTIVE")
                  (or_null (Js.trim <$> cu_phoneNumber data))
                  (or_null (cu_profilePicturePath data))
                  None 0%Z 0%Z in
              let! saved := User_insert env u in
              ret (normalizeUser env saved Unpopulated)
          end
      end
  end.

Definition deleteUser (env : Env) (userId : ObjectId) : M bool :=
  let! st := get in
  match Mongo.findOne (λ u, User._id u = userId) (users st) with
  | None => throw (Error "User not found")
  | Some u =>
      if bool_decide (is_Some (User.deletedAt u))
      then throw (Error "User not found")
      else
        User_save env (User.set_deletedAt u (Some (now env)));;
        ret true
  end.

Definition restoreUser (env : Env) (userId : ObjectId) : M NormalizedUser :=
  let! st := get in
  match Mongo.findOne (λ u, User._id u = userId) (users st) with
  | None => throw (Error "User not found")
  | Some u =>
      let! saved := User_save env (User.set_deletedAt u None) in
      ret (normalizeUser env saved Unpopulated)
  end.

Definition deleteUserPermanent (env : Env) (userId : ObjectId) : M bool :=
  let! st := get in
  match Mongo.findOne (λ u, User._id u = userId) (users st) with
  | None => throw (Error "User not found")
  | Some u =>
      check (write_ok env "users") (MongoError "write failed");;
      put (set_users st (Mongo.deleteOne (λ x, User._id x = userId) (users st)));;
      ret true
  end.

Definition newest_first (a b : User.t) : bool :=
  (User.createdAt b <=? User.createdAt a)%Z.

Definition last_deleted_first (a b : User.t) : bool :=
  Mongo.date_le (User.deletedAt b) (User.deletedAt a).

(** [User.find({ deletedAt: null }).sort({ createdAt: -1 })] *)
Definition activeUsers (st : Store) : list User.t :=
  sort_by newest_first (Mongo.find (λ u, User.deletedAt u = None) (users st)).

(** [User.find({ deletedAt: { $ne: null } }).sort({ deletedAt: -1 })] *)
Definition trashedUsers (st : Store) : list User.t :=
  sort_by last_deleted_first
          (Mongo.find (λ u, User.deletedAt u ≠ None) (users st)).

Definition listUsers (env : Env) (st : Store) (page limit : Z)
  : result (Listing NormalizedUser) :=
  let skip := ((page - 1) * limit)%Z in
  match Mongo.skip skip (activeUsers st) with
  | inl e => inl e
  | inr rest =>
      let found := Mongo.limit limit rest in
      let total := Mongo.countDocuments (λ u, User.deletedAt u = None) (users st) in
      inr (mkListing
             ((λ u, normalizeUser env (User.set_password u "")
                      (Populated (RBACService.populate_role st u))) <$> found)
             (mkPagination page limit total (pages_of total limit)))
  end.

Definition listTrash (env : Env) (st : Store) (page limit : Z)
  : result (Listing NormalizedUser) :=
  let skip := ((page - 1) * limit)%Z in
  match Mongo.skip skip (trashedUsers st) with
  | inl e => inl e
  | inr rest =>
      let found := Mongo.limit limit rest in
      let total := Mongo.countDocuments (λ u, User.deletedAt u ≠ None) (users st) in
      inr (mkListing
             ((λ u, normalizeUser env (User.set_password u "")
                      (Populated (RBACService.populate_role st u))) <$> found)
             (mkPagination page limit total (pages_of total limit)))
  end.

Definition getUserById (env : Env) (st : Store) (userId : ObjectId)
  : option NormalizedUser :=
  match Mongo.findOne (λ u, User._id u = userId) (users st) with
  | None => None
  | Some user =>
      if bool_decide (is_Some (User.deletedAt user)) then None
      else Some (normalizeUser env (User.set_password user "")
                   (Populated (RBACService.populate_role st user)))
  end.

(** [const roleNames = { '1': 'ADMIN', '2': 'OFFICER', '3': 'VIEWER' }] *)
Definition roleNames (roleId : string) : option string :=
  if decide (roleId = "1") then Some "ADMIN"
  else if decide (roleId = "2") then Some "OFFICER"
  else if decide (roleId = "3") then Some "VIEWER"
  else None.

(** The role that [data.role_id || data.roleId] names: by id when the value
    is a valid id, by the name behind a hard-coded id otherwise. *)
Definition role_by_key (st : Store) (roleId : RoleKey) : option Role.t :=
  match roleId with
  | ValidId i => Mongo.findOne (λ r, Role._id r = i) (roles st)
  | Literal s =>
      match roleNames s with
      | Some name => Mongo.findOne (λ r, Role.name r = name) (roles st)
      | None => None
      end
  end.

Definition find_role (st : Store) (data : UpdateUserData) : option Role.t :=
  let byId :=
    if RoleKey_truthy (uu_role_id data) || RoleKey_truthy (uu_roleId data)
    then
      (if RoleKey_truthy (uu_role_id data) then uu_role_id data
       else uu_roleId data) ≫= role_by_key st
    else None in
  match byId with
  | Some role => Some role
  | None =>
      if Js.truthy_opt (uu_roleName data)
      then Mongo.findOne
             (λ r, Role.name r = Js.toUpperCase (default "" (uu_roleName data)))
             (roles st)
      else None
  end.

(** The [if (data.role_id || data.roleId || data.roleName)] block. *)
Definition update_role (st : Store) (data : UpdateUserData) (user : User.t)
  : M User.t :=
  if RoleKey_truthy (uu_role_id data) || RoleKey_truthy (uu_roleId data)
     || Js.truthy_opt (uu_roleName data)
  then
    match find_role st data with
    | None => throw (Error "Invalid role ID or name")
    | Some role =>
        (* PREVENT ADMIN ROLE CHANGE *)
        check (negb (bool_decide (User.role user = "ADMIN")
                     && bool_decide (Role.name role ≠ "ADMIN")))
              (Error "Cannot change role of an Admin user");;
        ret (User.set_role (User.set_roleId user (Role._id role))
                           (Role.name role))
    end
  else ret user.

Definition update_phoneNumber (data : UpdateUserData) (user : User.t)
  : M User.t :=
  match uu_phoneNumber data with
  | Some phoneNumber =>
      check (negb (Js.truthy_opt phoneNumber
                   && negb (phone_ok (Js.trim (default "" phoneNumber)))))
            (Error "Invalid phone number format");;
      ret (User.set_phoneNumber user (or_null (Js.trim <$> phoneNumber)))
  | None => ret user
  end.

Definition updateUser (env : Env) (userId : ObjectId) (data : UpdateUserData)
  : M NormalizedUser :=
  let! st := get in
  match Mongo.findOne (λ u, User._id u = userId) (users st) with
  | None => throw (Error "User not found")
  | Some user =>
      if bool_decide (is_Some (User.deletedAt user))
      then throw (Error "User not found")
      else
        let! u1 := update_role st data user in
        let u2 :=
          if Js.truthy_opt (uu_status data)
          then User.set_status u1 (Js.toUpperCase (default "" (uu_status data)))
          else u1 in
        let! u3 := update_phoneNumber data u2 in
        let u4 :=
          match uu_profilePicturePath data with
          | Some profilePicturePath =>
              User.set_profilePicturePath u3 (or_null profilePicturePath)
          | None => u3
          end in
        let! saved := User_save env u4 in
        ret (normalizeUser env saved Unpopulated)
  end.

Definition updateUserPassword (env : Env) (userId : ObjectId)
    (newPassword : string) : M bool :=
  let! st := get in
  match Mongo.findOne (λ u, User._id u = userId) (users st) with
  | None => throw (Error "User not found")
  | Some user =>
      if bool_decide (is_Some (User.deletedAt user))
      then throw (Error "User not found")
      else
        check (negb (Js.length newPassword <? 6)%nat)
              (Error "Password must be at least 6 characters");;
        User_save env (User.set_password user newPassword);;
        ret true
  end.

Definition changeUserStatus (env : Env) (userId : ObjectId) (status : string)
  : M NormalizedUser :=
  let! st := get in
  match Mongo.findOne (λ u, User._id u = userId) (users st) with
  | None => throw (Error "User not found")
  | Some user =>
      if bool_decide (is_Some (User.deletedAt user))
      then throw (Error "User not found")
      else
        let! saved := User_save env (User.set_status user
                                       (Js.toUpperCase status)) in
        ret (normalizeUser env saved Unpopulated)
  end.

End UserService.

(** ** nationalIdGenerator.util.js

    A JavaScript number is exact up to 2^53 and rounds above it.  The
    numbers of this module are natural numbers: they follow the code as long
    as the id that [parseInt] reads and the counter of the search stay below
    2^53, which the statements about the sequential search assume
    ([schema_ids]: the stored ids have the ten digits of the schema; and
    the bound on [nextId]).  [random i] is the value of
    [Math.floor(Math.random() * 10)] at the [i]-th call of [Math.random]
    (taken modulo 10).  Reads of the collection do not fail, so the [catch]
    branch of [generateSequentialId] is not entered. *)

Module NationalIdGenerator.

Definition ID_LENGTH : nat := 10.

Definition digit (d : nat) : Ascii.ascii := Ascii.ascii_of_nat (48 + d mod 10).

Fixpoint zeros (n : nat) : string :=
  match n with
  | O => EmptyString
  | S n' => String (digit 0) (zeros n')
  end.

(** [s.padStart(n, '0')] *)
Definition padStart (n : nat) (s : string) : string :=
  zeros (n - Js.length s) +:+ s.

(** [parseInt] on a string of decimal digits. *)
Fixpoint parseInt_from (acc : N) (s : string) : N :=
  match s with
  | String c s' =>
      parseInt_from (acc * 10 + N.of_nat (Ascii.nat_of_ascii c - 48)) s'
  | EmptyString => acc
  end.

Definition parseInt (s : string) : N := parseInt_from 0 s.

(** The [n] digits that [generateRandomId] appends, from the [i]-th draw. *)
Fixpoint random_digits (random : nat → nat) (i n : nat) : string :=
  match n with
  | O => EmptyString
  | S n' => String (digit (random i)) (random_digits random (S i) n')
  end.

Definition generateRandomId (random : nat → nat) (i : nat) : string :=
  random_digits random i ID_LENGTH.

(** The [while (await Citizen.findOne({ nationalId }))] loop, at most [fuel]
    rounds of it; one round more than there are citizens is enough (see
    [next_unused_fresh]). *)
Fixpoint next_unused (fuel : nat) (coll : list Citizen.t) (nextId : N)
  : string :=
  let nationalId := padStart ID_LENGTH (pretty nextId) in
  match fuel with
  | O => nationalId
  | S fuel' =>
      match Mongo.findOne (λ c, Citizen.nationalId c = nationalId) coll with
      | Some _ => next_unused fuel' coll (nextId + 1)
      | None => nationalId
      end
  end.

(** [{ nationalId: { $regex: /^\d+$/ } }] *)
Definition numeric (c : Citizen.t) : Prop :=
  Js.truthy (Citizen.nationalId c) && Js.all_digits (Citizen.nationalId c).

Definition highest_first (a b : Citizen.t) : bool :=
  String.leb (Citizen.nationalId b) (Citizen.nationalId a).

Definition generateSequentialId (coll : list Citizen.t) : string :=
  let lastCitizen := head (sort_by highest_first (Mongo.find numeric coll)) in
  let nextId :=
    match lastCitizen with
    | Some c =>
        if Js.truthy (Citizen.nationalId c)
        then (parseInt (Citizen.nationalId c) + 1)%N
        else 1%N
    | None => 1%N
    end in
  next_unused (S (length coll)) coll nextId.

(** The [while (attempt < maxAttempts)] loop with [n] attempts left. *)
Fixpoint random_attempts (random : nat → nat) (coll : list Citizen.t)
    (attempt n : nat) : option string :=
  match n with
  | O => None
  | S n' =>
      let nationalId := generateRandomId random (attempt * ID_LENGTH) in
      match Mongo.findOne (λ c, Citizen.nationalId c = nationalId) coll with
      | None => Some nationalId
      | Some _ => random_attempts random coll (S attempt) n'
      end
  end.

Definition generateNationalId (random : nat → nat) (coll : list Citizen.t)
  : string :=
  match random_attempts random coll 0 100 with
  | Some nationalId => nationalId
  | None => generateSequentialId coll
  end.

End NationalIdGenerator.

(** ** citizen.service.js *)

Record NormalizedCitizen := mkNormalizedCitizen {
  nc_id : ObjectId;
  nc_nationalId : string;
  nc_firstName : string;
  nc_middleName : option string;
  nc_lastName : string;
  nc_fullName : string;
  nc_gender : string;
  nc_dateOfBirth : Z;
  nc_placeOfBirth : string;
  nc_nationality : string;
  nc_status : string;
  nc_imagePath : option string;
  nc_imageUrl : option string;
  nc_documentPath : option string;
  nc_documentUrl : option string;
  nc_createdAt : Date;
  nc_updatedAt : Date
}.

(** The body of an update request.  A field is [None] when the body does not
    have it; [middleName] may also be an explicit [null]; [dateOfBirth] is
    the instant that [new Date(data.dateOfBirth)] parses. *)
Record UpdateCitizenData := mkUpdateCitizenData {
  ud_firstName : option string;
  ud_middleName : option (option string);
  ud_lastName : option string;
  ud_gender : option string;
  ud_dateOfBirth : option Date;
  ud_placeOfBirth : option string;
  ud_nationality : option string;
  ud_status : option string
}.

(** The body of a registration.  A field is [None] when the body does not
    have it; [dateOfBirth] is the instant that [new Date(data.dateOfBirth)]
    parses. *)
Record CreateCitizenData := mkCreateCitizenData {
  cc_firstName : option string;
  cc_middleName : option string;
  cc_lastName : option string;
  cc_gender : option string;
  cc_dateOfBirth : option Date;
  cc_placeOfBirth : option string;
  cc_nationality : option string
}.

Record FileData := mkFileData {
  fd_imagePath : option string;
  fd_documentPath : option string
}.

Module CitizenService.

(** [dateOfBirth.toISOString().split('T')[0]] names a UTC day; the day is
    kept as its number since the epoch. *)
Definition normalizeCitizen (env : Env) (c : Citizen.t) : NormalizedCitizen :=
  mkNormalizedCitizen (Citizen._id c) (Citizen.nationalId c)
    (Citizen.firstName c) (Citizen.middleName c) (Citizen.lastName c)
    (Citizen.fullName c) (Citizen.gender c)
    (Citizen.dateOfBirth c / 86400000)%Z
    (Citizen.placeOfBirth c) (Citizen.nationality c) (Citizen.status c)
    (Citizen.imagePath c) (getFileUrl env (Citizen.imagePath c))
    (Citizen.documentPath c) (getFileUrl env (Citizen.documentPath c))
    (Citizen.createdAt c) (Citizen.updatedAt c).

Definition set_when (present : option string) (set : string → Citizen.t)
    (c : Citizen.t) : Citizen.t :=
  if Js.truthy_opt present then set (Js.trim (default "" present)) else c.

Definition update_gender (data : UpdateCitizenData) (c : Citizen.t)
  : M Citizen.t :=
  if Js.truthy_opt (ud_gender data) then
    let gender := Js.toUpperCase (default "" (ud_gender data)) in
    check (Js.includes ["MALE"; "FEMALE"] gender)
          (Error "Gender must be 'MALE' or 'FEMALE'");;
    ret (Citizen.set_gender c gender)
  else ret c.

Definition update_dateOfBirth (env : Env) (data : UpdateCitizenData)
    (c : Citizen.t) : M Citizen.t :=
  match ud_dateOfBirth data with
  | Some dateOfBirth =>
      check (negb (now env <? dateOfBirth)%Z)
            (Error "Date of birth cannot be in the future");;
      check (negb (dateOfBirth <? hundredYearsAgo env)%Z)
            (Error "Date of birth cannot be more than 100 years ago");;
      ret (Citizen.set_dateOfBirth c dateOfBirth)
  | None => ret c
  end.

(** The [if (data.status)] block: the new status is set on the document in
    memory, and the change is logged before the document is saved. *)
Definition update_status (env : Env) (nationalId : string)
    (data : UpdateCitizenData) (userId : ObjectId) (c : Citizen.t)
  : M Citizen.t :=
  if Js.truthy_opt (ud_status data) then
    let oldStatus := Citizen.status c in
    let c' := Citizen.set_status c (Js.toUpperCase (default "" (ud_status data))) in
    (if decide (oldStatus ≠ Citizen.status c')
     then StatusChangeLog_create env nationalId oldStatus (Citizen.status c')
                                 userId;; ret tt
     else ret tt);;
    ret c'
  else ret c.

Definition updateCitizen (env : Env) (nationalId : string)
    (data : UpdateCitizenData) (userId : ObjectId) : M NormalizedCitizen :=
  let! st := get in
  match Mongo.findOne (λ c, Citizen.nationalId c = nationalId
                            ∧ Citizen.deletedAt c = None) (citizens st) with
  | None => throw (Error "Citizen not found")
  | Some citizen =>
      let c1 := set_when (ud_firstName data) (Citizen.set_firstName citizen)
                         citizen in
      let c2 :=
        match ud_middleName data with
        | Some v => Citizen.set_middleName c1 (or_null (Js.trim <$> v))
        | None => c1
        end in
      let c3 := set_when (ud_lastName data) (Citizen.set_lastName c2) c2 in
      let! c4 := update_gender data c3 in
      let! c5 := update_dateOfBirth env data c4 in
      let c6 := set_when (ud_placeOfBirth data) (Citizen.set_placeOfBirth c5)
                         c5 in
      let c7 := set_when (ud_nationality data) (Citizen.set_nationality c6)
                         c6 in
      let! c8 := update_status env nationalId data userId c7 in
      let! saved := Citizen_save env c8 in
      ret (normalizeCitizen env saved)
  end.

(** The handler of [POST /api/citizens/:nationalId/status], after its
    validator [body('status').isIn(['ACTIVE', 'DECEASED'])]:
    [updateCitizen(nationalId, { status }, req.userId)]. *)
Definition status_only (status : string) : UpdateCitizenData :=
  mkUpdateCitizenData None None None None None None None (Some status).

Definition deleteCitizen (env : Env) (nationalId : string) (userId : ObjectId)
  : M bool :=
  let! st := get in
  match Mongo.findOne (λ c, Citizen.nationalId c = nationalId
                            ∧ Citizen.deletedAt c = None) (citizens st) with
  | None => throw (Error "Citizen not found")
  | Some citizen =>
      Citizen_save env (Citizen.set_deletedAt citizen (Some (now env)));;
      ret true
  end.

Definition restoreCitizen (env : Env) (nationalId : string)
  : M NormalizedCitizen :=
  let! st := get in
  match Mongo.findOne (λ c, Citizen.nationalId c = nationalId) (citizens st)
  with
  | None => throw (Error "Citizen not found")
  | Some citizen =>
      let! saved := Citizen_save env (Citizen.set_deletedAt citizen None) in
      ret (normalizeCitizen env saved)
  end.

Definition deleteCitizenPermanent (env : Env) (nationalId : string) : M bool :=
  let! st := get in
  match Mongo.findOne (λ c, Citizen.nationalId c = nationalId) (citizens st)
  with
  | None => throw (Error "Citizen not found")
  | Some citizen =>
      check (write_ok env "citizens") (MongoError "write failed");;
      put (set_citizens st
             (Mongo.deleteOne (λ x, Citizen._id x = Citizen._id citizen)
                              (citizens st)));;
      ret true
  end.

Definition newest_first (a b : Citizen.t) : bool :=
  (Citizen.createdAt b <=? Citizen.createdAt a)%Z.

Definition last_deleted_first (a b : Citizen.t) : bool :=
  Mongo.date_le (Citizen.deletedAt b) (Citizen.deletedAt a).

(** [Citizen.find({ deletedAt: null }).sort({ createdAt: -1 })] *)
Definition activeCitizens (st : Store) : list Citizen.t :=
  sort_by newest_first
          (Mongo.find (λ c, Citizen.deletedAt c = None) (citizens st)).

(** [Citizen.find({ deletedAt: { $ne: null } }).sort({ deletedAt: -1 })] *)
Definition trashedCitizens (st : Store) : list Citizen.t :=
  sort_by last_deleted_first
          (Mongo.find (λ c, Citizen.deletedAt c ≠ None) (citizens st)).

Definition listCitizens (env : Env) (st : Store) (page limit : Z)
  : result (Listing NormalizedCitizen) :=
  let skip := ((page - 1) * limit)%Z in
  match Mongo.skip skip (activeCitizens st) with
  | inl e => inl e
  | inr rest =>
      let found := Mongo.limit limit rest in
      let total := Mongo.countDocuments (λ c, Citizen.deletedAt c = None)
                                        (citizens st) in
      inr (mkListing (normalizeCitizen env <$> found)
             (mkPagination page limit total (pages_of total limit)))
  end.

Definition listTrash (env : Env) (st : Store) (page limit : Z)
  : result (Listing NormalizedCitizen) :=
  let skip := ((page - 1) * limit)%Z in
  match Mongo.skip skip (trashedCitizens st) with
  | inl e => inl e
  | inr rest =>
      let found := Mongo.limit limit rest in
      let total := Mongo.countDocuments (λ c, Citizen.deletedAt c ≠ None)
                                        (citizens st) in
      inr (mkListing (normalizeCitizen env <$> found)
             (mkPagination page limit total (pages_of total limit)))
  end.

(** [!data[field] || !data[field].toString().trim()] *)
Definition missing (field : option string) : bool :=
  negb (Js.truthy_opt field && Js.truthy (Js.trim (default "" field))).

Definition createCitizen (env : Env) (random : nat → nat)
    (data : CreateCitizenData) (userId : ObjectId) : M NormalizedCitizen :=
  check (negb (missing (cc_firstName data)))
        (Error "Field 'firstName' is required");;
  check (negb (missing (cc_lastName data)))
        (Error "Field 'lastName' is required");;
  check (negb (missing (cc_gender data)))
        (Error "Field 'gender' is required");;
  match cc_dateOfBirth data with
  | None => throw (Error "Field 'dateOfBirth' is required")
  | Some dateOfBirth =>
      check (negb (missing (cc_placeOfBirth data)))
            (Error "Field 'placeOfBirth' is required");;
      let gender := Js.toUpperCase (default "" (cc_gender data)) in
      check (Js.includes ["MALE"; "FEMALE"] gender)
            (Error "Gender must be 'MALE' or 'FEMALE'");;
      check (negb (now env <? dateOfBirth)%Z)
            (Error "Date of birth cannot be in the future");;
      check (negb (dateOfBirth <? hundredYearsAgo env)%Z)
            (Error "Date of birth cannot be more than 100 years ago");;
      let! st := get in
      let nationalId :=
        NationalIdGenerator.generateNationalId random (citizens st) in
      match Mongo.findOne (λ c, Citizen.nationalId c = nationalId)
                          (citizens st) with
      | Some _ => throw (Error "National ID collision. Please try again.")
      | None =>
          let citizen :=
            Citizen.mk (Mongo.freshId (Citizen._id <$> citizens st))
              nationalId
              (Js.trim (default "" (cc_firstName data)))
              (or_null (Js.trim <$> cc_middleName data))
              (Js.trim (default "" (cc_lastName data)))
              gender dateOfBirth
              (Js.trim (default "" (cc_placeOfBirth data)))
              (default "Somali" (or_null (Js.trim <$> cc_nationality data)))
              None None "ACTIVE" None 0%Z 0%Z in
          let! saved := Citizen_insert env citizen in
          ret (normalizeCitizen env saved)
      end
  end.

Definition getCitizenByNationalId (env : Env) (st : Store)
    (nationalId : string) : option NormalizedCitizen :=
  normalizeCitizen env
    <$> Mongo.findOne (λ c, Citizen.nationalId c = nationalId
                            ∧ Citizen.deletedAt c = None) (citizens st).

Definition updateCitizenFiles (env : Env) (nationalId : string)
    (fileData : FileData) : M NormalizedCitizen :=
  let! st := get in
  match Mongo.findOne (λ c, Citizen.nationalId c = nationalId
                            ∧ Citizen.deletedAt c = None) (citizens st) with
  | None => throw (Error "Citizen not found")
  | Some citizen =>
      let c1 := if Js.truthy_opt (fd_imagePath fileData)
                then Citizen.set_imagePath citizen (fd_imagePath fileData)
                else citizen in
      let c2 := if Js.truthy_opt (fd_documentPath fileData)
                then Citizen.set_documentPath c1 (fd_documentPath fileData)
                else c1 in
      let! saved := Citizen_save env c2 in
      ret (normalizeCitizen env saved)
  end.

End CitizenService.

(** ** dashboard.service.js and report.service.js

    The activity log is a collection of its own, written by the routes; the
    dashboard only counts it. *)

Module Activity.
Record t := mk {
  _id : ObjectId;
  userId : ObjectId;
  action : string;
  entityType : string;
  entityId : option string;
  description : option string;
  ipAddress : option string;
  userAgent : option string;
  createdAt : Date;
  updatedAt : Date
}.
End Activity.

Record DashboardStats := mkDashboardStats {
  totalCitizens : Z;
  activeCitizens : Z;
  deceasedCitizens : Z;
  totalUsers : Z;
  activeUsers : Z;
  disabledUsers : Z;
  recentActivities : Z
}.

Module DashboardService.

Definition getDashboardStats (env : Env) (st : Store)
    (activities : list Activity.t) : DashboardStats :=
  let totalCitizens :=
    Mongo.countDocuments (λ c, Citizen.deletedAt c = None) (citizens st) in
  let activeCitizens :=
    Mongo.countDocuments (λ c, Citizen.deletedAt c = None
                               ∧ Citizen.status c = "ACTIVE") (citizens st) in
  let totalUsers :=
    Mongo.countDocuments (λ u, User.deletedAt u = None) (users st) in
  let activeUsers :=
    Mongo.countDocuments (λ u, User.deletedAt u = None
                               ∧ User.status u = "ACTIVE") (users st) in
  let recentActivities :=
    Mongo.countDocuments
      (λ a, (now env - 24 * 60 * 60 * 1000 ≤ Activity.createdAt a)%Z)
      activities in
  mkDashboardStats totalCitizens activeCitizens
    (totalCitizens - activeCitizens) totalUsers activeUsers
    (totalUsers - activeUsers) recentActivities.

End DashboardService.

Record CitizenReport := mkCitizenReport {
  cr_total : nat;
  cr_MALE : nat;
  cr_FEMALE : nat;
  cr_ACTIVE : nat;
  cr_DECEASED : nat;
  cr_data : list Citizen.t
}.

Module ReportService.

(** The query of [getCitizenReport]: [deletedAt: null], and the bounds on
    [createdAt] that were given. *)
Definition in_report (startDate endDate : option Date) (c : Citizen.t)
  : Prop :=
  Citizen.deletedAt c = None
  ∧ from_option (λ d, (d ≤ Citizen.createdAt c)%Z) True startDate
  ∧ from_option (λ d, (Citizen.createdAt c ≤ d)%Z) True endDate.

Global Instance in_report_dec startDate endDate c
  : Decision (in_report startDate endDate c).
Proof.
  unfold in_report. destruct startDate, endDate; simpl; apply _.
Defined.

Definition getCitizenReport (st : Store) (startDate endDate : option Date)
  : CitizenReport :=
  let found :=
    sort_by CitizenService.newest_first
            (Mongo.find (in_report startDate endDate) (citizens st)) in
  mkCitizenReport (length found)
    (length (filter (λ c, Citizen.gender c = "MALE") found))
    (length (filter (λ c, Citizen.gender c = "FEMALE") found))
    (length (filter (λ c, Citizen.status c = "ACTIVE") found))
    (length (filter (λ c, Citizen.status c = "DECEASED") found))
    found.

End ReportService.

(** ** A sample database

    The documents of [database/seed.js] (permissions, roles, menus, the two
    default users), with a few more that the statements below are tried on:
    a role that creates citizens but does not view them, a role without
    permissions, a menu open to every authenticated user, a disabled and a
    trashed user, and two citizens. *)

Module Sample.

Definition permissions : list Permission.t := [
  Permission.mk 1 "MANAGE_USERS" "Manage Users" None;
  Permission.mk 2 "VIEW_CITIZEN" "View Citizens" None;
  Permission.mk 3 "CREATE_CITIZEN" "Create Citizens" None;
  Permission.mk 4 "UPDATE_CITIZEN" "Update Citizens" None;
  Permission.mk 5 "DELETE_CITIZEN" "Delete Citizens" None;
  Permission.mk 6 "VIEW_DASHBOARD" "View Dashboard" None;
  Permission.mk 7 "VIEW_REPORTS" "View Reports" None;
  Permission.mk 8 "MANAGE_NOTICES" "Manage Notices" None;
  Permission.mk 9 "VIEW_ACTIVITIES" "View Activities" None
].

Definition adminRole : Role.t :=
  Role.mk 11 "ADMIN" (Some "System Administrator with full access")
          [1; 2; 3; 4; 5; 6; 7; 8; 9].

Definition officerRole : Role.t :=
  Role.mk 12 "OFFICER"
          (Some "Registration Officer with citizen management access")
          [2; 3; 4; 6; 7].

Definition viewerRole : Role.t :=
  Role.mk 13 "VIEWER" (Some "View-only access to citizen records") [2; 6].

(** OFFICER after an administrator took [VIEW_CITIZEN] away from it. *)
Definition clerkRole : Role.t :=
  Role.mk 12 "OFFICER"
          (Some "Registration Officer with citizen management access")
          [3; 4; 6; 7].

(** VIEWER as the seeder first creates it, before permissions are assigned. *)
Definition bareRole : Role.t :=
  Role.mk 13 "VIEWER" (Some "View-only access to citizen records") [].

Definition dashboardMenu : Menu.t :=
  Menu.mk 21 "Dashboard" (Some "/dashboard") (Some "home") None 1
          (Some "VIEW_DASHBOARD").

Definition citizensMenu : Menu.t :=
  Menu.mk 22 "Citizens" (Some "/citizens") (Some "users") None 2
          (Some "VIEW_CITIZEN").

Definition addCitizenMenu : Menu.t :=
  Menu.mk 23 "Add Citizen" (Some "/citizens/create") (Some "user-plus")
          (Some 22) 3 (Some "CREATE_CITIZEN").

Definition reportsMenu : Menu.t :=
  Menu.mk 24 "Reports" (Some "/reports") (Some "bar-chart") None 4
          (Some "VIEW_REPORTS").

Definition usersMenu : Menu.t :=
  Menu.mk 25 "User Management" (Some "/users") (Some "settings") None 5
          (Some "MANAGE_USERS").

Definition noticesMenu : Menu.t :=
  Menu.mk 26 "Notices" (Some "/notices") (Some "bell") None 6 None.

Definition menus : list Menu.t :=
  [dashboardMenu; citizensMenu; addCitizenMenu; reportsMenu; usersMenu;
   noticesMenu].

Definition admin : User.t :=
  User.mk 31 "admin" "$2a$10$admin" 11 "ADMIN" "ACTIVE" None None None
          100 100.

Definition officer1 : User.t :=
  User.mk 32 "officer1" "$2a$10$officer1" 12 "OFFICER" "ACTIVE" None None
          None 200 200.

Definition viewer1 : User.t :=
  User.mk 33 "viewer1" "$2a$10$viewer1" 13 "VIEWER" "ACTIVE" None None
          None 300 300.

(** An administrator whose account was disabled. *)
Definition disabledAdmin : User.t :=
  User.mk 34 "oldadmin" "$2a$10$oldadmin" 11 "ADMIN" "DISABLED" None None
          None 400 450.

(** An officer who was moved to the trash. *)
Definition trashedOfficer : User.t :=
  User.mk 35 "officer2" "$2a$10$officer2" 12 "OFFICER" "ACTIVE" None None
          (Some 550%Z) 500 550.

Definition amina : Citizen.t :=
  Citizen.mk 41 "1000000001" "Amina" None "Ali" "FEMALE" 5000 "Mogadishu"
             "Somali" None None "ACTIVE" None 600 600.

Definition bashir : Citizen.t :=
  Citizen.mk 42 "1000000002" "Bashir" (Some "Omar") "Hassan" "MALE" 6000
             "Hargeisa" "Somali" None None "ACTIVE" (Some 750%Z) 700 750.

Definition store : Store :=
  mkStore [admin; officer1; viewer1; disabledAdmin; trashedOfficer]
          [adminRole; officerRole; viewerRole] permissions menus
          [amina; bashir] [].

(** The same database with OFFICER cut down to [clerkRole]. *)
Definition clerk_store : Store :=
  mkStore [admin; officer1; viewer1; disabledAdmin; trashedOfficer]
          [adminRole; clerkRole; viewerRole] permissions menus
          [amina; bashir] [].

(** The same database with VIEWER holding no permission. *)
Definition bare_store : Store :=
  mkStore [admin; officer1; viewer1; disabledAdmin; trashedOfficer]
          [adminRole; officerRole; bareRole] permissions menus
          [amina; bashir] [].

(** A token names its user by the decimal id after [id:]; the hash prefixes
    the password; every write goes through. *)
Definition env : Env :=
  mkEnv 10000 0 None (λ s, "$2a$10$" +:+ s)
        (λ token,
           if decide (token = "id:34") then Decoded 34
           else if decide (token = "id:35") then Decoded 35
           else if decide (token = "id:31") then Decoded 31
           else JsonWebTokenError)
        (λ _, true).

(** The same environment when writes to the audit collection fail. *)
Definition env_log_down : Env :=
  mkEnv 10000 0 None (λ s, "$2a$10$" +:+ s) (λ _, JsonWebTokenError)
        (λ collection, bool_decide (collection ≠ "status_change_logs")).

(** The same environment when writes to the citizens collection fail. *)
Definition env_citizens_down : Env :=
  mkEnv 10000 0 None (λ s, "$2a$10$" +:+ s) (λ _, JsonWebTokenError)
        (λ collection, bool_decide (collection ≠ "citizens")).

End Sample.

(** ** Vocabulary of the statements *)

(** The parent reference of the fetched menu with id [x]. *)
Definition parent_of (menus : list Menu.t) (x : ObjectId) : option ObjectId :=
  Mongo.findOne (λ m, Menu._id m = x) menus ≫= Menu.parentId.

(** The [e]-th ancestor of [x] along the parent references. *)
Fixpoint ancestor (menus : list Menu.t) (e : nat) (x : ObjectId)
  : option ObjectId :=
  match e with
  | O => Some x
  | S e' => ancestor menus e' x ≫= parent_of menus
  end.

(** [r] is a fetched menu without a parent reference. *)
Definition is_root (menus : list Menu.t) (r : ObjectId) : Prop :=
  ∃ m, m ∈ menus ∧ Menu._id m = r ∧ Menu.parentId m = None.

Definition childrenOf (menus : list Menu.t) (k : ObjectId) : list ObjectId :=
  Menu._id <$> filter (λ m, Menu.parentId m = Some k) menus.

Definition rootsOf (menus : list Menu.t) : list ObjectId :=
  Menu._id <$> filter (λ m, Menu.parentId m = None) menus.

(** The ids under the reference [k], [fuel] levels deep. *)
Definition ids_under (fuel : nat) (menuMap : gmap ObjectId MenuItem)
    (k : ObjectId) : list ObjectId :=
  from_option node_ids [] (RBACService.reify fuel menuMap k).

(** A node after the pushes of the second pass. *)
Definition add_children (l : list ObjectId) (item : MenuItem) : MenuItem :=
  RBACService.set_children item (children item ++ l).

(** What the two passes and the sorts establish on the heap of nodes. *)
Definition heap_ok (menus : list Menu.t) (menuMap : gmap ObjectId MenuItem)
  : Prop :=
  ∀ k,
    match menuMap !! k with
    | Some item =>
        k ∈ Menu._id <$> menus ∧ id item = k
        ∧ children item ≡ₚ childrenOf menus k
    | None => k ∉ Menu._id <$> menus
    end.

(** The permission codes attached to a role: the codes of the permission
    documents that the role references. *)
Definition attachedCodes (st : Store) (r : Role.t) : gset string :=
  list_to_set
    (Permission.code
       <$> filter (λ p, Permission._id p ∈ Role.permissions r)
                  (permissions st)).

(** The principal of a request: the user id that its bearer token decodes
    to. *)
Definition principal_of (env : Env) (req : Request) : option ObjectId :=
  match authorization req with
  | Some authHeader =>
      if Js.startsWith authHeader "Bearer " then
        match jwt_verify env
                (String.substring 7 (String.length authHeader - 7) authHeader)
        with
        | Decoded uid => Some uid
        | _ => None
        end
      else None
  | None => None
  end.

(** The three states of the soft-delete lifecycle; [Purged] is the state of
    a key that no document has. *)
Inductive Lifecycle := Active | Trashed | Purged.

Global Instance Lifecycle_eq_dec : EqDecision Lifecycle.
Proof. solve_decision. Defined.

Definition state_of (deletedAt : option Date) : Lifecycle :=
  match deletedAt with
  | None => Active
  | Some _ => Trashed
  end.

Definition user_state (st : Store) (userId : ObjectId) : Lifecycle :=
  match Mongo.findOne (λ u, User._id u = userId) (users st) with
  | Some u => state_of (User.deletedAt u)
  | None => Purged
  end.

Definition citizen_state (st : Store) (nationalId : string) : Lifecycle :=
  match Mongo.findOne (λ c, Citizen.nationalId c = nationalId) (citizens st)
  with
  | Some c => state_of (Citizen.deletedAt c)
  | None => Purged
  end.

(** The row that a status change of the citizen [nationalId] writes. *)
Definition transition_row (env : Env) (st : Store) (nationalId oldStatus
    newStatus : string) (actor : ObjectId) : StatusChangeLog.t :=
  StatusChangeLog.mk
    (Mongo.freshId (StatusChangeLog._id <$> statusChangeLogs st))
    nationalId oldStatus newStatus actor (now env).

(** The checks of [updateCitizen] on [gender] and [dateOfBirth] pass. *)
Definition fields_accepted (env : Env) (data : UpdateCitizenData) : bool :=
  (if Js.truthy_opt (ud_gender data)
   then Js.includes ["MALE"; "FEMALE"]
          (Js.toUpperCase (default "" (ud_gender data)))
   else true)
  && match ud_dateOfBirth data with
     | Some d => negb (now env <? d)%Z && negb (d <? hundredYearsAgo env)%Z
     | None => true
     end.

(** The active citizen that [updateCitizen] and [deleteCitizen] load. *)
Definition active_citizen (st : Store) (nationalId : string)
  : option Citizen.t :=
  Mongo.findOne (λ c, Citizen.nationalId c = nationalId
                      ∧ Citizen.deletedAt c = None) (citizens st).

(** The documents of page [page] of a listing [l], [limit] to a page. *)
Definition window {A} (page limit : Z) (l : list A) : list A :=
  take (Z.to_nat limit) (drop (Z.to_nat ((page - 1) * limit)) l).

(** [l] is the listing of the documents of [coll] that satisfy [P], in the
    order [R], paginated by [limit]: it holds exactly those documents, each
    once; every one of them is on some page; and entries come in the order
    [R] within a page and from a page to a later one. *)
Definition listing_of {A} (key : A → ObjectId) (P : A → Prop)
    (R : A → A → Prop) (limit : Z) (coll l : list A) : Prop :=
  (∀ x, x ∈ l ↔ x ∈ coll ∧ P x)
  ∧ NoDup (key <$> l)
  ∧ (∀ x, x ∈ l → ∃ page, (1 ≤ page)%Z ∧ x ∈ window page limit l)
  ∧ (∀ p q j k x y,
       (1 ≤ p)%Z → (1 ≤ q)%Z →
       window p limit l !! j = Some x → window q limit l !! k = Some y →
       (p < q)%Z ∨ (p = q ∧ (j < k)%nat) → R x y).

(** The [data] and the [total] of a listing response. *)
Definition page_data {A} (r : result (Listing A)) : option (list A) :=
  match r with
  | inr l => Some (data l)
  | inl _ => None
  end.

Definition page_total {A} (r : result (Listing A)) : option Z :=
  match r with
  | inr l => Some (total (pagination l))
  | inl _ => None
  end.

(** The user that a request is made as: the principal of its token, when it
    is stored, ACTIVE and not in the trash. *)
Definition active_principal (env : Env) (st : Store) (req : Request)
  : option User.t :=
  principal_of env req ≫= λ uid,
  Mongo.findOne (λ u, User._id u = uid) (users st) ≫= λ u,
  if bool_decide (User.status u = "ACTIVE" ∧ User.deletedAt u = None)
  then Some u else None.

(** The document that [save] writes for the user [u] in memory, loaded as
    [stored]: a modified password is hashed, and [updatedAt] is stamped. *)
Definition saved_user (env : Env) (stored u : User.t) : User.t :=
  User.set_updatedAt
    (if decide (User.password stored = User.password u) then u
     else User.set_password u (bcrypt_hash env (User.password u)))
    (now env).

(** The documents that the inserts write: the password hashed, the
    timestamps set. *)
Definition inserted_user (env : Env) (u : User.t) : User.t :=
  User.mk (User._id u) (User.username u) (bcrypt_hash env (User.password u))
          (User.roleId u) (User.role u) (User.status u) (User.phoneNumber u)
          (User.profilePicturePath u) (User.deletedAt u) (now env) (now env).

Definition inserted_citizen (env : Env) (c : Citizen.t) : Citizen.t :=
  Citizen.mk (Citizen._id c) (Citizen.nationalId c) (Citizen.firstName c)
             (Citizen.middleName c) (Citizen.lastName c) (Citizen.gender c)
             (Citizen.dateOfBirth c) (Citizen.placeOfBirth c)
             (Citizen.nationality c) (Citizen.imagePath c)
             (Citizen.documentPath c) (Citizen.status c)
             (Citizen.deletedAt c) (now env) (now env).

(** A document as the soft delete writes it, and as a write that changes
    nothing else leaves it. *)
Definition trashed_user (env : Env) (u : User.t) : User.t :=
  User.set_updatedAt (User.set_deletedAt u (Some (now env))) (now env).

Definition trashed_citizen (env : Env) (c : Citizen.t) : Citizen.t :=
  Citizen.set_updatedAt (Citizen.set_deletedAt c (Some (now env))) (now env).

(** The citizens [l'] after a call have the status that they had in [l]
    before it, and a citizen that is new is ACTIVE. *)
Definition status_kept (l l' : list Citizen.t) : Prop :=
  ∀ x', x' ∈ l' →
    (∃ x, x ∈ l ∧ Citizen._id x = Citizen._id x'
          ∧ Citizen.status x = Citizen.status x')
    ∨ ((Citizen._id x' ∉ Citizen._id <$> l)
       ∧ Citizen.status x' = "ACTIVE").

(** The pagination of a listing response agrees with its data: [pages] is
    the least number of pages of [limit] entries that hold [total] entries,
    the page has entries exactly when it is one of them, and it has [limit]
    entries or, on the last page, those that are left. *)
Definition page_metadata_ok {A} (r : result (Listing A)) : Prop :=
  match r with
  | inr l =>
      let p := pagination l in
      ∃ n, pages p = Some n
           ∧ ((n - 1) * limit p < total p ≤ n * limit p)%Z
           ∧ (data l ≠ [] ↔ (page p ≤ n)%Z)
           ∧ Z.of_nat (length (data l))
             = Z.min (limit p) (Z.max 0 (total p - (page p - 1) * limit p))
  | inl _ => False
  end.




(** [permissionCode] is null or one of the granted codes. *)
Definition granted (codes : list string) (m : Menu.t) : Prop :=
  Menu.permissionCode m = None
  ∨ ∃ c, Menu.permissionCode m = Some c ∧ c ∈ codes.

(** The calls of the user and citizen services that write. *)
Inductive Command :=
| CreateUser (data : CreateUserData)
| UpdateUser (userId : ObjectId) (data : UpdateUserData)
| UpdateUserPassword (userId : ObjectId) (newPassword : string)
| ChangeUserStatus (userId : ObjectId) (status : string)
| DeleteUser (userId : ObjectId)
| RestoreUser (userId : ObjectId)
| DeleteUserPermanent (userId : ObjectId)
| CreateCitizen (random : nat → nat) (data : CreateCitizenData)
                (userId : ObjectId)
| UpdateCitizen (nationalId : string) (data : UpdateCitizenData)
                (userId : ObjectId)
| UpdateCitizenFiles (nationalId : string) (fileData : FileData)
| DeleteCitizen (nationalId : string) (userId : ObjectId)
| RestoreCitizen (nationalId : string)
| DeleteCitizenPermanent (nationalId : string).

(** The store after a call, whether it returned or threw. *)
Definition exec (env : Env) (c : Command) (st : Store) : Store :=
  match c with
  | CreateUser data => (UserService.createUser env data st).2
  | UpdateUser userId data => (UserService.updateUser env userId data st).2
  | UpdateUserPassword userId newPassword =>
      (UserService.updateUserPassword env userId newPassword st).2
  | ChangeUserStatus userId status =>
      (UserService.changeUserStatus env userId status st).2
  | DeleteUser userId => (UserService.deleteUser env userId st).2
  | RestoreUser userId => (UserService.restoreUser env userId st).2
  | DeleteUserPermanent userId =>
      (UserService.deleteUserPermanent env userId st).2
  | CreateCitizen random data userId =>
      (CitizenService.createCitizen env random data userId st).2
  | UpdateCitizen nationalId data userId =>
      (CitizenService.updateCitizen env nationalId data userId st).2
  | UpdateCitizenFiles nationalId fileData =>
      (CitizenService.updateCitizenFiles env nationalId fileData st).2
  | DeleteCitizen nationalId userId =>
      (CitizenService.deleteCitizen env nationalId userId st).2
  | RestoreCitizen nationalId =>
      (CitizenService.restoreCitizen env nationalId st).2
  | DeleteCitizenPermanent nationalId =>
      (CitizenService.deleteCitizenPermanent env nationalId st).2
  end.

(** A history of calls, each in the environment of its own request. *)
Definition run (history : list (Env * Command)) (st : Store) : Store :=
  foldl (λ st' ec, exec ec.1 ec.2 st') st history.

(** A registration, a request that the routes could send, and a day of
    calls on the seeded database. *)
Definition sample_registration : CreateCitizenData :=
  mkCreateCitizenData (Some "Cawil") None (Some "Nur") (Some "male")
                      (Some 7000%Z) (Some " Berbera ") None.

Definition sample_history : list (Env * Command) := [
  (Sample.env, CreateUser (mkCreateUserData (Some "clerk1") (Some "secret1")
                                     (Some 12) None None None None));
  (Sample.env, CreateCitizen (λ i, i) sample_registration 32);
  (Sample.env, UpdateCitizen "1000000001" (mkUpdateCitizenData None None None None
                                      None None None (Some "deceased")) 32);
  (Sample.env, DeleteCitizen "1000000001" 31);
  (Sample.env, RestoreCitizen "1000000002");
  (Sample.env, ChangeUserStatus 33 "disabled");
  (Sample.env, DeleteUserPermanent 35)
].

(** The keys that the services look documents up by name one document
    each. *)
Definition keys_unique (st : Store) : Prop :=
  NoDup (User._id <$> users st)
  ∧ NoDup (User.username <$> users st)
  ∧ NoDup (Citizen._id <$> citizens st)
  ∧ NoDup (Citizen.nationalId <$> citizens st)
  ∧ NoDup (StatusChangeLog._id <$> statusChangeLogs st).

(** The values of the enumerated fields are among those of the schema. *)
Definition User_enums (u : User.t) : Prop :=
  User.role u ∈ ["ADMIN"; "OFFICER"; "VIEWER"]
  ∧ User.status u ∈ ["ACTIVE"; "DISABLED"].

Definition Citizen_enums (c : Citizen.t) : Prop :=
  Citizen.gender c ∈ ["MALE"; "FEMALE"]
  ∧ Citizen.status c ∈ ["ACTIVE"; "DECEASED"].

Definition StatusChangeLog_enums (l : StatusChangeLog.t) : Prop :=
  StatusChangeLog.oldStatus l ∈ ["ACTIVE"; "DECEASED"]
  ∧ StatusChangeLog.newStatus l ∈ ["ACTIVE"; "DECEASED"].

Definition enums_ok (st : Store) : Prop :=
  Forall User_enums (users st)
  ∧ Forall Citizen_enums (citizens st)
  ∧ Forall StatusChangeLog_enums (statusChangeLogs st).

(** The role name kept on a user is the name of a role that its role
    reference names. *)
Definition role_agrees (rs : list Role.t) (u : User.t) : Prop :=
  ∃ r, r ∈ rs ∧ Role._id r = User.roleId u ∧ Role.name r = User.role u.

(** The writes that the services send: an insert with a new [_id] and new
    unique keys, an update of one stored document that keeps its keys, the
    removal of a document, and a new audit row. *)
Inductive user_effect (st : Store) : Store → Prop :=
| user_inserted u :
    User._id u ∉ User._id <$> users st →
    User.username u ∉ User.username <$> users st →
    User_enums u → role_agrees (roles st) u →
    user_effect st (set_users st (users st ++ [u]))
| user_replaced u0 u :
    u0 ∈ users st → User._id u = User._id u0 →
    User.username u = User.username u0 →
    User_enums u →
    (role_agrees (roles st) u0 → role_agrees (roles st) u) →
    user_effect st (set_users st (Mongo.replaceById User._id u (users st)))
| user_removed userId :
    user_effect st
      (set_users st (Mongo.deleteOne (λ x, User._id x = userId) (users st))).

Inductive citizen_effect (st : Store) : Store → Prop :=
| citizen_inserted c :
    Citizen._id c ∉ Citizen._id <$> citizens st →
    Citizen.nationalId c ∉ Citizen.nationalId <$> citizens st →
    Citizen_enums c →
    citizen_effect st (set_citizens st (citizens st ++ [c]))
| citizen_replaced c0 c :
    c0 ∈ citizens st → Citizen._id c = Citizen._id c0 →
    Citizen.nationalId c = Citizen.nationalId c0 →
    Citizen_enums c →
    citizen_effect st
      (set_citizens st (Mongo.replaceById Citizen._id c (citizens st)))
| citizen_removed id :
    citizen_effect st
      (set_citizens st
         (Mongo.deleteOne (λ x, Citizen._id x = id) (citizens st))).

Inductive log_effect (st : Store) : Store → Prop :=
| log_appended row :
    StatusChangeLog._id row ∉ StatusChangeLog._id <$> statusChangeLogs st →
    StatusChangeLog_enums row →
    log_effect st (set_statusChangeLogs st (statusChangeLogs st ++ [row])).

Definition effect (st st' : Store) : Prop :=
  user_effect st st' ∨ citizen_effect st st' ∨ log_effect st st'.

(** ** Tactics *)

(** Run the monad of the services: unfold its operations and compute. *)
Ltac monad_unfold :=
  unfold bind, get, put, ret, throw, check, validated in *; simpl in *.

(** The same without unfolding the queries. *)
Ltac monad_step :=
  cbv beta iota delta [bind get put ret throw check validated].

(** The updates of the other fields of a citizen keep the status and the
    id. *)
Ltac keep_fields :=
  unfold CitizenService.set_when;
  repeat match goal with
         | |- context [if ?b then _ else _] => destruct b
         | |- context [match ?o with Some _ => _ | None => _ end] =>
             destruct o
         end;
  simpl; auto.

(** * Properties *)

(** ** The stable sort *)

Section SortFacts.
Context {A : Type} (le : A → A → bool).

Lemma insert_sorted_Permutation x l : insert_sorted le x l ≡ₚ x :: l.
Proof.
  induction l as [|y l IH]; simpl; [done|].
  destruct (le x y); [done|].
  rewrite IH. apply perm_swap.
Qed.

Lemma sort_by_Permutation l : sort_by le l ≡ₚ l.
Proof.
  induction l as [|x l IH]; simpl; [done|].
  rewrite insert_sorted_Permutation. by f_equiv.
Qed.

Lemma elem_of_sort_by x l : x ∈ sort_by le l ↔ x ∈ l.
Proof. by rewrite sort_by_Permutation. Qed.

Lemma length_sort_by l : length (sort_by le l) = length l.
Proof. by rewrite sort_by_Permutation. Qed.

Hypothesis le_total : ∀ a b, le a b = true ∨ le b a = true.
Hypothesis le_trans : ∀ a b c, le a b = true → le b c = true → le a c = true.

Lemma insert_sorted_StronglySorted x l :
  StronglySorted (λ a b, le a b = true) l →
  StronglySorted (λ a b, le a b = true) (insert_sorted le x l).
Proof.
  induction 1 as [|y l Hl IH Hy]; simpl.
  - repeat constructor.
  - destruct (le x y) eqn:Hxy.
    + constructor; [by constructor|].
      constructor; [done|].
      eapply Forall_impl; [exact Hy|]. intros z Hz. by eapply le_trans.
    + constructor; [done|].
      rewrite insert_sorted_Permutation. constructor; [|done].
      destruct (le_total x y); congruence.
Qed.

Lemma sort_by_StronglySorted l :
  StronglySorted (λ a b, le a b = true) (sort_by le l).
Proof.
  induction l; simpl; [constructor|by apply insert_sorted_StronglySorted].
Qed.

End SortFacts.

(** Any two positions of a strongly sorted list are in order. *)
Lemma StronglySorted_lookup {A} (R : A → A → Prop) l i j x y :
  StronglySorted R l → (i < j)%nat → l !! i = Some x → l !! j = Some y → R x y.
Proof.
  intros Hl. revert i j. induction Hl as [|z l Hl IH Hz]; intros i j Hij Hi Hj.
  - by rewrite lookup_nil in Hi.
  - destruct j as [|j]; [lia|]. simpl in Hj. destruct i as [|i]; simpl in Hi.
    + simplify_eq. rewrite Forall_forall in Hz. apply Hz.
      by eapply list_elem_of_lookup_2.
    + eapply (IH i j); [lia|done..].
Qed.

(** ** The query layer *)

Section MongoFacts.
Context {A : Type} (P : A → Prop) `{!∀ x, Decision (P x)}.

Lemma findOne_Some l x : Mongo.findOne P l = Some x → x ∈ l ∧ P x.
Proof.
  unfold Mongo.findOne. intros Hh.
  apply head_Some_elem_of in Hh. apply list_elem_of_filter in Hh. tauto.
Qed.

Lemma findOne_None l : Mongo.findOne P l = None ↔ ∀ x, x ∈ l → ¬ P x.
Proof.
  unfold Mongo.findOne. rewrite head_None. split.
  - intros Hnil x Hx HP. eapply filter_nil_not_elem_of; eauto.
  - intros Hall. induction l as [|y l IH]; [done|].
    rewrite filter_cons. destruct (decide (P y)) as [HP|HP].
    + exfalso. eapply Hall; [left|done].
    + apply IH. intros x Hx. apply Hall. by right.
Qed.

Lemma findOne_is_Some l x : x ∈ l → P x → is_Some (Mongo.findOne P l).
Proof.
  intros Hx HP. destruct (Mongo.findOne P l) eqn:Hf; [by eexists|].
  rewrite findOne_None in Hf. by destruct (Hf x).
Qed.

End MongoFacts.

(** With distinct keys, a key names one document, and the lookup by key
    finds it. *)
Lemma NoDup_key_inj {A K} (key : A → K) (l : list A) (x y : A) :
  NoDup (key <$> l) → x ∈ l → y ∈ l → key x = key y → x = y.
Proof.
  intros Hnd Hx Hy Hk.
  apply list_elem_of_lookup in Hx as [i Hi].
  apply list_elem_of_lookup in Hy as [j Hj].
  assert (i = j) as ->; [|congruence].
  eapply NoDup_lookup; [exact Hnd| |]; rewrite list_lookup_fmap.
  - by rewrite Hi.
  - rewrite Hj. simpl. by rewrite Hk.
Qed.

Lemma findOne_by_key {A K} `{EqDecision K} (key : A → K) (l : list A) (x : A) :
  NoDup (key <$> l) → x ∈ l →
  Mongo.findOne (λ y, key y = key x) l = Some x.
Proof.
  intros Hnd Hx.
  destruct (findOne_is_Some (λ y, key y = key x) l x Hx eq_refl) as [y Hy].
  rewrite Hy. f_equal. apply findOne_Some in Hy as [Hyl Hk].
  by apply (NoDup_key_inj key l).
Qed.

(** The update of the document of a key leaves the new version under the
    key. *)
Lemma findOne_replaceById {A} (key : A → ObjectId) (d x0 : A) (l : list A) :
  Mongo.findOne (λ x, key x = key d) l = Some x0 →
  Mongo.findOne (λ x, key x = key d) (Mongo.replaceById key d l) = Some d.
Proof.
  unfold Mongo.findOne, Mongo.replaceById.
  induction l as [|x l IH]; [done|]. rewrite fmap_cons, !filter_cons.
  destruct (decide (key x = key d)) as [Hx|Hx].
  - intros _. by rewrite decide_True.
  - rewrite decide_False by done. apply IH.
Qed.


(** A query on the key and on a further condition finds the document of the
    key, when it meets the condition. *)
Lemma findOne_key_and {A K} `{EqDecision K} (key : A → K) (k : K)
    (Q : A → Prop) `{!∀ x, Decision (Q x)} (l : list A) :
  NoDup (key <$> l) →
  Mongo.findOne (λ x, key x = k ∧ Q x) l
  = match Mongo.findOne (λ x, key x = k) l with
    | Some x => if decide (Q x) then Some x else None
    | None => None
    end.
Proof.
  intros Hnd. destruct (Mongo.findOne (λ x, key x = k) l) as [x|] eqn:Hk.
  - apply findOne_Some in Hk as [Hx Hkx]. destruct (decide (Q x)) as [HQ|HQ].
    + destruct (findOne_is_Some (λ y, key y = k ∧ Q y) l x Hx) as [y Hy];
        [done|].
      rewrite Hy. f_equal. apply findOne_Some in Hy as [Hyl [Hky _]].
      apply (NoDup_key_inj key l); [done..|congruence].
    + apply findOne_None. intros y Hy [Hky HQy]. apply HQ.
      by rewrite (NoDup_key_inj key l x y Hnd Hx Hy) by congruence.
  - apply findOne_None. intros y Hy [Hky _].
    rewrite findOne_None in Hk. by apply (Hk y).
Qed.

(** ** [buildMenuTree]: the two passes *)

Section MenuPasses.
Import RBACService.

Lemma first_pass_other (menus : list Menu.t) (mm : gmap ObjectId MenuItem) k :
  k ∉ Menu._id <$> menus →
  foldl (λ menuMap menu, <[Menu._id menu := newItem menu]> menuMap) mm menus
    !! k = mm !! k.
Proof.
  revert mm. induction menus as [|m ms IH]; intros mm Hk; [done|].
  simpl. rewrite fmap_cons, not_elem_of_cons in Hk. destruct Hk as [Hne Hk].
  rewrite IH by done. by rewrite lookup_insert_ne.
Qed.

Lemma first_pass_elem (menus : list Menu.t) (mm : gmap ObjectId MenuItem) m :
  NoDup (Menu._id <$> menus) → m ∈ menus →
  foldl (λ menuMap menu, <[Menu._id menu := newItem menu]> menuMap) mm menus
    !! Menu._id m = Some (newItem m).
Proof.
  revert mm. induction menus as [|m0 ms IH]; intros mm Hnd Hm.
  - by apply elem_of_nil in Hm.
  - rewrite fmap_cons, NoDup_cons in Hnd. destruct Hnd as [Hfresh Hnd].
    simpl. apply elem_of_cons in Hm as [->|Hm].
    + rewrite first_pass_other by done. apply lookup_insert_eq.
    + by apply IH.
Qed.

Lemma second_pass_spec (menus : list Menu.t) mm roots :
  (foldl second_pass_step (mm, roots) menus).2 = roots ++ rootsOf menus
  ∧ ∀ k, (foldl second_pass_step (mm, roots) menus).1 !! k
         = add_children (childrenOf menus k) <$> mm !! k.
Proof.
  revert mm roots. induction menus as [|m ms IH]; intros mm roots.
  - simpl. split; [by rewrite app_nil_r|].
    intros k. destruct (mm !! k) as [[]|]; simpl; [|done].
    unfold add_children, set_children. simpl. by rewrite app_nil_r.
  - simpl. unfold second_pass_step at 2 4. unfold rootsOf, childrenOf.
    destruct (Menu.parentId m) as [pid|] eqn:Hp; simpl.
    + assert (Hroots : filter (λ m0, Menu.parentId m0 = None) (m :: ms)
                       = filter (λ m0, Menu.parentId m0 = None) ms).
      { rewrite filter_cons_False; [done|]. by rewrite Hp. }
      rewrite Hroots.
      destruct (mm !! pid) as [parent|] eqn:Hpar.
      * destruct (IH (<[pid:=push_child parent (Menu._id m)]> mm) roots)
          as [IH1 IH2].
        split; [exact IH1|]. intros k. rewrite IH2.
        destruct (decide (pid = k)) as [->|Hne].
        -- rewrite lookup_insert_eq, Hpar. simpl. f_equal.
           rewrite filter_cons_True by done.
           unfold add_children, set_children, push_child, childrenOf. simpl.
           by rewrite <- app_assoc.
        -- rewrite lookup_insert_ne by done.
           rewrite filter_cons_False; [done|]. rewrite Hp. congruence.
      * destruct (IH mm roots) as [IH1 IH2].
        split; [exact IH1|]. intros k. rewrite IH2.
        destruct (decide (pid = k)) as [->|Hne].
        -- by rewrite Hpar.
        -- rewrite filter_cons_False; [done|]. rewrite Hp. congruence.
    + destruct (IH mm (roots ++ [Menu._id m])) as [IH1 IH2].
      split.
      * rewrite IH1, filter_cons_True by done.
        rewrite fmap_cons. by rewrite <- app_assoc.
      * intros k. rewrite IH2. rewrite filter_cons_False; [done|].
        by rewrite Hp.
Qed.

Lemma second_pass_roots menus :
  (second_pass (first_pass menus) menus).2 = rootsOf menus.
Proof. unfold second_pass. by rewrite (proj1 (second_pass_spec _ _ _)). Qed.

Lemma second_pass_heap_ok menus :
  NoDup (Menu._id <$> menus) →
  heap_ok menus (second_pass (first_pass menus) menus).1.
Proof.
  intros Hnd k. unfold second_pass.
  rewrite (proj2 (second_pass_spec _ _ _)). unfold first_pass.
  destruct (decide (k ∈ Menu._id <$> menus)) as [Hk|Hk].
  - apply list_elem_of_fmap in Hk as (m & -> & Hm).
    rewrite first_pass_elem by done. simpl.
    split_and!; [by apply list_elem_of_fmap_2|done|done].
  - rewrite first_pass_other by done. by rewrite lookup_empty.
Qed.

Lemma sort_children_heap_ok menus mm r :
  heap_ok menus mm → heap_ok menus (sort_children mm r).
Proof.
  intros Hok k. unfold sort_children.
  destruct (mm !! r) as [item|] eqn:Hr; [|apply Hok].
  destruct (decide (r = k)) as [->|Hne].
  - rewrite lookup_insert_eq. specialize (Hok k). rewrite Hr in Hok.
    destruct Hok as (? & ? & Hc). split_and!; [done..|].
    simpl. by rewrite sort_by_Permutation.
  - rewrite lookup_insert_ne by done. apply Hok.
Qed.

Lemma foldl_sort_children_heap_ok menus mm rs :
  heap_ok menus mm → heap_ok menus (foldl sort_children mm rs).
Proof.
  revert mm. induction rs as [|r rs IH]; intros mm Hok; [done|].
  simpl. by apply IH, sort_children_heap_ok.
Qed.

Lemma buildMenuHeap_ok menus :
  NoDup (Menu._id <$> menus) →
  heap_ok menus (buildMenuHeap menus).1
  ∧ (buildMenuHeap menus).2 ≡ₚ rootsOf menus.
Proof.
  intros Hnd. unfold buildMenuHeap. simpl. split.
  - by apply foldl_sort_children_heap_ok, second_pass_heap_ok.
  - by rewrite sort_by_Permutation, second_pass_roots.
Qed.

End MenuPasses.

(** ** [buildMenuTree]: the forest under the roots *)

Section MenuTree.
Context (menus : list Menu.t) (Hnd : NoDup (Menu._id <$> menus)).

Lemma parent_of_elem m :
  m ∈ menus → parent_of menus (Menu._id m) = Menu.parentId m.
Proof.
  intros Hm. unfold parent_of.
  by rewrite (findOne_by_key Menu._id menus m Hnd Hm).
Qed.

Lemma parent_of_Some x p :
  parent_of menus x = Some p →
  ∃ m, m ∈ menus ∧ Menu._id m = x ∧ Menu.parentId m = Some p.
Proof.
  unfold parent_of. intros Hp.
  destruct (Mongo.findOne _ menus) as [m|] eqn:Hf; [|done].
  apply findOne_Some in Hf as [Hm Hid]. by exists m.
Qed.

Lemma elem_of_childrenOf c k :
  c ∈ childrenOf menus k ↔ parent_of menus c = Some k.
Proof.
  unfold childrenOf. rewrite list_elem_of_fmap. split.
  - intros (m & -> & Hm). apply list_elem_of_filter in Hm as [Hp Hm].
    by rewrite parent_of_elem.
  - intros (m & Hm & <- & Hp)%parent_of_Some. exists m. split; [done|].
    by apply list_elem_of_filter.
Qed.

Lemma NoDup_childrenOf k : NoDup (childrenOf menus k).
Proof.
  unfold childrenOf. apply (sublist_NoDup _ (Menu._id <$> menus)); [done|].
  apply fmap_sublist, sublist_filter.
Qed.

Lemma elem_of_rootsOf r : r ∈ rootsOf menus ↔ is_root menus r.
Proof.
  unfold rootsOf, is_root. rewrite list_elem_of_fmap. split.
  - intros (m & -> & Hm). apply list_elem_of_filter in Hm as [Hp Hm]. eauto.
  - intros (m & Hm & <- & Hp). exists m. split; [done|].
    by apply list_elem_of_filter.
Qed.

Lemma NoDup_rootsOf : NoDup (rootsOf menus).
Proof.
  unfold rootsOf. apply (sublist_NoDup _ (Menu._id <$> menus)); [done|].
  apply fmap_sublist, sublist_filter.
Qed.

Lemma is_root_parent r : is_root menus r → parent_of menus r = None.
Proof. intros (m & Hm & <- & Hp). by rewrite parent_of_elem. Qed.

Lemma is_root_elem r : is_root menus r → r ∈ Menu._id <$> menus.
Proof. intros (m & Hm & <- & _). by apply list_elem_of_fmap_2. Qed.

Lemma ancestor_add a b x :
  ancestor menus (a + b) x = ancestor menus a x ≫= ancestor menus b.
Proof.
  induction b as [|b IH].
  - rewrite Nat.add_0_r. simpl. by destruct (ancestor menus a x).
  - rewrite Nat.add_succ_r. simpl. rewrite IH.
    by destruct (ancestor menus a x).
Qed.

Lemma ancestor_succ_l e x :
  ancestor menus (S e) x = parent_of menus x ≫= ancestor menus e.
Proof. by rewrite <- (Nat.add_1_l e), ancestor_add. Qed.

Lemma root_no_ancestor r e : is_root menus r → ancestor menus (S e) r = None.
Proof. intros Hr. by rewrite ancestor_succ_l, is_root_parent. Qed.

(** The depth of a node under its root is determined. *)
Lemma depth_unique x d d' r r' :
  ancestor menus d x = Some r → is_root menus r →
  ancestor menus d' x = Some r' → is_root menus r' → d = d'.
Proof.
  assert (Hle : ∀ a b s s', a < b →
    ancestor menus a x = Some s → is_root menus s →
    ancestor menus b x = Some s' → False).
  { intros a b s s' Hab Ha Hs Hb.
    replace b with (a + S (b - a - 1)) in Hb by lia.
    rewrite ancestor_add, Ha in Hb. simpl in Hb.
    change (ancestor menus (S (b - a - 1)) s = Some s') in Hb.
    by rewrite root_no_ancestor in Hb. }
  intros Hd Hr Hd' Hr'.
  destruct (Nat.lt_trichotomy d d') as [?|[?|?]]; [|done|]; exfalso; eauto.
Qed.

Lemma ancestor_prefix a b x r :
  a ≤ b → ancestor menus b x = Some r → is_Some (ancestor menus a x).
Proof.
  intros Hab Hb. replace b with (a + (b - a)) in Hb by lia.
  rewrite ancestor_add in Hb. by destruct (ancestor menus a x).
Qed.

(** A chain of parent references that ends at a root visits distinct
    fetched menus, so it is shorter than the fetched list. *)
Lemma depth_bound x e r :
  ancestor menus e x = Some r → is_root menus r → e < length menus.
Proof.
  intros He Hr.
  pose (chain := (λ i, default 0 (ancestor menus i x)) <$> seq 0 (S e)).
  assert (Hlen : length chain = S e).
  { unfold chain. by rewrite length_fmap, length_seq. }
  assert (Hsub : ∀ y, y ∈ chain → y ∈ Menu._id <$> menus).
  { intros y (i & -> & Hi)%list_elem_of_fmap. apply elem_of_seq in Hi.
    destruct (decide (i = e)) as [->|Hne].
    - rewrite He. simpl. by apply is_root_elem.
    - destruct (ancestor_prefix (S i) e x r) as [z Hz]; [lia|done|].
      simpl in Hz. destruct (ancestor menus i x) as [y|]; [|done].
      simpl in *. apply parent_of_Some in Hz as (m & Hm & <- & _).
      by apply list_elem_of_fmap_2. }
  assert (Hchain : NoDup chain).
  { unfold chain. apply NoDup_fmap_2_strong; [|apply NoDup_seq].
    assert (Hlt : ∀ i j, i < j → j ≤ e →
      default 0 (ancestor menus i x) = default 0 (ancestor menus j x) → False).
    { intros i j Hij Hje Heq.
      destruct (ancestor_prefix i e x r) as [yi Hyi]; [lia|done|].
      destruct (ancestor_prefix j e x r) as [yj Hyj]; [lia|done|].
      rewrite Hyi, Hyj in Heq. simpl in Heq. subst yj.
      assert (H1 : ancestor menus (j + (e - j)) x = Some r).
      { by replace (j + (e - j)) with e by lia. }
      rewrite ancestor_add, Hyj in H1. simpl in H1.
      assert (H2 : ancestor menus (i + (e - j)) x = Some r).
      { by rewrite ancestor_add, Hyi. }
      pose proof (depth_unique _ _ _ _ _ H2 Hr He Hr). lia. }
    intros i j Hi Hj Heq. apply elem_of_seq in Hi, Hj.
    destruct (Nat.lt_trichotomy i j) as [?|[?|?]]; [|done|]; exfalso.
    - eapply (Hlt i j); [lia..|done].
    - eapply (Hlt j i); [lia..|done]. }
  pose proof (submseteq_length _ _ (NoDup_submseteq _ _ Hchain Hsub)) as Hl.
  rewrite length_fmap in Hl. lia.
Qed.

End MenuTree.

Lemma omap_bind_node_ids {A} (g : A → option MenuNode) (l : list A) :
  omap g l ≫= node_ids = l ≫= (λ c, from_option node_ids [] (g c)).
Proof.
  induction l as [|c l IH]; [done|].
  rewrite bind_cons.
  change (omap g (c :: l))
    with (match g c with Some y => y :: omap g l | None => omap g l end).
  destruct (g c) as [n|]; [rewrite bind_cons|]; by rewrite IH.
Qed.

Lemma ids_under_S n mm k :
  ids_under (S n) mm k =
    match mm !! k with
    | Some item => id item :: (children item ≫= ids_under n mm)
    | None => []
    end.
Proof.
  unfold ids_under. simpl. destruct (mm !! k) as [item|]; [|done].
  simpl. f_equal. apply omap_bind_node_ids.
Qed.

Lemma forest_ids_reify n heap :
  forest_ids (RBACService.reify_forest n heap) = heap.2 ≫= ids_under n heap.1.
Proof. apply omap_bind_node_ids. Qed.

Lemma root_ids_reify n (mm : gmap ObjectId MenuItem) (rs : list ObjectId) :
  (∀ r, r ∈ rs → ∃ item, mm !! r = Some item ∧ id item = r) →
  node_id <$> RBACService.reify_forest (S n) (mm, rs) = rs.
Proof.
  unfold RBACService.reify_forest. simpl.
  induction rs as [|r rs IH]; intros Hrs; [done|].
  destruct (Hrs r) as (item & Hr & Hid); [by left|].
  simpl. rewrite Hr. simpl. rewrite Hid. f_equal.
  apply IH. intros r' Hr'. apply Hrs. by right.
Qed.

Section MenuForest.
Context (menus : list Menu.t) (Hnd : NoDup (Menu._id <$> menus)).
Context (mm : gmap ObjectId MenuItem) (Hok : heap_ok menus mm).

Lemma heap_ok_Some k :
  k ∈ Menu._id <$> menus →
  ∃ item, mm !! k = Some item ∧ id item = k
          ∧ children item ≡ₚ childrenOf menus k.
Proof.
  intros Hk. specialize (Hok k). destruct (mm !! k) as [item|]; [|done].
  exists item. tauto.
Qed.

(** Soundness: what is unfolded under [k] descends from [k]. *)
Lemma ids_under_sound n k x :
  x ∈ ids_under n mm k → ∃ e, e < n ∧ ancestor menus e x = Some k.
Proof.
  revert k. induction n as [|n IH]; intros k Hx.
  - by apply elem_of_nil in Hx.
  - rewrite ids_under_S in Hx. pose proof (Hok k) as Hk.
    destruct (mm !! k) as [item|]; [|by apply elem_of_nil in Hx].
    destruct Hk as (_ & Hid & Hc).
    apply elem_of_cons in Hx as [->|Hx].
    + exists 0. split; [lia|]. simpl. by rewrite Hid.
    + apply list_elem_of_bind in Hx as (c & Hx & Hcin).
      rewrite Hc in Hcin. apply (elem_of_childrenOf menus Hnd) in Hcin.
      destruct (IH c Hx) as (e & He & Ha).
      exists (S e). split; [lia|]. simpl. by rewrite Ha.
Qed.

(** Completeness: with enough levels, every descendant of [k] is unfolded. *)
Lemma ids_under_complete e : ∀ n k x,
  ancestor menus e x = Some k → k ∈ Menu._id <$> menus → e < n →
  x ∈ ids_under n mm k.
Proof.
  induction e as [|e IH]; intros n k x Ha Hk Hn.
  - simpl in Ha. simplify_eq. destruct n as [|n]; [lia|].
    rewrite ids_under_S. destruct (heap_ok_Some k Hk) as (item & -> & <- & _).
    by left.
  - simpl in Ha. destruct (ancestor menus e x) as [c|] eqn:Hc; [|done].
    simpl in Ha. destruct n as [|n]; [lia|].
    rewrite ids_under_S.
    destruct (heap_ok_Some k Hk) as (item & -> & _ & Hch).
    right. apply list_elem_of_bind. exists c. split.
    + apply IH; [done| |lia].
      apply (parent_of_Some menus) in Ha as (m & Hm & <- & _).
      by apply list_elem_of_fmap_2.
    + rewrite Hch. by apply elem_of_childrenOf.
Qed.

(** Under a node that hangs below a root, no id is listed twice. *)
Lemma ids_under_NoDup n : ∀ k d r,
  ancestor menus d k = Some r → is_root menus r → NoDup (ids_under n mm k).
Proof.
  induction n as [|n IH]; intros k d r Hd Hr; [constructor|].
  rewrite ids_under_S. pose proof (Hok k) as Hk.
  destruct (mm !! k) as [item|]; [|constructor].
  destruct Hk as (_ & Hid & Hc).
  assert (Hchild : ∀ c, c ∈ children item →
            ancestor menus (S d) c = Some r).
  { intros c Hcin. rewrite Hc in Hcin.
    apply (elem_of_childrenOf menus Hnd) in Hcin.
    rewrite (ancestor_succ_l menus), Hcin. done. }
  constructor.
  - intros (c & Hx & Hcin)%list_elem_of_bind.
    apply ids_under_sound in Hx as (e & _ & He).
    assert (Hup : ancestor menus (e + S d) (id item) = Some r).
    { rewrite (ancestor_add menus), He. by apply Hchild. }
    rewrite Hid in Hup.
    pose proof (depth_unique menus Hnd _ _ _ _ _ Hup Hr Hd Hr). lia.
  - apply NoDup_bind.
    + intros c1 c2 x Hc1 Hc2 Hx1 Hx2.
      apply ids_under_sound in Hx1 as (e1 & _ & He1).
      apply ids_under_sound in Hx2 as (e2 & _ & He2).
      assert (H1 : ancestor menus (e1 + S d) x = Some r).
      { rewrite (ancestor_add menus), He1. by apply Hchild. }
      assert (H2 : ancestor menus (e2 + S d) x = Some r).
      { rewrite (ancestor_add menus), He2. by apply Hchild. }
      pose proof (depth_unique menus Hnd _ _ _ _ _ H1 Hr H2 Hr).
      assert (e1 = e2) as -> by lia. congruence.
    + intros c Hcin. eapply IH; [by apply Hchild|done].
    + rewrite Hc. by apply NoDup_childrenOf.
Qed.

Lemma forest_NoDup n (rs : list ObjectId) :
  rs ≡ₚ rootsOf menus → NoDup (rs ≫= ids_under n mm).
Proof.
  intros Hrs. apply NoDup_bind.
  - intros r1 r2 x Hr1 Hr2 Hx1 Hx2. rewrite Hrs in Hr1, Hr2.
    apply (elem_of_rootsOf menus) in Hr1, Hr2.
    apply ids_under_sound in Hx1 as (e1 & _ & He1).
    apply ids_under_sound in Hx2 as (e2 & _ & He2).
    pose proof (depth_unique menus Hnd _ _ _ _ _ He1 Hr1 He2 Hr2) as ->.
    congruence.
  - intros r Hr. rewrite Hrs in Hr. apply (elem_of_rootsOf menus) in Hr.
    by apply (ids_under_NoDup n r 0 r).
  - rewrite Hrs. by apply NoDup_rootsOf.
Qed.

(** The ids of the forest: the fetched menus whose chain of parent
    references ends at a fetched menu without a parent. *)
Lemma elem_of_forest (rs : list ObjectId) x :
  rs ≡ₚ rootsOf menus →
  x ∈ rs ≫= ids_under (length menus) mm
  ↔ ∃ e r, ancestor menus e x = Some r ∧ is_root menus r.
Proof.
  intros Hrs. rewrite list_elem_of_bind. split.
  - intros (r & Hx & Hr). rewrite Hrs in Hr.
    apply (elem_of_rootsOf menus) in Hr.
    apply ids_under_sound in Hx as (e & _ & He). eauto.
  - intros (e & r & He & Hr). exists r. split.
    + apply (ids_under_complete e); [done|by apply is_root_elem|].
      by eapply depth_bound.
    + rewrite Hrs. by apply elem_of_rootsOf.
Qed.

End MenuForest.

(** More levels than [length menus] unfold nothing more. *)
Lemma reify_forest_fuel (menus : list Menu.t) n :
  NoDup (Menu._id <$> menus) → length menus ≤ n →
  ∀ x, x ∈ forest_ids (RBACService.reify_forest n
                         (RBACService.buildMenuHeap menus))
       ↔ x ∈ forest_ids (RBACService.buildMenuTree menus).
Proof.
  intros Hnd Hn x. unfold RBACService.buildMenuTree.
  destruct (buildMenuHeap_ok menus Hnd) as [Hok Hrs].
  rewrite !forest_ids_reify.
  rewrite (elem_of_forest menus Hnd _ Hok _ x Hrs).
  rewrite list_elem_of_bind. split.
  - intros (r & Hx & Hr). rewrite Hrs in Hr.
    apply (elem_of_rootsOf menus) in Hr.
    apply (ids_under_sound menus Hnd _ Hok) in Hx as (e & _ & He). eauto.
  - intros (e & r & He & Hr). exists r. split.
    + apply (ids_under_complete menus Hnd _ Hok e);
        [done|by apply is_root_elem|].
      pose proof (depth_bound menus Hnd x e r He Hr). lia.
    + rewrite Hrs. by apply elem_of_rootsOf.
Qed.

(** ** The menu forest (claims C1 and C9) *)

Lemma buildMenuTree_roots (menus : list Menu.t) :
  NoDup (Menu._id <$> menus) →
  node_id <$> RBACService.buildMenuTree menus ≡ₚ rootsOf menus.
Proof.
  intros Hnd. destruct (buildMenuHeap_ok menus Hnd) as [Hok Hrs].
  unfold RBACService.buildMenuTree.
  destruct menus as [|m0 ms] eqn:Hm.
  - rewrite <- Hrs. by destruct (RBACService.buildMenuHeap []).2.
  - rewrite <- Hm in *. replace (length menus) with (S (length ms)) by by subst.
    destruct (RBACService.buildMenuHeap menus) as [mm rs] eqn:Hh.
    simpl in Hok, Hrs. rewrite root_ids_reify; [done|].
    intros r Hr. rewrite Hrs in Hr. apply elem_of_rootsOf in Hr.
    destruct (heap_ok_Some menus mm Hok r) as (item & ? & ? & _);
      [by apply is_root_elem|]. eauto.
Qed.

Lemma elem_of_buildMenuTree (menus : list Menu.t) x :
  NoDup (Menu._id <$> menus) →
  x ∈ forest_ids (RBACService.buildMenuTree menus)
  ↔ ∃ e r, ancestor menus e x = Some r ∧ is_root menus r.
Proof.
  intros Hnd. destruct (buildMenuHeap_ok menus Hnd) as [Hok Hrs].
  unfold RBACService.buildMenuTree. rewrite forest_ids_reify.
  by apply elem_of_forest.
Qed.

(** C1, counterexample.  OFFICER holds [CREATE_CITIZEN] but not
    [VIEW_CITIZEN]: "Add Citizen" is fetched, its parent "Citizens" is not,
    and "Add Citizen" is nowhere in the composed forest, neither as a root
    nor below one. *)
Lemma orphan_menu_is_dropped :
  Sample.addCitizenMenu
    ∈ RBACService.fetchMenus Sample.clerk_store
        (RBACService.getUserPermissions Sample.clerk_store 32)
  ∧ Menu.parentId Sample.addCitizenMenu = Some 22
  ∧ (22 ∉ Menu._id <$> RBACService.fetchMenus Sample.clerk_store
            (RBACService.getUserPermissions Sample.clerk_store 32))
  ∧ (Menu._id Sample.addCitizenMenu
       ∉ node_id <$> RBACService.getUserMenus Sample.clerk_store 32)
  ∧ (Menu._id Sample.addCitizenMenu
       ∉ forest_ids (RBACService.getUserMenus Sample.clerk_store 32)).
Proof.
  split_and!; [|done|..]; apply (bool_decide_unpack _); by vm_compute.
Qed.

Lemma buildMenuTree_child_iff (menus : list Menu.t) m p :
  NoDup (Menu._id <$> menus) → m ∈ menus → Menu.parentId m = Some p →
  Menu._id m ∈ forest_ids (RBACService.buildMenuTree menus)
  ↔ p ∈ forest_ids (RBACService.buildMenuTree menus).
Proof.
  intros Hnd Hm Hp. rewrite !elem_of_buildMenuTree by done. split.
  - intros (e & r & He & Hr). destruct e as [|e].
    + simpl in He. simplify_eq.
      apply is_root_parent in Hr; [|done].
      rewrite parent_of_elem in Hr by done. congruence.
    + rewrite ancestor_succ_l, parent_of_elem, Hp in He by done. eauto.
  - intros (e & r & He & Hr). exists (S e), r. split; [|done].
    by rewrite ancestor_succ_l, parent_of_elem, Hp.
Qed.

Lemma buildMenuTree_root_iff (menus : list Menu.t) r :
  NoDup (Menu._id <$> menus) →
  r ∈ node_id <$> RBACService.buildMenuTree menus
  ↔ ∃ m, m ∈ menus ∧ Menu._id m = r ∧ Menu.parentId m = None.
Proof.
  intros Hnd. rewrite buildMenuTree_roots by done. by apply elem_of_rootsOf.
Qed.

Lemma buildMenuTree_fetched (menus : list Menu.t) x :
  NoDup (Menu._id <$> menus) →
  x ∈ forest_ids (RBACService.buildMenuTree menus) → x ∈ Menu._id <$> menus.
Proof.
  intros Hnd. rewrite elem_of_buildMenuTree by done.
  intros (e & r & He & Hr). destruct e as [|e].
  - simpl in He. simplify_eq. by apply is_root_elem.
  - rewrite ancestor_succ_l in He.
    destruct (parent_of menus x) as [p|] eqn:Hp; [|done].
    apply parent_of_Some in Hp as (m & Hm & <- & _).
    by apply list_elem_of_fmap_2.
Qed.

Lemma buildMenuTree_NoDup (menus : list Menu.t) :
  NoDup (Menu._id <$> menus) →
  NoDup (forest_ids (RBACService.buildMenuTree menus)).
Proof.
  intros Hnd. destruct (buildMenuHeap_ok menus Hnd) as [Hok Hrs].
  unfold RBACService.buildMenuTree. rewrite forest_ids_reify.
  by apply (forest_NoDup menus Hnd).
Qed.

(** C1, as the code has it.  For fetched menus with distinct ids:
    the roots of the forest are exactly the fetched menus without a parent
    reference; a fetched menu whose parent reference points outside the
    fetched set is omitted from the forest; no menu occurs twice; a fetched
    menu with a parent reference occurs in the forest exactly when its parent
    does; the forest holds fetched menus only; and a menu is in the forest
    exactly when its chain of parent references ends at a fetched menu
    without a parent. *)
Theorem buildMenuTree_forest (menus : list Menu.t) :
  NoDup (Menu._id <$> menus) →
  (∀ r, r ∈ node_id <$> RBACService.buildMenuTree menus
        ↔ ∃ m, m ∈ menus ∧ Menu._id m = r ∧ Menu.parentId m = None)
  ∧ (∀ m p, m ∈ menus → Menu.parentId m = Some p →
            p ∉ Menu._id <$> menus →
            Menu._id m ∉ forest_ids (RBACService.buildMenuTree menus))
  ∧ NoDup (forest_ids (RBACService.buildMenuTree menus))
  ∧ (∀ m p, m ∈ menus → Menu.parentId m = Some p →
            (Menu._id m ∈ forest_ids (RBACService.buildMenuTree menus)
             ↔ p ∈ forest_ids (RBACService.buildMenuTree menus)))
  ∧ (∀ x, x ∈ forest_ids (RBACService.buildMenuTree menus) →
          x ∈ Menu._id <$> menus)
  ∧ (∀ x, x ∈ forest_ids (RBACService.buildMenuTree menus)
          ↔ ∃ e r, ancestor menus e x = Some r ∧ is_root menus r).
Proof.
  intros Hnd. split_and!.
  - intros r. by apply buildMenuTree_root_iff.
  - intros m p Hm Hp Hout Hmem.
    apply (buildMenuTree_child_iff menus m p Hnd Hm Hp) in Hmem.
    by apply buildMenuTree_fetched in Hmem.
  - by apply buildMenuTree_NoDup.
  - intros m p Hm Hp. by apply buildMenuTree_child_iff.
  - intros x. by apply buildMenuTree_fetched.
  - intros x. by apply elem_of_buildMenuTree.
Qed.

(** C1 on the seeded menu catalog. *)
Lemma buildMenuTree_forest_witness :
  NoDup (forest_ids (RBACService.buildMenuTree Sample.menus)).
Proof.
  apply (buildMenuTree_forest Sample.menus).
  apply (bool_decide_unpack _). by vm_compute.
Defined.

Lemma fetchMenus_NoDup (st : Store) (permissions : list string) :
  NoDup (Menu._id <$> menus st) →
  NoDup (Menu._id <$> RBACService.fetchMenus st permissions).
Proof.
  intros Hnd. unfold RBACService.fetchMenus, Mongo.find.
  rewrite sort_by_Permutation.
  apply (sublist_NoDup _ (Menu._id <$> menus st)); [done|].
  apply fmap_sublist, sublist_filter.
Qed.

Lemma elem_of_fetchMenus (st : Store) (permissions : list string) m :
  m ∈ RBACService.fetchMenus st permissions
  ↔ m ∈ menus st
    ∧ (Menu.permissionCode m = None
       ∨ ∃ c, Menu.permissionCode m = Some c ∧ c ∈ permissions).
Proof.
  unfold RBACService.fetchMenus, Mongo.find.
  rewrite elem_of_sort_by, list_elem_of_filter.
  unfold RBACService.menu_visible.
  destruct (Menu.permissionCode m) as [c|]; split.
  - intros [Hc Hm]. split; [done|]. right. by exists c.
  - intros [Hm [?|(c' & [= <-] & Hc)]]; [done|]. by split.
  - intros [_ Hm]. split; [done|]. by left.
  - intros [Hm _]. by split.
Qed.

(** C9, counterexample.  VIEWER holds no permission: "Notices", whose
    [permissionCode] is null, is in the catalog, and the composed menu of a
    viewer is empty. *)
Lemma no_permission_no_menu :
  RBACService.getUserPermissions Sample.bare_store 33 = []
  ∧ Sample.noticesMenu ∈ menus Sample.bare_store
  ∧ Menu.permissionCode Sample.noticesMenu = None
  ∧ RBACService.getUserMenus Sample.bare_store 33 = [].
Proof.
  split_and!; [done| |done|done].
  apply (bool_decide_unpack _). by vm_compute.
Qed.

(** C9, as the code has it.  When the user holds no permission the composed
    menu is empty.  When the user holds at least one, the fetched set is
    exactly the menus whose [permissionCode] is null or granted, and the
    output is the forest composed of the fetched set: its roots are exactly
    the menus that are granted and have no parent reference; a granted menu
    with a parent reference is in the output exactly when its parent is; and
    every menu of the output is a granted menu of the catalog. *)
Theorem getUserMenus_visible (st : Store) (userId : ObjectId) :
  NoDup (Menu._id <$> menus st) →
  (RBACService.getUserPermissions st userId = [] →
   RBACService.getUserMenus st userId = [])
  ∧ (RBACService.getUserPermissions st userId ≠ [] →
     (∀ m, m ∈ RBACService.fetchMenus st
                 (RBACService.getUserPermissions st userId)
           ↔ m ∈ menus st
             ∧ granted (RBACService.getUserPermissions st userId) m)
     ∧ RBACService.getUserMenus st userId
       = RBACService.buildMenuTree
           (RBACService.fetchMenus st
              (RBACService.getUserPermissions st userId))
     ∧ (∀ r, r ∈ node_id <$> RBACService.getUserMenus st userId
             ↔ ∃ m, m ∈ menus st
                    ∧ granted (RBACService.getUserPermissions st userId) m
                    ∧ Menu._id m = r ∧ Menu.parentId m = None)
     ∧ (∀ m p, m ∈ menus st →
               granted (RBACService.getUserPermissions st userId) m →
               Menu.parentId m = Some p →
               (Menu._id m ∈ forest_ids (RBACService.getUserMenus st userId)
                ↔ p ∈ forest_ids (RBACService.getUserMenus st userId)))
     ∧ (∀ x, x ∈ forest_ids (RBACService.getUserMenus st userId) →
             ∃ m, m ∈ menus st
                  ∧ granted (RBACService.getUserPermissions st userId) m
                  ∧ Menu._id m = x)).
Proof.
  intros Hnd. unfold RBACService.getUserMenus. split.
  - intros ->. done.
  - intros Hne.
    destruct (decide (length (RBACService.getUserPermissions st userId) = 0))
      as [Hlen|_].
    { by apply nil_length_inv in Hlen. }
    pose proof (fetchMenus_NoDup st
                  (RBACService.getUserPermissions st userId) Hnd) as Hnd'.
    split_and!.
    + intros m. apply elem_of_fetchMenus.
    + done.
    + intros r. rewrite buildMenuTree_root_iff by done. split.
      * intros (m & [Hm Hg]%elem_of_fetchMenus & Hid & Hp). by exists m.
      * intros (m & Hm & Hg & Hid & Hp). exists m. split; [|done].
        by apply elem_of_fetchMenus.
    + intros m p Hm Hg Hp. apply buildMenuTree_child_iff; [done| |done].
      by apply elem_of_fetchMenus.
    + intros x Hx. apply buildMenuTree_fetched in Hx; [|done].
      apply list_elem_of_fmap in Hx as (m & -> & [Hm Hg]%elem_of_fetchMenus).
      by exists m.
Qed.

(** C9 on the seeded database: "Dashboard", whose code a viewer holds, and
    "Notices", whose code is null, are roots of a viewer's menu; "User
    Management", whose code a viewer does not hold, is not in it. *)
Lemma getUserMenus_visible_witness :
  Menu._id Sample.dashboardMenu
    ∈ node_id <$> RBACService.getUserMenus Sample.store 33
  ∧ Menu._id Sample.noticesMenu
      ∈ node_id <$> RBACService.getUserMenus Sample.store 33
  ∧ Menu._id Sample.usersMenu
      ∉ forest_ids (RBACService.getUserMenus Sample.store 33).
Proof.
  assert (Hnd : NoDup (Menu._id <$> menus Sample.store)).
  { apply (bool_decide_unpack _). by vm_compute. }
  destruct (getUserMenus_visible Sample.store 33 Hnd) as [_ Hsome].
  destruct Hsome as (_ & _ & Hroot & _ & Hin); [by vm_compute|].
  split_and!.
  - apply Hroot. exists Sample.dashboardMenu. split_and!; [|right|done|done].
    + apply (bool_decide_unpack _). by vm_compute.
    + exists "VIEW_DASHBOARD". split; [done|].
      apply (bool_decide_unpack _). by vm_compute.
  - apply Hroot. exists Sample.noticesMenu. split_and!; [|by left|done|done].
    apply (bool_decide_unpack _). by vm_compute.
  - intros (m & Hm & Hg & Hid)%Hin.
    assert (m = Sample.usersMenu) as ->.
    { change (menus Sample.store) with Sample.menus in Hm.
      unfold Sample.menus in Hm.
      repeat (apply elem_of_cons in Hm as [->|Hm]; [done|]).
      by apply elem_of_nil in Hm. }
    destruct Hg as [Hg|(c & [= <-] & Hc)]; [done|].
    revert Hc. apply (bool_decide_unpack _). by vm_compute.
Defined.

(** ** Permission resolution (claim C5) *)

Lemma elem_of_populate_permissions (st : Store) (r : Role.t) p :
  NoDup (Permission._id <$> permissions st) →
  p ∈ RBACService.populate_permissions st r
  ↔ p ∈ permissions st ∧ Permission._id p ∈ Role.permissions r.
Proof.
  intros Hnd. unfold RBACService.populate_permissions.
  rewrite list_elem_of_omap. split.
  - intros (pid & Hpid & Hf). apply findOne_Some in Hf as [Hp <-]. by split.
  - intros [Hp Hpid]. exists (Permission._id p). split; [done|].
    by apply (findOne_by_key Permission._id).
Qed.

(** C5.  For a user whose role resolves, [getUserPermissions] returns, as a
    set, exactly the permission codes attached to the role; for an id that
    names no user, and for a user whose role reference does not resolve, it
    returns the empty list. *)
Theorem getUserPermissions_exact (st : Store) (userId : ObjectId) :
  NoDup (Permission._id <$> permissions st) →
  (∀ u r,
     Mongo.findOne (λ x, User._id x = userId) (users st) = Some u →
     Mongo.findOne (λ x, Role._id x = User.roleId u) (roles st) = Some r →
     list_to_set (RBACService.getUserPermissions st userId)
       = attachedCodes st r)
  ∧ (Mongo.findOne (λ x, User._id x = userId) (users st) = None →
     RBACService.getUserPermissions st userId = [])
  ∧ (∀ u,
       Mongo.findOne (λ x, User._id x = userId) (users st) = Some u →
       Mongo.findOne (λ x, Role._id x = User.roleId u) (roles st) = None →
       RBACService.getUserPermissions st userId = []).
Proof.
  intros Hnd. unfold RBACService.getUserPermissions, RBACService.populate_role.
  split_and!.
  - intros u r -> ->. unfold attachedCodes. apply set_eq. intros c.
    rewrite !elem_of_list_to_set, !list_elem_of_fmap.
    split; intros (p & -> & Hp); exists p; (split; [done|]).
    + apply elem_of_populate_permissions in Hp as [? ?]; [|done].
      by apply list_elem_of_filter.
    + apply list_elem_of_filter in Hp as [? ?].
      by apply elem_of_populate_permissions.
  - by intros ->.
  - by intros u -> ->.
Qed.

(** C5 on the seeded database, for the officer. *)
Lemma getUserPermissions_exact_witness :
  list_to_set (RBACService.getUserPermissions Sample.store 32)
    = attachedCodes Sample.store Sample.officerRole.
Proof.
  assert (Hnd : NoDup (Permission._id <$> permissions Sample.store)).
  { apply (bool_decide_unpack _). by vm_compute. }
  destruct (getUserPermissions_exact Sample.store 32 Hnd) as [Hset _].
  by apply (Hset Sample.officer1).
Defined.

(** ** The access guard (claim C2) *)

Lemma authenticate_inactive (env : Env) (st : Store) (req : Request) uid u :
  principal_of env req = Some uid →
  Mongo.findOne (λ x, User._id x = uid) (users st) = Some u →
  User.status u ≠ "ACTIVE" ∨ User.deletedAt u ≠ None →
  authenticate env st req
  = deny 401 (if decide (User.status u = "ACTIVE")
              then "User account has been deleted"
              else "User account is disabled").
Proof.
  unfold principal_of, authenticate. intros Hp Hu Hinactive.
  destruct (authorization req) as [authHeader|]; [|done].
  destruct (Js.startsWith authHeader "Bearer "); [|done]. simpl.
  destruct (jwt_verify env _); simplify_eq. rewrite Hu.
  destruct (decide (User.status u = "ACTIVE")) as [Hs|Hs].
  - rewrite bool_decide_eq_true_2 by done. simpl.
    destruct Hinactive as [?|Hd]; [done|].
    rewrite bool_decide_eq_true_2; [done|].
    by destruct (User.deletedAt u).
  - by rewrite bool_decide_eq_false_2.
Qed.

(** [requirePermission] itself reads the role of [req.user] only, not the
    status: it is [authenticate], the one place that sets [req.user], that
    keeps a disabled administrator from reaching it. *)
Lemma requirePermission_reads_role_only :
  allowed (requirePermission ["MANAGE_USERS"] Sample.store
             (mkRequest None
                (Some (mkPopulatedUser Sample.disabledAdmin
                         (Some Sample.adminRole))) None None)) = true
  ∧ allowed (requirePermission ["MANAGE_USERS"] Sample.store
               (mkRequest (Some "Bearer id:34") None None None)) = false.
Proof. by vm_compute. Qed.

(** C2.  A request whose principal is not ACTIVE, or is soft-deleted, is
    denied for every list of required codes and whatever the roles and
    permissions in the database are: the answer is the one of
    [authenticate], given before [requirePermission] resolves any
    permission, and it does not depend on the role and permission
    collections. *)
Theorem authorize_denies_inactive (env : Env) (st : Store) (req : Request)
    (permissionCodes : list string) (uid : ObjectId) (u : User.t) :
  principal_of env req = Some uid →
  Mongo.findOne (λ x, User._id x = uid) (users st) = Some u →
  User.status u ≠ "ACTIVE" ∨ User.deletedAt u ≠ None →
  allowed (authorize env st permissionCodes req) = false
  ∧ authorize env st permissionCodes req = authenticate env st req
  ∧ ∀ rs ps,
      authorize env (mkStore (users st) rs ps (menus st) (citizens st)
                             (statusChangeLogs st)) permissionCodes req
      = authorize env st permissionCodes req.
Proof.
  intros Hp Hu Hin.
  pose proof (authenticate_inactive env st req uid u Hp Hu Hin) as Ha.
  unfold authorize, run_middlewares. rewrite Ha. split_and!; [done..|].
  intros rs ps.
  by rewrite (authenticate_inactive env (mkStore (users st) rs ps _ _ _)
                req uid u Hp Hu Hin).
Qed.

(** C2 on the seeded database, for the disabled administrator. *)
Lemma authorize_denies_inactive_witness :
  allowed (authorize Sample.env Sample.store ["MANAGE_USERS"]
             (mkRequest (Some "Bearer id:34") None None None)) = false.
Proof.
  apply (authorize_denies_inactive Sample.env Sample.store _ _ 34
           Sample.disabledAdmin).
  - by vm_compute.
  - by vm_compute.
  - left. by vm_compute.
Defined.

(** ** The soft-delete lifecycle (claims C6 and C7) *)


Lemma user_state_cases (st : Store) (userId : ObjectId) :
  match user_state st userId with
  | Active => ∃ u, Mongo.findOne (λ x, User._id x = userId) (users st) = Some u
                   ∧ User.deletedAt u = None
  | Trashed => ∃ u d,
                 Mongo.findOne (λ x, User._id x = userId) (users st) = Some u
                 ∧ User.deletedAt u = Some d
  | Purged => Mongo.findOne (λ x, User._id x = userId) (users st) = None
  end.
Proof.
  unfold user_state.
  destruct (Mongo.findOne _ (users st)) as [u|]; [|done].
  destruct (User.deletedAt u) eqn:Hd; simpl; eauto.
Qed.

Lemma citizen_state_cases (st : Store) (nationalId : string) :
  match citizen_state st nationalId with
  | Active => ∃ c, Mongo.findOne (λ x, Citizen.nationalId x = nationalId)
                                 (citizens st) = Some c
                   ∧ Citizen.deletedAt c = None
  | Trashed => ∃ c d,
                 Mongo.findOne (λ x, Citizen.nationalId x = nationalId)
                               (citizens st) = Some c
                 ∧ Citizen.deletedAt c = Some d
  | Purged => Mongo.findOne (λ x, Citizen.nationalId x = nationalId)
                            (citizens st) = None
  end.
Proof.
  unfold citizen_state.
  destruct (Mongo.findOne _ (citizens st)) as [c|]; [|done].
  destruct (Citizen.deletedAt c) eqn:Hd; simpl; eauto.
Qed.

Lemma deleteUser_not_active (env : Env) (st : Store) (userId : ObjectId) :
  user_state st userId ≠ Active →
  UserService.deleteUser env userId st = (inl (Error "User not found"), st).
Proof.
  intros Hs. pose proof (user_state_cases st userId) as Hc.
  unfold UserService.deleteUser. monad_unfold.
  destruct (user_state st userId); [done| |].
  - destruct Hc as (u & d & -> & Hd). by rewrite Hd.
  - by rewrite Hc.
Qed.

Lemma deleteCitizen_not_active (env : Env) (st : Store) (nationalId : string)
    (userId : ObjectId) :
  NoDup (Citizen.nationalId <$> citizens st) →
  citizen_state st nationalId ≠ Active →
  CitizenService.deleteCitizen env nationalId userId st
  = (inl (Error "Citizen not found"), st).
Proof.
  intros Hnd Hs. pose proof (citizen_state_cases st nationalId) as Hc.
  unfold CitizenService.deleteCitizen. monad_unfold.
  rewrite (findOne_key_and Citizen.nationalId nationalId
             (λ c, Citizen.deletedAt c = None) (citizens st) Hnd).
  destruct (citizen_state st nationalId); [done| |].
  - destruct Hc as (c & d & -> & Hd). rewrite Hd, decide_False; done.
  - by rewrite Hc.
Qed.

(** C6.  Soft-deleting a user or a citizen that is in the trash, or that does
    not exist, throws "not found" and leaves the whole store as it was: no
    [deletedAt] is touched and no record is created. *)
Theorem soft_delete_not_active (env : Env) (st : Store) (userId : ObjectId)
    (nationalId : string) (actor : ObjectId) :
  NoDup (Citizen.nationalId <$> citizens st) →
  (user_state st userId ≠ Active →
   UserService.deleteUser env userId st = (inl (Error "User not found"), st))
  ∧ (citizen_state st nationalId ≠ Active →
     CitizenService.deleteCitizen env nationalId actor st
     = (inl (Error "Citizen not found"), st)).
Proof.
  intros Hnd. split.
  - apply deleteUser_not_active.
  - by apply deleteCitizen_not_active.
Qed.

(** C6 on the seeded database, for the trashed officer and citizen. *)
Lemma soft_delete_not_active_witness :
  UserService.deleteUser Sample.env 35 Sample.store
    = (inl (Error "User not found"), Sample.store)
  ∧ CitizenService.deleteCitizen Sample.env "1000000002" 31 Sample.store
    = (inl (Error "Citizen not found"), Sample.store).
Proof.
  assert (Hnd : NoDup (Citizen.nationalId <$> citizens Sample.store)).
  { apply (bool_decide_unpack _). by vm_compute. }
  destruct (soft_delete_not_active Sample.env Sample.store 35 "1000000002" 31
              Hnd) as [Hu Hc].
  split; [apply Hu|apply Hc]; by vm_compute.
Defined.




Lemma restoreUser_trashed (env : Env) (st : Store) (userId : ObjectId) u d :
  Mongo.findOne (λ x, User._id x = userId) (users st) = Some u →
  User.deletedAt u = Some d → User_validate u = None →
  write_ok env "users" = true → username_taken u (users st) = false →
  UserService.restoreUser env userId st
  = (inr (UserService.normalizeUser env
            (User.set_updatedAt (User.set_deletedAt u None) (now env))
            Unpopulated),
     set_users st
       (Mongo.replaceById User._id
          (User.set_updatedAt (User.set_deletedAt u None) (now env))
          (users st))).
Proof.
  intros Hf Hd Hv Hw Ht. destruct (findOne_Some _ _ _ Hf) as [_ Hid].
  subst userId.
  unfold UserService.restoreUser, User_save. monad_step.
  rewrite Hf. monad_step.
  change (User_validate (User.set_deletedAt u None)) with (User_validate u).
  change (User._id (User.set_deletedAt u None)) with (User._id u).
  rewrite Hv. monad_step. rewrite Hf.
  rewrite decide_False
    by (intros Heq; apply (f_equal User.deletedAt) in Heq; simpl in Heq;
        congruence).
  rewrite decide_True by done. rewrite Hw. monad_step.
  change (username_taken (User.set_updatedAt (User.set_deletedAt u None)
                            (now env)) (users st))
    with (username_taken u (users st)).
  by rewrite Ht.
Qed.



Lemma restoreCitizen_trashed (env : Env) (st : Store) (nationalId : string)
    c d :
  NoDup (Citizen._id <$> citizens st) →
  Mongo.findOne (λ x, Citizen.nationalId x = nationalId) (citizens st)
    = Some c →
  Citizen.deletedAt c = Some d → Citizen_validate env c = None →
  write_ok env "citizens" = true → nationalId_taken c (citizens st) = false →
  CitizenService.restoreCitizen env nationalId st
  = (inr (CitizenService.normalizeCitizen env
            (Citizen.set_updatedAt (Citizen.set_deletedAt c None) (now env))),
     set_citizens st
       (Mongo.replaceById Citizen._id
          (Citizen.set_updatedAt (Citizen.set_deletedAt c None) (now env))
          (citizens st))).
Proof.
  intros Hnd Hf Hd Hv Hw Ht. destruct (findOne_Some _ _ _ Hf) as [Hc _].
  unfold CitizenService.restoreCitizen, Citizen_save. monad_step.
  rewrite Hf. monad_step.
  change (Citizen_validate env (Citizen.set_deletedAt c None))
    with (Citizen_validate env c).
  change (Citizen._id (Citizen.set_deletedAt c None)) with (Citizen._id c).
  rewrite Hv. monad_step.
  rewrite (findOne_by_key Citizen._id (citizens st) c Hnd Hc).
  rewrite decide_False
    by (intros Heq; apply (f_equal Citizen.deletedAt) in Heq; simpl in Heq;
        congruence).
  rewrite Hw. monad_step.
  change (nationalId_taken (Citizen.set_updatedAt
                              (Citizen.set_deletedAt c None) (now env))
                           (citizens st))
    with (nationalId_taken c (citizens st)).
  by rewrite Ht.
Qed.



(** ** The status audit trail (claims C3 and C4) *)

Lemma StatusChangeLog_create_eq (env : Env) (st : Store) nid o n uid :
  StatusChangeLog_create env nid o n uid st
  = match StatusChangeLog_validate (transition_row env st nid o n uid) with
    | Some path => (inl (ValidationError path), st)
    | None =>
        if write_ok env "status_change_logs"
        then (inr (transition_row env st nid o n uid),
              set_statusChangeLogs st
                (statusChangeLogs st ++ [transition_row env st nid o n uid]))
        else (inl (MongoError "write failed"), st)
    end.
Proof.
  unfold StatusChangeLog_create. monad_step.
  fold (transition_row env st nid o n uid).
  destruct (StatusChangeLog_validate _); [done|]. monad_step.
  by destruct (write_ok env "status_change_logs").
Qed.

Lemma update_gender_eq (data : UpdateCitizenData) (c : Citizen.t) st :
  CitizenService.update_gender data c st
  = (if Js.truthy_opt (ud_gender data) then
       if Js.includes ["MALE"; "FEMALE"]
            (Js.toUpperCase (default "" (ud_gender data)))
       then inr (Citizen.set_gender c
                   (Js.toUpperCase (default "" (ud_gender data))))
       else inl (Error "Gender must be 'MALE' or 'FEMALE'")
     else inr c, st).
Proof.
  unfold CitizenService.update_gender.
  destruct (Js.truthy_opt (ud_gender data)); [|done].
  monad_step. by destruct (Js.includes _ _).
Qed.

Lemma update_dateOfBirth_eq (env : Env) (data : UpdateCitizenData)
    (c : Citizen.t) st :
  CitizenService.update_dateOfBirth env data c st
  = (match ud_dateOfBirth data with
     | Some d =>
         if negb (now env <? d)%Z then
           if negb (d <? hundredYearsAgo env)%Z
           then inr (Citizen.set_dateOfBirth c d)
           else inl (Error "Date of birth cannot be more than 100 years ago")
         else inl (Error "Date of birth cannot be in the future")
     | None => inr c
     end, st).
Proof.
  unfold CitizenService.update_dateOfBirth.
  destruct (ud_dateOfBirth data) as [d|]; [|done].
  monad_step. destruct (negb (now env <? d)%Z); [|done]. monad_step.
  by destruct (negb (d <? hundredYearsAgo env)%Z).
Qed.

Lemma update_status_eq (env : Env) nid (data : UpdateCitizenData) uid
    (c : Citizen.t) st :
  CitizenService.update_status env nid data uid c st
  = if Js.truthy_opt (ud_status data) then
      if decide (Citizen.status c
                 ≠ Js.toUpperCase (default "" (ud_status data)))
      then
        match StatusChangeLog_create env nid (Citizen.status c)
                (Js.toUpperCase (default "" (ud_status data))) uid st with
        | (inl e, st1) => (inl e, st1)
        | (inr _, st1) =>
            (inr (Citizen.set_status c
                    (Js.toUpperCase (default "" (ud_status data)))), st1)
        end
      else (inr (Citizen.set_status c
                   (Js.toUpperCase (default "" (ud_status data)))), st)
    else (inr c, st).
Proof.
  unfold CitizenService.update_status.
  destruct (Js.truthy_opt (ud_status data)); [|done].
  monad_step. simpl Citizen.status.
  destruct (decide (Citizen.status c ≠ _)); [|done].
  monad_step.
  by destruct (StatusChangeLog_create _ _ _ _ _ _) as [[e|row] st1].
Qed.

(** What [save] can do to the store. *)
Lemma Citizen_save_cases (env : Env) (c : Citizen.t) st :
  (∃ r, Citizen_save env c st = (r, st))
  ∨ Citizen_save env c st
    = (inr (Citizen.set_updatedAt c (now env)),
       set_citizens st
         (Mongo.replaceById Citizen._id (Citizen.set_updatedAt c (now env))
                            (citizens st))).
Proof.
  unfold Citizen_save. monad_step.
  destruct (Citizen_validate env c); [by left; eexists|]. monad_step.
  destruct (Mongo.findOne _ (citizens st)) as [stored|]; [|by left; eexists].
  destruct (decide (stored = c)); [by left; eexists|].
  destruct (write_ok env "citizens"); monad_step; [|by left; eexists].
  destruct (negb (nationalId_taken _ _)); monad_step; [|by left; eexists].
  by right.
Qed.

(** [updateCitizen] on an active citizen: the checks on the fields throw
    before anything is written; past them, the status block runs on a
    document that still has the stored status, and [save] comes last. *)
Lemma updateCitizen_run (env : Env) (st : Store) nid
    (data : UpdateCitizenData) uid (c : Citizen.t) :
  active_citizen st nid = Some c →
  if fields_accepted env data then
    ∃ c7, Citizen.status c7 = Citizen.status c
          ∧ Citizen._id c7 = Citizen._id c
          ∧ CitizenService.updateCitizen env nid data uid st
            = match CitizenService.update_status env nid data uid c7 st with
              | (inl e, st1) => (inl e, st1)
              | (inr c8, st1) =>
                  match Citizen_save env c8 st1 with
                  | (inl e, st2) => (inl e, st2)
                  | (inr saved, st2) =>
                      (inr (CitizenService.normalizeCitizen env saved), st2)
                  end
              end
  else ∃ e, CitizenService.updateCitizen env nid data uid st = (inl e, st).
Proof.
  unfold active_citizen, fields_accepted. intros Hc.
  unfold CitizenService.updateCitizen. monad_step. rewrite Hc.
  rewrite update_gender_eq.
  set (c3 := CitizenService.set_when (ud_lastName data) _ _).
  destruct (Js.truthy_opt (ud_gender data)).
  - destruct (Js.includes _ _); [|by eexists]. simpl.
    rewrite update_dateOfBirth_eq.
    destruct (ud_dateOfBirth data) as [d|].
    + destruct (negb (now env <? d)%Z); [|by eexists].
      destruct (negb (d <? hundredYearsAgo env)%Z); [|by eexists]. simpl.
      eexists. split_and!; [| |reflexivity]; unfold c3; keep_fields.
    + simpl. eexists. split_and!; [| |reflexivity]; unfold c3; keep_fields.
  - simpl. rewrite update_dateOfBirth_eq.
    destruct (ud_dateOfBirth data) as [d|].
    + destruct (negb (now env <? d)%Z); [|by eexists].
      destruct (negb (d <? hundredYearsAgo env)%Z); [|by eexists]. simpl.
      eexists. split_and!; [| |reflexivity]; unfold c3; keep_fields.
    + simpl. eexists. split_and!; [| |reflexivity]; unfold c3; keep_fields.
Qed.

Lemma elem_of_replaceById {A} (key : A → ObjectId) (d : A) (l : list A) x :
  x ∈ Mongo.replaceById key d l → x = d ∨ (x ∈ l ∧ key x ≠ key d).
Proof.
  unfold Mongo.replaceById. intros (y & -> & Hy)%list_elem_of_fmap.
  destruct (decide (key y = key d)); [by left|by right].
Qed.

(** The outcome of [updateCitizen] on an active citizen [c], by three
    facts about the request: the field checks pass ([accepted]), the
    status is given and differs from the stored one ([changing]), and the
    audit row is valid and its write goes through ([log_ok]). *)
Lemma updateCitizen_outcome (env : Env) (st : Store) nid
    (data : UpdateCitizenData) uid (c : Citizen.t) :
  active_citizen st nid = Some c →
  let out := CitizenService.updateCitizen env nid data uid st in
  let new := Js.toUpperCase (default "" (ud_status data)) in
  let row := transition_row env st nid (Citizen.status c) new uid in
  let accepted := fields_accepted env data in
  let changing := Js.truthy_opt (ud_status data)
                  && bool_decide (Citizen.status c ≠ new) in
  let log_ok := bool_decide (StatusChangeLog_validate row = None)
                && write_ok env "status_change_logs" in
  statusChangeLogs out.2
    = (if accepted && changing && log_ok
       then statusChangeLogs st ++ [row] else statusChangeLogs st)
  ∧ (accepted && (negb changing || log_ok) = false →
     (∃ e, out.1 = inl e) ∧ citizens out.2 = citizens st)
  ∧ (citizens out.2 = citizens st
     ∨ (∃ n, out.1 = inr n)
       ∧ accepted && (negb changing || log_ok) = true
       ∧ ∃ d, Citizen._id d = Citizen._id c
              ∧ Citizen.status d
                = (if Js.truthy_opt (ud_status data) then new
                   else Citizen.status c)
              ∧ citizens out.2
                = Mongo.replaceById Citizen._id d (citizens st))
  ∧ (∀ e, out.1 = inl e → citizens out.2 = citizens st).
Proof.
  intros Hc out new row accepted changing log_ok.
  pose proof (updateCitizen_run env st nid data uid c Hc) as Hrun.
  fold accepted in Hrun. subst out. destruct accepted.
  2:{ destruct Hrun as [e ->]. simpl. split_and!; eauto. }
  destruct Hrun as (c7 & Hs7 & Hi7 & ->).
  rewrite update_status_eq, Hs7. fold new. subst changing.
  assert (Hsave : ∀ c8 st1,
    citizens st1 = citizens st → Citizen._id c8 = Citizen._id c →
    let out := match Citizen_save env c8 st1 with
               | (inl e, st2) => (inl e, st2)
               | (inr saved, st2) =>
                   (inr (CitizenService.normalizeCitizen env saved), st2)
               end in
    statusChangeLogs out.2 = statusChangeLogs st1
    ∧ (citizens out.2 = citizens st
       ∨ (∃ n, out.1 = inr n)
         ∧ ∃ d, Citizen._id d = Citizen._id c
                ∧ Citizen.status d = Citizen.status c8
                ∧ citizens out.2
                  = Mongo.replaceById Citizen._id d (citizens st))
    ∧ (∀ e, out.1 = inl e → citizens out.2 = citizens st)).
  { intros c8 st1 Hst1 Hid.
    destruct (Citizen_save_cases env c8 st1) as [[r ->]| ->].
    - destruct r; simpl; auto.
    - simpl. rewrite Hst1. split_and!; [done| |done].
      right. split; [by eexists|].
      exists (Citizen.set_updatedAt c8 (now env)). by split_and!. }
  destruct (Js.truthy_opt (ud_status data)); simpl.
  2:{ destruct (Hsave c7 st eq_refl Hi7) as (Hl & Hcz & He).
      split_and!; [done|done| |done].
      destruct Hcz as [?|(Hn & d & ? & Hd & ?)]; [by left|right].
      rewrite Hs7 in Hd. eauto 10. }
  destruct (decide (Citizen.status c ≠ new)) as [Hne|Heq].
  - rewrite bool_decide_eq_true_2 by done. simpl.
    rewrite StatusChangeLog_create_eq. fold row. subst log_ok.
    destruct (StatusChangeLog_validate row) as [path|] eqn:Hv.
    { rewrite bool_decide_eq_false_2 by done. simpl.
      split_and!; eauto. }
    rewrite bool_decide_eq_true_2 by done. simpl.
    destruct (write_ok env "status_change_logs"); simpl.
    2:{ split_and!; eauto. }
    destruct (Hsave (Citizen.set_status c7 new)
                (set_statusChangeLogs st (statusChangeLogs st ++ [row]))
                eq_refl Hi7) as (Hl & Hcz & He).
    split_and!; [done|done| |done].
    destruct Hcz as [?|(Hn & d & ? & Hd & ?)]; [by left|right]. eauto 10.
  - rewrite bool_decide_eq_false_2 by done. simpl.
    destruct (Hsave (Citizen.set_status c7 new) st eq_refl Hi7)
      as (Hl & Hcz & He).
    split_and!; [done|done| |done].
    destruct Hcz as [?|(Hn & d & ? & Hd & ?)]; [by left|right]. eauto 10.
Qed.

(** C4.  On an active citizen, an update whose status, once upper-cased,
    equals the stored one adds no row to the audit collection.  An update
    whose status differs, whose other fields pass their checks and whose
    audit row is valid and written, adds exactly one row, and the row
    carries the national id, the stored status, the new status and the
    acting user. *)
Theorem status_update_logs_once (env : Env) (st : Store) (nationalId : string)
    (data : UpdateCitizenData) (userId : ObjectId) (c : Citizen.t) :
  active_citizen st nationalId = Some c →
  Js.truthy_opt (ud_status data) = true →
  (Citizen.status c = Js.toUpperCase (default "" (ud_status data)) →
   statusChangeLogs
     (CitizenService.updateCitizen env nationalId data userId st).2
   = statusChangeLogs st)
  ∧ (Citizen.status c ≠ Js.toUpperCase (default "" (ud_status data)) →
     fields_accepted env data = true →
     StatusChangeLog_validate
       (transition_row env st nationalId (Citizen.status c)
          (Js.toUpperCase (default "" (ud_status data))) userId) = None →
     write_ok env "status_change_logs" = true →
     ∃ row,
       statusChangeLogs
         (CitizenService.updateCitizen env nationalId data userId st).2
       = statusChangeLogs st ++ [row]
       ∧ StatusChangeLog.nationalId row = nationalId
       ∧ StatusChangeLog.oldStatus row = Citizen.status c
       ∧ StatusChangeLog.newStatus row
         = Js.toUpperCase (default "" (ud_status data))
       ∧ StatusChangeLog.changedBy row = userId).
Proof.
  intros Hc Ht.
  destruct (updateCitizen_outcome env st nationalId data userId c Hc)
    as (Hlog & _). rewrite Ht in Hlog. split.
  - intros Heq. rewrite Hlog, bool_decide_eq_false_2 by (by intros []).
    by rewrite !andb_false_r.
  - intros Hne Hf Hv Hw.
    exists (transition_row env st nationalId (Citizen.status c)
              (Js.toUpperCase (default "" (ud_status data))) userId).
    split; [|done].
    by rewrite Hlog, Hf, Hw, !bool_decide_eq_true_2.
Qed.

(** C4 on the seeded database: Amina is marked deceased by the officer. *)
Lemma status_update_logs_once_witness :
  ∃ row,
    statusChangeLogs
      (CitizenService.updateCitizen Sample.env "1000000001"
         (CitizenService.status_only "DECEASED") 32 Sample.store).2
    = statusChangeLogs Sample.store ++ [row]
    ∧ StatusChangeLog.nationalId row = "1000000001"
    ∧ StatusChangeLog.oldStatus row = Citizen.status Sample.amina
    ∧ StatusChangeLog.newStatus row = "DECEASED"
    ∧ StatusChangeLog.changedBy row = 32.
Proof.
  assert (Hc : active_citizen Sample.store "1000000001" = Some Sample.amina)
    by by vm_compute.
  destruct (status_update_logs_once Sample.env Sample.store "1000000001"
              (CitizenService.status_only "DECEASED") 32 Sample.amina Hc
              eq_refl) as [_ Hrow].
  apply Hrow; by vm_compute.
Defined.

(** C3.  In every run of [updateCitizen] on a store with distinct citizen
    ids: a run that throws leaves the citizens as they were; when the audit
    write of a status change fails, the run throws, the citizens and the
    audit collection are as they were; and whenever a stored citizen has
    another status after the run than before it, the run has appended the
    audit row of that change. *)
Theorem status_commit_has_log (env : Env) (st : Store) (nationalId : string)
    (data : UpdateCitizenData) (userId : ObjectId) :
  NoDup (Citizen._id <$> citizens st) →
  (∀ e, (CitizenService.updateCitizen env nationalId data userId st).1
        = inl e →
        citizens (CitizenService.updateCitizen env nationalId data userId st).2
        = citizens st)
  ∧ (∀ c e,
       active_citizen st nationalId = Some c →
       Js.truthy_opt (ud_status data) = true →
       Citizen.status c ≠ Js.toUpperCase (default "" (ud_status data)) →
       (StatusChangeLog_create env nationalId (Citizen.status c)
          (Js.toUpperCase (default "" (ud_status data))) userId st).1
       = inl e →
       (∃ e', (CitizenService.updateCitizen env nationalId data userId st).1
              = inl e')
       ∧ citizens
           (CitizenService.updateCitizen env nationalId data userId st).2
         = citizens st
       ∧ statusChangeLogs
           (CitizenService.updateCitizen env nationalId data userId st).2
         = statusChangeLogs st)
  ∧ (∀ c c',
       c ∈ citizens st →
       c' ∈ citizens
              (CitizenService.updateCitizen env nationalId data userId st).2 →
       Citizen._id c' = Citizen._id c →
       Citizen.status c' ≠ Citizen.status c →
       statusChangeLogs
         (CitizenService.updateCitizen env nationalId data userId st).2
       = statusChangeLogs st
         ++ [transition_row env st nationalId (Citizen.status c)
               (Citizen.status c') userId]).
Proof.
  intros Hnd.
  assert (Hnone : active_citizen st nationalId = None →
    CitizenService.updateCitizen env nationalId data userId st
    = (inl (Error "Citizen not found"), st)).
  { unfold active_citizen, CitizenService.updateCitizen. monad_step.
    by intros ->. }
  destruct (active_citizen st nationalId) as [c0|] eqn:Hc0.
  2:{ rewrite Hnone by done. simpl. split_and!; [done|done|].
      intros c c' Hc Hc' Hid Hst.
      by rewrite (NoDup_key_inj Citizen._id (citizens st) c' c) in Hst. }
  destruct (updateCitizen_outcome env st nationalId data userId c0 Hc0)
    as (Hlog & Hfail & Hcz & Herr).
  split_and!.
  - exact Herr.
  - intros c e [= <-] Ht Hne Hcreate.
    rewrite StatusChangeLog_create_eq in Hcreate.
    assert (Hlog_ok :
      bool_decide (StatusChangeLog_validate
        (transition_row env st nationalId (Citizen.status c0)
           (Js.toUpperCase (default "" (ud_status data))) userId) = None)
      && write_ok env "status_change_logs" = false).
    { destruct (StatusChangeLog_validate _); [done|].
      by destruct (write_ok env "status_change_logs"). }
    rewrite Hlog_ok in Hlog, Hfail.
    rewrite Ht, bool_decide_eq_true_2 in Hfail by done.
    rewrite andb_false_r in Hlog. simpl in Hfail.
    rewrite andb_false_r in Hfail. destruct (Hfail eq_refl). by split_and!.
  - intros c c' Hc Hc' Hid Hst.
    destruct Hcz as [Hsame|(_ & Hok & d & Hd & Hsd & Hrep)].
    { rewrite Hsame in Hc'.
      by rewrite (NoDup_key_inj Citizen._id (citizens st) c' c) in Hst. }
    rewrite Hrep in Hc'.
    apply elem_of_replaceById in Hc' as [->|[Hc' _]].
    2:{ by rewrite (NoDup_key_inj Citizen._id (citizens st) c' c) in Hst. }
    apply findOne_Some in Hc0 as [Hc0 _].
    assert (c = c0) as ->.
    { apply (NoDup_key_inj Citizen._id (citizens st)); [done..|congruence]. }
    rewrite Hlog. rewrite Hsd in *.
    destruct (Js.truthy_opt (ud_status data)); [|done].
    rewrite bool_decide_eq_true_2 in * by done. simpl in *.
    apply andb_true_iff in Hok as [-> Hok]. simpl in *. by rewrite Hok.
Qed.

(** C3 on the seeded database: when the audit collection is down nothing is
    committed, and when Amina is marked deceased the row is there. *)
Lemma status_commit_has_log_witness :
  ((∃ e', (CitizenService.updateCitizen Sample.env_log_down "1000000001"
             (CitizenService.status_only "DECEASED") 32 Sample.store).1
          = inl e')
   ∧ citizens
       (CitizenService.updateCitizen Sample.env_log_down "1000000001"
          (CitizenService.status_only "DECEASED") 32 Sample.store).2
     = citizens Sample.store
   ∧ statusChangeLogs
       (CitizenService.updateCitizen Sample.env_log_down "1000000001"
          (CitizenService.status_only "DECEASED") 32 Sample.store).2
     = statusChangeLogs Sample.store)
  ∧ statusChangeLogs
      (CitizenService.updateCitizen Sample.env "1000000001"
         (CitizenService.status_only "DECEASED") 32 Sample.store).2
    = statusChangeLogs Sample.store
      ++ [transition_row Sample.env Sample.store "1000000001" "ACTIVE"
            "DECEASED" 32].
Proof.
  assert (Hnd : NoDup (Citizen._id <$> citizens Sample.store)).
  { apply (bool_decide_unpack _). by vm_compute. }
  split.
  - destruct (status_commit_has_log Sample.env_log_down Sample.store
                "1000000001" (CitizenService.status_only "DECEASED") 32 Hnd)
      as (_ & Hfail & _).
    apply (Hfail Sample.amina (MongoError "write failed")); by vm_compute.
  - destruct (status_commit_has_log Sample.env Sample.store
                "1000000001" (CitizenService.status_only "DECEASED") 32 Hnd)
      as (_ & _ & Hrow).
    apply (Hrow Sample.amina
             (Citizen.set_updatedAt
                (Citizen.set_status Sample.amina "DECEASED") 10000));
      [| |done|done]; apply (bool_decide_unpack _); by vm_compute.
Defined.

(** The converse of C3 does not hold: when [save] fails after the audit
    write, the row stays although the status was not changed. *)
Lemma log_row_without_commit :
  (CitizenService.updateCitizen Sample.env_citizens_down "1000000001"
     (CitizenService.status_only "DECEASED") 32 Sample.store).1
  = inl (MongoError "write failed")
  ∧ citizens
      (CitizenService.updateCitizen Sample.env_citizens_down "1000000001"
         (CitizenService.status_only "DECEASED") 32 Sample.store).2
    = citizens Sample.store
  ∧ StatusChangeLog.newStatus
      <$> statusChangeLogs
            (CitizenService.updateCitizen Sample.env_citizens_down
               "1000000001" (CitizenService.status_only "DECEASED") 32
               Sample.store).2
    = ["DECEASED"].
Proof. split_and!; by vm_compute. Qed.

(** ** The paginated listings (claim C8) *)

Section Pages.
Context {A : Type} (l : list A) (page limit : Z).
Hypothesis Hpage : (1 ≤ page)%Z.
Hypothesis Hlimit : (1 ≤ limit)%Z.

Lemma paginate_window :
  match Mongo.skip ((page - 1) * limit) l with
  | inl _ => False
  | inr rest => Mongo.limit limit rest = window page limit l
  end.
Proof.
  unfold Mongo.skip, Mongo.limit, window.
  destruct (Z.ltb_spec ((page - 1) * limit) 0); [nia|].
  destruct (Z.eqb_spec limit 0); [lia|].
  by replace (Z.abs limit) with limit by lia.
Qed.

Lemma window_lookup k x :
  window page limit l !! k = Some x ↔
  (k < Z.to_nat limit)%nat
  ∧ l !! (Z.to_nat ((page - 1) * limit) + k)%nat = Some x.
Proof.
  unfold window. rewrite lookup_take_Some, lookup_drop. tauto.
Qed.

Lemma elem_of_window x : x ∈ window page limit l → x ∈ l.
Proof.
  intros (k & Hk)%list_elem_of_lookup. apply window_lookup in Hk as [_ Hk].
  by eapply list_elem_of_lookup_2.
Qed.

End Pages.

(** Every document of a listing is on one of its pages. *)
Lemma elem_of_some_window {A} (l : list A) (limit : Z) x :
  (1 ≤ limit)%Z → x ∈ l → ∃ page, (1 ≤ page)%Z ∧ x ∈ window page limit l.
Proof.
  intros Hlimit (i & Hi)%list_elem_of_lookup.
  exists (Z.of_nat i / limit + 1)%Z. split.
  - pose proof (Z.div_pos (Z.of_nat i) limit). lia.
  - apply list_elem_of_lookup.
    exists (Z.to_nat (Z.of_nat i mod limit)).
    apply window_lookup. split.
    + pose proof (Z.mod_pos_bound (Z.of_nat i) limit). lia.
    + rewrite <- Hi. f_equal.
      pose proof (Z.div_mod (Z.of_nat i) limit).
      pose proof (Z.mod_pos_bound (Z.of_nat i) limit).
      pose proof (Z.div_pos (Z.of_nat i) limit).
      replace (Z.of_nat i / limit + 1 - 1)%Z with (Z.of_nat i / limit)%Z
        by lia.
      nia.
Qed.

(** Entries of a sorted listing are in order across its pages. *)
Lemma window_order {A} (R : A → A → Prop) (l : list A) (limit : Z)
    (p q : Z) (j k : nat) x y :
  StronglySorted R l → (1 ≤ limit)%Z → (1 ≤ p)%Z → (1 ≤ q)%Z →
  window p limit l !! j = Some x → window q limit l !! k = Some y →
  (p < q)%Z ∨ (p = q ∧ (j < k)%nat) → R x y.
Proof.
  intros Hs Hlimit Hp Hq [Hj Hx]%window_lookup [Hk Hy]%window_lookup Hlt.
  eapply (StronglySorted_lookup R l); [done| |exact Hx|exact Hy].
  destruct Hlt as [Hpq|[-> Hjk]]; [|lia]. nia.
Qed.

Lemma date_le_total (a b : option Date) :
  Mongo.date_le a b = true ∨ Mongo.date_le b a = true.
Proof. destruct a as [x|], b as [y|]; simpl; auto. lia. Qed.

Lemma date_le_trans (a b c : option Date) :
  Mongo.date_le a b = true → Mongo.date_le b c = true →
  Mongo.date_le a c = true.
Proof. destruct a, b, c; simpl; auto; [lia|done]. Qed.

(** A sorted query is a listing. *)
Lemma sorted_query_listing {A} (key : A → ObjectId) (P : A → Prop)
    `{!∀ x, Decision (P x)} (le : A → A → bool) (R : A → A → Prop)
    (limit : Z) (coll : list A) :
  (∀ a b, le a b = true ∨ le b a = true) →
  (∀ a b c, le a b = true → le b c = true → le a c = true) →
  (∀ a b, le a b = true → R a b) →
  (1 ≤ limit)%Z → NoDup (key <$> coll) →
  listing_of key P R limit coll (sort_by le (Mongo.find P coll)).
Proof.
  intros Htotal Htrans HR Hlimit Hnd. unfold listing_of, Mongo.find.
  split_and!.
  - intros x. rewrite elem_of_sort_by, list_elem_of_filter. tauto.
  - rewrite sort_by_Permutation.
    apply (sublist_NoDup _ (key <$> coll)); [done|].
    apply fmap_sublist, sublist_filter.
  - intros x Hx. by apply elem_of_some_window.
  - intros p q j k x y Hp Hq Hx Hy Hlt. apply HR.
    apply (window_order (λ a b, le a b = true)
             (sort_by le (filter P coll)) limit p q j k x y);
      [by apply sort_by_StronglySorted|done..].
Qed.

Lemma listCitizens_page (env : Env) (st : Store) (page limit : Z) :
  (1 ≤ page)%Z → (1 ≤ limit)%Z →
  CitizenService.listCitizens env st page limit
  = inr (mkListing
           (CitizenService.normalizeCitizen env
              <$> window page limit (CitizenService.activeCitizens st))
           (mkPagination page limit
              (Z.of_nat (length (CitizenService.activeCitizens st)))
              (pages_of
                 (Z.of_nat (length (CitizenService.activeCitizens st)))
                 limit))).
Proof.
  intros Hp Hl. unfold CitizenService.listCitizens.
  pose proof (paginate_window (CitizenService.activeCitizens st) page limit
                Hp Hl) as Hw.
  destruct (Mongo.skip _ _) as [e|rest]; [done|]. rewrite Hw.
  unfold Mongo.countDocuments, CitizenService.activeCitizens, Mongo.find.
  by rewrite length_sort_by.
Qed.

Lemma listTrash_citizens_page (env : Env) (st : Store) (page limit : Z) :
  (1 ≤ page)%Z → (1 ≤ limit)%Z →
  CitizenService.listTrash env st page limit
  = inr (mkListing
           (CitizenService.normalizeCitizen env
              <$> window page limit (CitizenService.trashedCitizens st))
           (mkPagination page limit
              (Z.of_nat (length (CitizenService.trashedCitizens st)))
              (pages_of
                 (Z.of_nat (length (CitizenService.trashedCitizens st)))
                 limit))).
Proof.
  intros Hp Hl. unfold CitizenService.listTrash.
  pose proof (paginate_window (CitizenService.trashedCitizens st) page limit
                Hp Hl) as Hw.
  destruct (Mongo.skip _ _) as [e|rest]; [done|]. rewrite Hw.
  unfold Mongo.countDocuments, CitizenService.trashedCitizens, Mongo.find.
  by rewrite length_sort_by.
Qed.

Lemma listUsers_page (env : Env) (st : Store) (page limit : Z) :
  (1 ≤ page)%Z → (1 ≤ limit)%Z →
  UserService.listUsers env st page limit
  = inr (mkListing
           ((λ u, UserService.normalizeUser env (User.set_password u "")
                    (Populated (RBACService.populate_role st u)))
              <$> window page limit (UserService.activeUsers st))
           (mkPagination page limit
              (Z.of_nat (length (UserService.activeUsers st)))
              (pages_of (Z.of_nat (length (UserService.activeUsers st)))
                        limit))).
Proof.
  intros Hp Hl. unfold UserService.listUsers.
  pose proof (paginate_window (UserService.activeUsers st) page limit
                Hp Hl) as Hw.
  destruct (Mongo.skip _ _) as [e|rest]; [done|]. rewrite Hw.
  unfold Mongo.countDocuments, UserService.activeUsers, Mongo.find.
  by rewrite length_sort_by.
Qed.

Lemma listTrash_users_page (env : Env) (st : Store) (page limit : Z) :
  (1 ≤ page)%Z → (1 ≤ limit)%Z →
  UserService.listTrash env st page limit
  = inr (mkListing
           ((λ u, UserService.normalizeUser env (User.set_password u "")
                    (Populated (RBACService.populate_role st u)))
              <$> window page limit (UserService.trashedUsers st))
           (mkPagination page limit
              (Z.of_nat (length (UserService.trashedUsers st)))
              (pages_of (Z.of_nat (length (UserService.trashedUsers st)))
                        limit))).
Proof.
  intros Hp Hl. unfold UserService.listTrash.
  pose proof (paginate_window (UserService.trashedUsers st) page limit
                Hp Hl) as Hw.
  destruct (Mongo.skip _ _) as [e|rest]; [done|]. rewrite Hw.
  unfold Mongo.countDocuments, UserService.trashedUsers, Mongo.find.
  by rewrite length_sort_by.
Qed.

Lemma active_trash_disjoint {A} (key : A → ObjectId) (deleted : A → option Date)
    (coll : list A) (a t : A) :
  NoDup (key <$> coll) →
  a ∈ coll → deleted a = None → t ∈ coll → deleted t ≠ None → key a ≠ key t.
Proof.
  intros Hnd Ha Hda Ht Hdt Hk.
  rewrite (NoDup_key_inj key coll a t Hnd Ha Ht Hk) in Hda. done.
Qed.

(** C8.  For users and for citizens with distinct ids, and a page size of at
    least one: the active listing holds exactly the documents with
    [deletedAt = null], each once, newest-created first within and across
    pages; the trash listing holds exactly those with [deletedAt != null],
    most-recently-deleted first; every such document is on some page; page
    [page] of a listing is its window, with the size of the whole listing as
    total; and no id is in both listings. *)
Theorem listings_partition (env : Env) (st : Store) (limit : Z) :
  (1 ≤ limit)%Z →
  NoDup (Citizen._id <$> citizens st) → NoDup (User._id <$> users st) →
  (listing_of Citizen._id (λ c, Citizen.deletedAt c = None)
     (λ a b, (Citizen.createdAt b ≤ Citizen.createdAt a)%Z)
     limit (citizens st) (CitizenService.activeCitizens st)
   ∧ listing_of Citizen._id (λ c, Citizen.deletedAt c ≠ None)
       (λ a b, ∀ da db, Citizen.deletedAt a = Some da →
                        Citizen.deletedAt b = Some db → (db ≤ da)%Z)
       limit (citizens st) (CitizenService.trashedCitizens st)
   ∧ (∀ a t, a ∈ CitizenService.activeCitizens st →
             t ∈ CitizenService.trashedCitizens st →
             Citizen._id a ≠ Citizen._id t)
   ∧ ∀ page, (1 ≤ page)%Z →
       page_data (CitizenService.listCitizens env st page limit)
       = Some (CitizenService.normalizeCitizen env
                 <$> window page limit (CitizenService.activeCitizens st))
       ∧ page_total (CitizenService.listCitizens env st page limit)
         = Some (Z.of_nat (length (CitizenService.activeCitizens st)))
       ∧ page_data (CitizenService.listTrash env st page limit)
         = Some (CitizenService.normalizeCitizen env
                   <$> window page limit (CitizenService.trashedCitizens st))
       ∧ page_total (CitizenService.listTrash env st page limit)
         = Some (Z.of_nat (length (CitizenService.trashedCitizens st))))
  ∧ (listing_of User._id (λ u, User.deletedAt u = None)
       (λ a b, (User.createdAt b ≤ User.createdAt a)%Z)
       limit (users st) (UserService.activeUsers st)
     ∧ listing_of User._id (λ u, User.deletedAt u ≠ None)
         (λ a b, ∀ da db, User.deletedAt a = Some da →
                          User.deletedAt b = Some db → (db ≤ da)%Z)
         limit (users st) (UserService.trashedUsers st)
     ∧ (∀ a t, a ∈ UserService.activeUsers st →
               t ∈ UserService.trashedUsers st → User._id a ≠ User._id t)
     ∧ ∀ page, (1 ≤ page)%Z →
         page_data (UserService.listUsers env st page limit)
         = Some ((λ u, UserService.normalizeUser env (User.set_password u "")
                         (Populated (RBACService.populate_role st u)))
                   <$> window page limit (UserService.activeUsers st))
         ∧ page_total (UserService.listUsers env st page limit)
           = Some (Z.of_nat (length (UserService.activeUsers st)))
         ∧ page_data (UserService.listTrash env st page limit)
           = Some ((λ u, UserService.normalizeUser env
                           (User.set_password u "")
                           (Populated (RBACService.populate_role st u)))
                     <$> window page limit (UserService.trashedUsers st))
         ∧ page_total (UserService.listTrash env st page limit)
           = Some (Z.of_nat (length (UserService.trashedUsers st)))).
Proof.
  intros Hlimit Hc Hu.
  assert (Hdesc : ∀ x y : Z, (y <=? x)%Z = true ∨ (x <=? y)%Z = true)
    by (intros; lia).
  assert (Htrans : ∀ x y z : Z,
    (y <=? x)%Z = true → (z <=? y)%Z = true → (z <=? x)%Z = true)
    by (intros; lia).
  split; split_and!.
  - apply sorted_query_listing; try done.
    + intros a b. apply Hdesc.
    + intros a b c. apply Htrans.
    + intros a b. unfold CitizenService.newest_first. lia.
  - apply sorted_query_listing; try done.
    + intros a b. apply date_le_total.
    + intros a b c H1 H2. by eapply date_le_trans.
    + intros a b Hle da db Ha Hb.
      unfold CitizenService.last_deleted_first in Hle.
      rewrite Ha, Hb in Hle. simpl in Hle. lia.
  - unfold CitizenService.activeCitizens, CitizenService.trashedCitizens,
      Mongo.find.
    intros a t [? ?]%elem_of_sort_by%list_elem_of_filter
               [? ?]%elem_of_sort_by%list_elem_of_filter.
    by apply (active_trash_disjoint Citizen._id Citizen.deletedAt
                (citizens st)).
  - intros page Hp.
    rewrite listCitizens_page, listTrash_citizens_page by done. done.
  - apply sorted_query_listing; try done.
    + intros a b. apply Hdesc.
    + intros a b c. apply Htrans.
    + intros a b. unfold UserService.newest_first. lia.
  - apply sorted_query_listing; try done.
    + intros a b. apply date_le_total.
    + intros a b c H1 H2. by eapply date_le_trans.
    + intros a b Hle da db Ha Hb.
      unfold UserService.last_deleted_first in Hle.
      rewrite Ha, Hb in Hle. simpl in Hle. lia.
  - unfold UserService.activeUsers, UserService.trashedUsers, Mongo.find.
    intros a t [? ?]%elem_of_sort_by%list_elem_of_filter
               [? ?]%elem_of_sort_by%list_elem_of_filter.
    by apply (active_trash_disjoint User._id User.deletedAt (users st)).
  - intros page Hp.
    rewrite listUsers_page, listTrash_users_page by done. done.
Qed.

(** C8 on the seeded database, pages of fifty. *)
Lemma listings_partition_witness :
  User._id Sample.admin ≠ User._id Sample.trashedOfficer
  ∧ page_data (UserService.listTrash Sample.env Sample.store 1 50)
    = Some ((λ u, UserService.normalizeUser Sample.env (User.set_password u "")
                    (Populated (RBACService.populate_role Sample.store u)))
              <$> window 1 50 (UserService.trashedUsers Sample.store)).
Proof.
  assert (Hnc : NoDup (Citizen._id <$> citizens Sample.store)).
  { apply (bool_decide_unpack _). by vm_compute. }
  assert (Hnu : NoDup (User._id <$> users Sample.store)).
  { apply (bool_decide_unpack _). by vm_compute. }
  assert (Hl : (1 ≤ 50)%Z) by lia.
  destruct (listings_partition Sample.env Sample.store 50 Hl Hnc Hnu)
    as (_ & _ & _ & Hdis & Hpages).
  split.
  - apply Hdis; apply (bool_decide_unpack _); by vm_compute.
  - by destruct (Hpages 1%Z) as (_ & _ & -> & _).
Defined.

(** ** User creation (claim C10) *)

(** The insert of a new user only appends to the users. *)
Lemma User_insert_cases (env : Env) (u : User.t) st :
  (∃ e, User_insert env u st = (inl e, st))
  ∨ ∃ u', User._id u' = User._id u ∧ User.username u' = User.username u
          ∧ User_insert env u st = (inr u', set_users st (users st ++ [u'])).
Proof.
  unfold User_insert. monad_step.
  destruct (User_validate u); [by left; eexists|]. monad_step.
  destruct (write_ok env "users"); monad_step; [|by left; eexists].
  destruct (negb (username_taken u (users st))); monad_step;
    [|by left; eexists].
  right. eexists (User.mk _ _ _ _ _ _ _ _ _ _ _). by split_and!.
Qed.

(** The insert never reports the error of the uniqueness check of
    [createUser]. *)
Lemma User_insert_error (env : Env) (u : User.t) st :
  (User_insert env u st).1 ≠ inl (Error "Username already exists").
Proof.
  unfold User_insert. monad_step.
  destruct (User_validate u); [done|]. monad_step.
  destruct (write_ok env "users"); monad_step; [|done].
  by destruct (negb (username_taken u (users st))).
Qed.

(** A successful [createUser] appends one user and touches nothing else. *)
Lemma createUser_success_appends (env : Env) (data : CreateUserData) st n st' :
  UserService.createUser env data st = (inr n, st') →
  ∃ u, st' = set_users st (users st ++ [u])
       ∧ User.username u = Js.trim (default "" (cu_username data)).
Proof.
  unfold UserService.createUser. monad_step.
  destruct (_ && _); monad_step; [|done].
  destruct (_ && _); monad_step; [|done].
  destruct (match cu_role_id data with Some _ => _ | None => _ end);
    [|done].
  monad_step.
  destruct (negb _); monad_step; [|done].
  destruct (negb _); monad_step; [|done].
  destruct (Mongo.findOne _ (roles st)); [|done].
  destruct (Mongo.findOne _ (users st)); [done|]. monad_step.
  destruct (negb _); monad_step; [|done].
  match goal with
  | |- context [User_insert env ?u st] =>
      destruct (User_insert_cases env u st) as [[e ->]|(u' & _ & Hn & ->)]
  end; [done|].
  intros [= <- <-]. by exists u'.
Qed.

(** The uniqueness check of [createUser] looks at active users only: a
    request that passes the checks before it fails with "Username already
    exists" exactly when an active user holds the trimmed username. *)
Lemma createUser_exists_iff (env : Env) (data : CreateUserData) st name
    password roleId role :
  cu_username data = Some name → cu_password data = Some password →
  Js.truthy (Js.trim name) = true → Js.truthy (Js.trim password) = true →
  (3 ≤ Js.length (Js.trim name) ≤ 100)%nat →
  (6 ≤ Js.length password)%nat →
  (match cu_role_id data with Some r => Some r | None => cu_roleId data end)
    = Some roleId →
  Mongo.findOne (λ r, Role._id r = roleId) (roles st) = Some role →
  (UserService.createUser env data st).1
    = inl (Error "Username already exists")
  ↔ ∃ u, u ∈ users st ∧ User.username u = Js.trim name
         ∧ User.deletedAt u = None.
Proof.
  intros Hn Hp Htn Htp Hlen Hplen Hr Hrole.
  assert (Hname : Js.truthy name = true).
  { destruct name; [done|]. by apply bool_decide_eq_true_2. }
  assert (Hpass : Js.truthy password = true).
  { destruct password; [done|]. by apply bool_decide_eq_true_2. }
  unfold UserService.createUser. monad_step.
  rewrite Hn, Hp, Hr. simpl. rewrite Hname, Htn, Hpass, Htp. simpl.
  monad_step.
  destruct (Nat.ltb_spec (Js.length (Js.trim name)) 3); [lia|].
  destruct (Nat.ltb_spec 100 (Js.length (Js.trim name))); [lia|].
  destruct (Nat.ltb_spec (Js.length password) 6); [lia|].
  simpl. monad_step. rewrite Hrole.
  destruct (Mongo.findOne _ (users st)) as [existing|] eqn:Hex.
  - simpl. split; [intros _|done].
    apply findOne_Some in Hex as [? [? ?]]. by exists existing.
  - rewrite findOne_None in Hex. split.
    + intros Herr. exfalso. destruct (negb _); [|done].
      match type of Herr with
      | context [User_insert env ?u st] =>
          pose proof (User_insert_error env u st) as Hins;
          destruct (User_insert env u st) as [[e|x] st2]
      end; simpl in Herr; [|done].
      apply Hins. simpl. by injection Herr as ->.
    + intros (u & Hu & Hun & Hud). by destruct (Hex u Hu).
Qed.

(** C10, the code at the failing input.  "officer2" is held by a user in
    the trash only, so the uniqueness check of [createUser] passes; the
    insert is then rejected by the unique index that the schema declares on
    [username], and no user is created: the name cannot be reused. *)
Theorem createUser_trashed_username :
  (∀ u, u ∈ users Sample.store → User.username u = "officer2" →
        User.deletedAt u ≠ None)
  ∧ Mongo.findOne (λ u, User.username u = "officer2"
                        ∧ User.deletedAt u = None) (users Sample.store)
    = None
  ∧ UserService.createUser Sample.env
      (mkCreateUserData (Some "officer2") (Some "secret1") (Some 12) None
                        None None None) Sample.store
    = (inl (DuplicateKeyError "username_1"), Sample.store).
Proof.
  split_and!; [|by vm_compute..].
  intros u Hu Hn Hd. unfold Sample.store in Hu. simpl in Hu.
  repeat (apply elem_of_cons in Hu as [->|Hu]; [by vm_compute in Hn, Hd|]).
  by apply elem_of_nil in Hu.
Qed.

(** ** The access guard, from both sides *)

Lemma findOne_ext {A} (P Q : A → Prop) `{!∀ x, Decision (P x)}
    `{!∀ x, Decision (Q x)} (l : list A) :
  (∀ x, P x ↔ Q x) → Mongo.findOne P l = Mongo.findOne Q l.
Proof. intros HPQ. unfold Mongo.findOne. by rewrite (list_filter_iff P Q). Qed.

Lemma some_includes (perms codes : list string) :
  Js.some (Js.includes perms) codes = true
  ↔ ∃ c, c ∈ codes ∧ c ∈ perms.
Proof.
  unfold Js.some, Js.includes. induction codes as [|c codes IH]; simpl.
  - split; [done|]. intros (c & Hc & _). by apply elem_of_nil in Hc.
  - rewrite orb_true_iff, IH, bool_decide_eq_true. split.
    + intros [Hc|(c' & Hc' & Hp)]; [exists c|exists c']; split; try done.
      * by left.
      * by right.
    + intros (c' & [->|Hc']%elem_of_cons & Hp); [by left|right; eauto].
Qed.

(** [authenticate] hands a request on exactly for an active principal, with
    the stored user attached (its password blanked), its id and its role
    name. *)
Lemma authenticate_Next (env : Env) (st : Store) (req req' : Request) :
  authenticate env st req = Next req'
  ↔ ∃ u, active_principal env st req = Some u
         ∧ req' = mkRequest (authorization req)
                    (Some (mkPopulatedUser (User.set_password u "")
                             (RBACService.populate_role st u)))
                    (Some (User._id u)) (Some (User.role u)).
Proof.
  unfold authenticate, active_principal, principal_of.
  destruct (authorization req) as [authHeader|];
    [|split; [done|by intros (? & ? & ?)]].
  destruct (Js.startsWith authHeader "Bearer "); simpl;
    [|split; [done|by intros (? & ? & ?)]].
  destruct (jwt_verify env _) as [uid| | |]; simpl;
    try (split; [done|by intros (? & ? & ?)]).
  destruct (Mongo.findOne _ (users st)) as [u|]; simpl;
    [|split; [done|by intros (? & ? & ?)]].
  destruct (decide (User.status u = "ACTIVE")) as [Hs|Hs].
  - rewrite (bool_decide_eq_true_2 (User.status u = "ACTIVE")) by done. simpl.
    destruct (User.deletedAt u) as [d|] eqn:Hd.
    + rewrite bool_decide_eq_true_2 by eauto.
      rewrite bool_decide_eq_false_2 by (by intros [_ ?]).
      split; [done|by intros (? & ? & ?)].
    + rewrite bool_decide_eq_false_2 by (by intros [? ?]).
      rewrite bool_decide_eq_true_2 by done.
      split.
      * intros [= <-]. by exists u.
      * by intros (? & [= <-] & ->).
  - rewrite (bool_decide_eq_false_2 (User.status u = "ACTIVE")) by done. simpl.
    rewrite bool_decide_eq_false_2 by (by intros [? _]).
    split; [done|by intros (? & ? & ?)].
Qed.

Lemma active_principal_stored (env : Env) (st : Store) (req : Request) u :
  active_principal env st req = Some u →
  principal_of env req = Some (User._id u)
  ∧ Mongo.findOne (λ x, User._id x = User._id u) (users st) = Some u
  ∧ User.status u = "ACTIVE" ∧ User.deletedAt u = None.
Proof.
  unfold active_principal.
  destruct (principal_of env req) as [uid|]; [|done]. simpl.
  destruct (Mongo.findOne _ (users st)) as [x|] eqn:Hf; [|done]. simpl.
  destruct (bool_decide_reflect (User.status x = "ACTIVE"
                                 ∧ User.deletedAt x = None)) as [[? ?]|];
    [|done].
  intros [= ->]. destruct (findOne_Some _ _ _ Hf) as [_ Hid].
  simpl in Hid. by subst uid.
Qed.

(** The role that [requirePermission] loads for the user attached by
    [authenticate] is the one that [getUserPermissions] populates. *)
Lemma requirePermission_attached (st : Store) (codes : list string)
    (req : Request) u :
  Mongo.findOne (λ x, User._id x = User._id u) (users st) = Some u →
  user req = Some (mkPopulatedUser (User.set_password u "")
                     (RBACService.populate_role st u)) →
  allowed (requirePermission codes st req) = true
  ↔ ∃ c, c ∈ codes ∧ c ∈ RBACService.getUserPermissions st (User._id u).
Proof.
  intros Hu Hreq. unfold requirePermission, RBACService.getUserPermissions.
  rewrite Hreq, Hu. simpl.
  destruct (RBACService.populate_role st u) as [r|] eqn:Hr; simpl.
  - assert (Hr' : Mongo.findOne (λ x, Role._id x = Role._id r) (roles st)
                  = Some r).
    { unfold RBACService.populate_role in Hr.
      destruct (findOne_Some _ _ _ Hr) as [_ Hid]. simpl in Hid.
      rewrite <- Hr. apply findOne_ext. intros x. by rewrite Hid. }
    rewrite Hr'.
    destruct (Js.some _ codes) eqn:Hsome; simpl.
    + apply some_includes in Hsome. by split.
    + split; [done|]. intros Hc. apply some_includes in Hc. congruence.
  - split; [done|]. intros (c & _ & Hc). by apply elem_of_nil in Hc.
Qed.

(** X1.  A route guarded by [authenticate, requirePermission(codes)] lets a
    request through exactly when its principal is a stored user that is
    ACTIVE and not in the trash, and one of the required codes is among the
    permissions that [getUserPermissions] resolves for that user. *)
Theorem authorize_allowed_iff (env : Env) (st : Store)
    (permissionCodes : list string) (req : Request) :
  allowed (authorize env st permissionCodes req) = true
  ↔ ∃ u, active_principal env st req = Some u
         ∧ ∃ c, c ∈ permissionCodes
                ∧ c ∈ RBACService.getUserPermissions st (User._id u).
Proof.
  unfold authorize, run_middlewares.
  destruct (authenticate env st req) as [res|req'] eqn:Ha.
  - split; [done|]. intros (u & Hu & _).
    assert (authenticate env st req
            = Next (mkRequest (authorization req)
                      (Some (mkPopulatedUser (User.set_password u "")
                               (RBACService.populate_role st u)))
                      (Some (User._id u)) (Some (User.role u)))) as Hn
      by (apply authenticate_Next; eauto).
    congruence.
  - apply authenticate_Next in Ha as (u & Hu & ->).
    destruct (active_principal_stored env st req u Hu) as (_ & Hf & _ & _).
    destruct (requirePermission permissionCodes st _) as [res|req''] eqn:Hp.
    + split; [done|]. intros (u' & Hu' & Hc).
      assert (u' = u) as -> by congruence.
      apply (requirePermission_attached st permissionCodes
               (mkRequest (authorization req)
                  (Some (mkPopulatedUser (User.set_password u "")
                           (RBACService.populate_role st u)))
                  (Some (User._id u)) (Some (User.role u)))) in Hc;
        [|done..].
      rewrite Hp in Hc. done.
    + split; [intros _|done]. exists u. split; [done|].
      apply (requirePermission_attached st permissionCodes
               (mkRequest (authorization req)
                  (Some (mkPopulatedUser (User.set_password u "")
                           (RBACService.populate_role st u)))
                  (Some (User._id u)) (Some (User.role u)))); [done..|].
      by rewrite Hp.
Qed.

(** X2.  A route guarded by [authenticate, requireRole(roles)] lets a
    request through exactly when its principal is a stored user that is
    ACTIVE and not in the trash and the role name kept on the user document
    is one of [roles]: the role and permission collections are not read. *)
Theorem requireRole_allowed_iff (env : Env) (st : Store) (roles : list string)
    (req : Request) :
  allowed (run_middlewares [authenticate env st; requireRole roles] req) = true
  ↔ ∃ u, active_principal env st req = Some u ∧ User.role u ∈ roles.
Proof.
  unfold run_middlewares.
  destruct (authenticate env st req) as [res|req'] eqn:Ha.
  - split; [done|]. intros (u & Hu & _).
    assert (authenticate env st req
            = Next (mkRequest (authorization req)
                      (Some (mkPopulatedUser (User.set_password u "")
                               (RBACService.populate_role st u)))
                      (Some (User._id u)) (Some (User.role u)))) as Hn
      by (apply authenticate_Next; eauto).
    congruence.
  - apply authenticate_Next in Ha as (u & Hu & ->).
    unfold requireRole, Js.includes. simpl.
    destruct (bool_decide_reflect (User.role u ∈ roles)) as [Hr|Hr]; simpl.
    + split; [intros _|done]. by exists u.
    + split; [done|]. intros (u' & Hu' & Hr').
      assert (u' = u) as -> by congruence. done.
Qed.

(** ** What the services write *)

Lemma User_validate_enums (u : User.t) : User_validate u = None → User_enums u.
Proof.
  unfold User_validate, User_enums, Js.includes, first_failure.
  destruct (_ && _); [|done]. destruct (_ && _); [|done].
  destruct (bool_decide_reflect (User.role u ∈ ["ADMIN"; "OFFICER"; "VIEWER"]));
    [|done].
  by destruct (bool_decide_reflect (User.status u ∈ ["ACTIVE"; "DISABLED"])).
Qed.

Lemma Citizen_validate_enums (env : Env) (c : Citizen.t) :
  Citizen_validate env c = None → Citizen_enums c.
Proof.
  unfold Citizen_validate, Citizen_enums, Js.includes, first_failure.
  destruct (_ && _); [|done]. destruct (_ && _); [|done].
  destruct (maxlength_opt _ _); [|done]. destruct (_ && _); [|done].
  destruct (bool_decide_reflect (Citizen.gender c ∈ ["MALE"; "FEMALE"]));
    [|done].
  destruct (_ && _); [|done]. destruct (_ && _); [|done].
  destruct (in_range _ _ _); [|done].
  by destruct (bool_decide_reflect
                 (Citizen.status c ∈ ["ACTIVE"; "DECEASED"])).
Qed.

Lemma StatusChangeLog_validate_enums (l : StatusChangeLog.t) :
  StatusChangeLog_validate l = None → StatusChangeLog_enums l.
Proof.
  unfold StatusChangeLog_validate, StatusChangeLog_enums, Js.includes,
    first_failure.
  destruct (Js.truthy _); [|done].
  destruct (bool_decide_reflect
              (StatusChangeLog.oldStatus l ∈ ["ACTIVE"; "DECEASED"])); [|done].
  by destruct (bool_decide_reflect
                 (StatusChangeLog.newStatus l ∈ ["ACTIVE"; "DECEASED"])).
Qed.

Lemma freshId_fresh (ids : list ObjectId) : Mongo.freshId ids ∉ ids.
Proof.
  unfold Mongo.freshId. intros Hin.
  assert (Hle : ∀ x, x ∈ ids → x ≤ foldr max 0 ids).
  { clear Hin. induction ids as [|y ids IH]; intros x Hx.
    - by apply elem_of_nil in Hx.
    - simpl. apply elem_of_cons in Hx as [->|Hx]; [lia|].
      specialize (IH x Hx). lia. }
  specialize (Hle _ Hin). lia.
Qed.

(** A call that ends with a pure step writes what came before it. *)
Lemma bind_pure_effect {A B} (R : relation Store) (m : M A) (k : A → M B)
    (st : Store) :
  (∀ x st1, (k x st1).2 = st1) →
  rtc R st (m st).2 → rtc R st (bind m k st).2.
Proof.
  intros Hk. unfold bind. destruct (m st) as [[e|x] st1]; [done|].
  simpl. by rewrite Hk.
Qed.

(** What [save] does for a user loaded before: nothing to the store, or the
    update of the stored document. *)
Lemma User_save_cases (env : Env) (u : User.t) (st : Store) :
  (∃ r, User_save env u st = (r, st))
  ∨ ∃ stored,
      Mongo.findOne (λ x, User._id x = User._id u) (users st) = Some stored
      ∧ stored ≠ u ∧ User_validate u = None ∧ write_ok env "users" = true
      ∧ User_save env u st
        = (inr (saved_user env stored u),
           set_users st
             (Mongo.replaceById User._id (saved_user env stored u)
                                (users st))).
Proof.
  unfold User_save. monad_step.
  destruct (User_validate u) eqn:Hv; [by left; eexists|]. monad_step.
  destruct (Mongo.findOne _ (users st)) as [stored|] eqn:Hf;
    [|by left; eexists].
  destruct (decide (stored = u)); [by left; eexists|].
  destruct (write_ok env "users") eqn:Hw; monad_step; [|by left; eexists].
  destruct (negb (username_taken _ _)); monad_step; [|by left; eexists].
  right. exists stored. by split_and!.
Qed.

Lemma saved_user_fields (env : Env) (stored u : User.t) :
  User._id (saved_user env stored u) = User._id u
  ∧ User.username (saved_user env stored u) = User.username u
  ∧ User.roleId (saved_user env stored u) = User.roleId u
  ∧ User.role (saved_user env stored u) = User.role u
  ∧ User.status (saved_user env stored u) = User.status u
  ∧ User.deletedAt (saved_user env stored u) = User.deletedAt u
  ∧ User.createdAt (saved_user env stored u) = User.createdAt u
  ∧ User.updatedAt (saved_user env stored u) = now env
  ∧ User.password (saved_user env stored u)
    = (if decide (User.password stored = User.password u)
       then User.password stored
       else bcrypt_hash env (User.password u)).
Proof.
  unfold saved_user.
  destruct (decide (User.password stored = User.password u)) as [->|];
    by split_and!.
Qed.

Lemma User_save_effect (env : Env) (u stored : User.t) (st : Store) :
  Mongo.findOne (λ x, User._id x = User._id u) (users st) = Some stored →
  User.username u = User.username stored →
  (role_agrees (roles st) stored → role_agrees (roles st) u) →
  rtc user_effect st (User_save env u st).2.
Proof.
  intros Hf Hn Hrole.
  destruct (User_save_cases env u st) as [[r ->]|(s0 & Hs & _ & Hv & _ & ->)];
    [done|].
  assert (s0 = stored) as -> by congruence.
  destruct (saved_user_fields env stored u)
    as (Hid & Hun & Hrid & Hr & Hst & _).
  apply rtc_once, (user_replaced st stored).
  - by destruct (findOne_Some _ _ _ Hf).
  - destruct (findOne_Some _ _ _ Hf) as [_ Hid']. simpl in Hid'. congruence.
  - congruence.
  - apply User_validate_enums in Hv. unfold User_enums in *.
    by rewrite Hr, Hst.
  - intros Hs0. destruct (Hrole Hs0) as (r & ? & ? & ?).
    exists r. by rewrite Hrid, Hr.
Qed.

(** The writes that do not touch the role keep the agreement of the role
    name with the role reference. *)
Lemma role_agrees_same (rs : list Role.t) (u u' : User.t) :
  User.roleId u' = User.roleId u → User.role u' = User.role u →
  role_agrees rs u → role_agrees rs u'.
Proof. intros Hi Hr (r & ? & ? & ?). exists r. by rewrite Hi, Hr. Qed.

Lemma not_taken_username (u : User.t) (l : list User.t) :
  User._id u ∉ User._id <$> l → username_taken u l = false →
  User.username u ∉ User.username <$> l.
Proof.
  unfold username_taken. intros Hid Ht (x & Hx & Hin)%list_elem_of_fmap.
  apply bool_decide_eq_false in Ht. apply Ht, Exists_exists.
  exists x. split_and!; [done|done|]. intros Heq. apply Hid.
  apply list_elem_of_fmap. by exists x.
Qed.

Lemma not_taken_nationalId (c : Citizen.t) (l : list Citizen.t) :
  Citizen._id c ∉ Citizen._id <$> l → nationalId_taken c l = false →
  Citizen.nationalId c ∉ Citizen.nationalId <$> l.
Proof.
  unfold nationalId_taken. intros Hid Ht (x & Hx & Hin)%list_elem_of_fmap.
  apply bool_decide_eq_false in Ht. apply Ht, Exists_exists.
  exists x. split_and!; [done|done|]. intros Heq. apply Hid.
  apply list_elem_of_fmap. by exists x.
Qed.

(** The insert of a new user: nothing, or the user appended with its
    password hashed and its timestamps set. *)
Lemma User_insert_outcome (env : Env) (u : User.t) (st : Store) :
  (∃ e, User_insert env u st = (inl e, st))
  ∨ (User_validate u = None ∧ username_taken u (users st) = false
     ∧ User_insert env u st
       = (inr (inserted_user env u),
          set_users st (users st ++ [inserted_user env u]))).
Proof.
  unfold User_insert. monad_step.
  destruct (User_validate u); [by left; eexists|]. monad_step.
  destruct (write_ok env "users"); monad_step; [|by left; eexists].
  destruct (username_taken u (users st)); monad_step; [by left; eexists|].
  by right.
Qed.

Lemma User_insert_effect (env : Env) (u : User.t) (st : Store) :
  User._id u ∉ User._id <$> users st → role_agrees (roles st) u →
  rtc user_effect st (User_insert env u st).2.
Proof.
  intros Hid Hrole.
  destruct (User_insert_outcome env u st) as [[e ->]|(Hv & Ht & ->)]; [done|].
  apply rtc_once, user_inserted; simpl; [done| | |done].
  - by apply not_taken_username.
  - by apply User_validate_enums in Hv.
Qed.

Lemma Citizen_insert_outcome (env : Env) (c : Citizen.t) (st : Store) :
  (∃ e, Citizen_insert env c st = (inl e, st))
  ∨ (Citizen_validate env c = None
     ∧ nationalId_taken c (citizens st) = false
     ∧ Citizen_insert env c st
       = (inr (inserted_citizen env c),
          set_citizens st (citizens st ++ [inserted_citizen env c]))).
Proof.
  unfold Citizen_insert. monad_step.
  destruct (Citizen_validate env c); [by left; eexists|]. monad_step.
  destruct (write_ok env "citizens"); monad_step; [|by left; eexists].
  destruct (nationalId_taken c (citizens st)); monad_step;
    [by left; eexists|].
  by right.
Qed.

Lemma Citizen_insert_effect (env : Env) (c : Citizen.t) (st : Store) :
  Citizen._id c ∉ Citizen._id <$> citizens st →
  rtc citizen_effect st (Citizen_insert env c st).2.
Proof.
  intros Hid.
  destruct (Citizen_insert_outcome env c st) as [[e ->]|(Hv & Ht & ->)];
    [done|].
  apply rtc_once, citizen_inserted; simpl; [done| |].
  - by apply not_taken_nationalId.
  - by apply Citizen_validate_enums in Hv.
Qed.

(** What [save] does for a citizen loaded before. *)
Lemma Citizen_save_written (env : Env) (c : Citizen.t) (st : Store) :
  (∃ r, Citizen_save env c st = (r, st))
  ∨ ∃ stored,
      Mongo.findOne (λ x, Citizen._id x = Citizen._id c) (citizens st)
        = Some stored
      ∧ stored ≠ c ∧ Citizen_validate env c = None
      ∧ write_ok env "citizens" = true
      ∧ Citizen_save env c st
        = (inr (Citizen.set_updatedAt c (now env)),
           set_citizens st
             (Mongo.replaceById Citizen._id
                (Citizen.set_updatedAt c (now env)) (citizens st))).
Proof.
  unfold Citizen_save. monad_step.
  destruct (Citizen_validate env c) eqn:Hv; [by left; eexists|]. monad_step.
  destruct (Mongo.findOne _ (citizens st)) as [stored|] eqn:Hf;
    [|by left; eexists].
  destruct (decide (stored = c)); [by left; eexists|].
  destruct (write_ok env "citizens") eqn:Hw; monad_step;
    [|by left; eexists].
  destruct (negb (nationalId_taken _ _)); monad_step; [|by left; eexists].
  right. exists stored. by split_and!.
Qed.

Lemma Citizen_save_effect (env : Env) (c c0 : Citizen.t) (st : Store) :
  c0 ∈ citizens st → Citizen._id c = Citizen._id c0 →
  Citizen.nationalId c = Citizen.nationalId c0 →
  rtc citizen_effect st (Citizen_save env c st).2.
Proof.
  intros Hc0 Hid Hn.
  destruct (Citizen_save_written env c st)
    as [[r ->]|(stored & Hf & _ & Hv & _ & ->)]; [done|].
  apply rtc_once, (citizen_replaced st c0); simpl; [done..|].
  by apply Citizen_validate_enums in Hv.
Qed.

Lemma StatusChangeLog_create_effect (env : Env) (st : Store) nid o n uid :
  rtc log_effect st (StatusChangeLog_create env nid o n uid st).2.
Proof.
  rewrite StatusChangeLog_create_eq.
  destruct (StatusChangeLog_validate _) eqn:Hv; [done|].
  destruct (write_ok env "status_change_logs"); [|done].
  apply rtc_once, log_appended.
  - apply freshId_fresh.
  - by apply StatusChangeLog_validate_enums.
Qed.

(** Each call of the services is a sequence of such writes. *)
Lemma createUser_effect (env : Env) (data : CreateUserData) (st : Store) :
  rtc user_effect st (UserService.createUser env data st).2.
Proof.
  unfold UserService.createUser. monad_step.
  destruct (_ && _); monad_step; [|done].
  destruct (_ && _); monad_step; [|done].
  destruct (match cu_role_id data with Some _ => _ | None => _ end);
    [|done].
  monad_step.
  destruct (negb _); monad_step; [|done].
  destruct (negb _); monad_step; [|done].
  destruct (Mongo.findOne _ (roles st)) as [role|] eqn:Hrole; [|done].
  destruct (findOne_Some _ _ _ Hrole) as [Hin Hid]. simpl in Hid.
  destruct (Mongo.findOne _ (users st)); [done|]. monad_step.
  destruct (negb _); monad_step; [|done].
  match goal with
  | |- context [User_insert env ?u st] =>
      assert (role_agrees (roles st) u) as Hagree by (by exists role);
      pose proof (User_insert_effect env u st (freshId_fresh _) Hagree) as He;
      destruct (User_insert env u st) as [[e|x] st1]
  end; done.
Qed.

Lemma deleteUser_effect (env : Env) (userId : ObjectId) (st : Store) :
  rtc user_effect st (UserService.deleteUser env userId st).2.
Proof.
  unfold UserService.deleteUser. monad_step.
  destruct (Mongo.findOne _ (users st)) as [u|] eqn:Hf; [|done].
  destruct (bool_decide _); [done|].
  destruct (findOne_Some _ _ _ Hf) as [_ Hid]. simpl in Hid. subst userId.
  apply bind_pure_effect; [done|].
  apply (User_save_effect env _ u); [done..|]. by apply role_agrees_same.
Qed.

Lemma restoreUser_effect (env : Env) (userId : ObjectId) (st : Store) :
  rtc user_effect st (UserService.restoreUser env userId st).2.
Proof.
  unfold UserService.restoreUser. monad_step.
  destruct (Mongo.findOne _ (users st)) as [u|] eqn:Hf; [|done].
  destruct (findOne_Some _ _ _ Hf) as [_ Hid]. simpl in Hid. subst userId.
  apply bind_pure_effect; [done|].
  apply (User_save_effect env _ u); [done..|]. by apply role_agrees_same.
Qed.

Lemma changeUserStatus_effect (env : Env) (userId : ObjectId) status
    (st : Store) :
  rtc user_effect st (UserService.changeUserStatus env userId status st).2.
Proof.
  unfold UserService.changeUserStatus. monad_step.
  destruct (Mongo.findOne _ (users st)) as [u|] eqn:Hf; [|done].
  destruct (bool_decide _); [done|].
  destruct (findOne_Some _ _ _ Hf) as [_ Hid]. simpl in Hid. subst userId.
  apply bind_pure_effect; [done|].
  apply (User_save_effect env _ u); [done..|]. by apply role_agrees_same.
Qed.

Lemma updateUserPassword_effect (env : Env) (userId : ObjectId) newPassword
    (st : Store) :
  rtc user_effect st (UserService.updateUserPassword env userId newPassword st).2.
Proof.
  unfold UserService.updateUserPassword. monad_step.
  destruct (Mongo.findOne _ (users st)) as [u|] eqn:Hf; [|done].
  destruct (bool_decide _); [done|].
  destruct (negb _); monad_step; [|done].
  destruct (findOne_Some _ _ _ Hf) as [_ Hid]. simpl in Hid. subst userId.
  apply bind_pure_effect; [done|].
  apply (User_save_effect env _ u); [done..|]. by apply role_agrees_same.
Qed.

(** The role block of [updateUser] leaves the user as it is, or sets its
    role reference and role name to those of a stored role. *)
Lemma update_role_cases (st0 : Store) (data : UpdateUserData) (user : User.t)
    (st : Store) :
  UserService.update_role st0 data user st = (inr user, st)
  ∨ (∃ e, UserService.update_role st0 data user st = (inl e, st))
  ∨ ∃ role,
      UserService.find_role st0 data = Some role
      ∧ (User.role user = "ADMIN" → Role.name role = "ADMIN")
      ∧ UserService.update_role st0 data user st
        = (inr (User.set_role (User.set_roleId user (Role._id role))
                              (Role.name role)), st).
Proof.
  unfold UserService.update_role.
  destruct (_ || _); [|by left].
  destruct (UserService.find_role st0 data) as [role|];
    [|by right; left; eexists].
  monad_step.
  destruct (bool_decide_reflect (User.role user = "ADMIN")) as [Ha|Ha];
    simpl.
  - destruct (bool_decide_reflect (Role.name role ≠ "ADMIN")) as [Hr|Hr];
      simpl; [by right; left; eexists|].
    right; right. exists role. split_and!; [done| |done].
    intros _. by destruct (decide (Role.name role = "ADMIN")).
  - right; right. exists role. by split_and!.
Qed.

Lemma update_phoneNumber_cases (data : UpdateUserData) (user : User.t)
    (st : Store) :
  (∃ e, UserService.update_phoneNumber data user st = (inl e, st))
  ∨ ∃ p, UserService.update_phoneNumber data user st
         = (inr (User.set_phoneNumber user p), st).
Proof.
  unfold UserService.update_phoneNumber.
  destruct (uu_phoneNumber data) as [p|].
  - monad_step. destruct (negb _); [|by left; eexists]. right. by eexists.
  - right. exists (User.phoneNumber user). by destruct user.
Qed.

(** [updateUser] on an active user: the outcome of the two checked blocks,
    then [save] on a document with the id, the username, the password and
    the soft-delete mark of the stored one. *)
Lemma find_role_elem (st : Store) (data : UpdateUserData) role :
  UserService.find_role st data = Some role → role ∈ roles st.
Proof.
  unfold UserService.find_role, UserService.role_by_key.
  assert (Hfind : ∀ (P : Role.t → Prop) `{!∀ x, Decision (P x)} r,
            Mongo.findOne P (roles st) = Some r → r ∈ roles st).
  { intros P ? r Hr. by apply findOne_Some in Hr as [? _]. }
  destruct (RoleKey_truthy (uu_role_id data) || RoleKey_truthy (uu_roleId data)).
  - destruct (if RoleKey_truthy (uu_role_id data) then uu_role_id data
              else uu_roleId data) as [[i|s]|]; simpl.
    + destruct (Mongo.findOne _ (roles st)) as [r|] eqn:Hr.
      * intros [= <-]. by eapply Hfind.
      * destruct (Js.truthy_opt (uu_roleName data)); [|done]. apply Hfind.
    + destruct (UserService.roleNames s) as [name|].
      * destruct (Mongo.findOne _ (roles st)) as [r|] eqn:Hr.
        -- intros [= <-]. by eapply Hfind.
        -- destruct (Js.truthy_opt (uu_roleName data)); [|done]. apply Hfind.
      * destruct (Js.truthy_opt (uu_roleName data)); [|done]. apply Hfind.
    + destruct (Js.truthy_opt (uu_roleName data)); [|done]. apply Hfind.
  - destruct (Js.truthy_opt (uu_roleName data)); [|done]. apply Hfind.
Qed.

(** [updateUser] on an active user: the outcome of the two checked blocks,
    then [save] on a document with the id, the username, the password and
    the soft-delete mark of the stored one. *)
Lemma updateUser_run (env : Env) (userId : ObjectId) (data : UpdateUserData)
    (st : Store) (user : User.t) :
  Mongo.findOne (λ u, User._id u = userId) (users st) = Some user →
  User.deletedAt user = None →
  (∃ e, UserService.updateUser env userId data st = (inl e, st))
  ∨ ∃ u4,
      User._id u4 = User._id user ∧ User.username u4 = User.username user
      ∧ User.password u4 = User.password user
      ∧ User.deletedAt u4 = None
      ∧ User.createdAt u4 = User.createdAt user
      ∧ (User.role user = "ADMIN" → User.role u4 = "ADMIN")
      ∧ (role_agrees (roles st) user → role_agrees (roles st) u4)
      ∧ UserService.updateUser env userId data st
        = match User_save env u4 st with
          | (inl e, st') => (inl e, st')
          | (inr saved, st') =>
              (inr (UserService.normalizeUser env saved Unpopulated), st')
          end.
Proof.
  intros Hf Hd. unfold UserService.updateUser. monad_step. rewrite Hf, Hd.
  rewrite bool_decide_eq_false_2 by (by intros [? ?]).
  destruct (update_role_cases st data user st)
    as [->|[[e ->]|(role & Hfound & Hadmin & ->)]]; [|by left; eexists|].
  - match goal with
    | |- context [UserService.update_phoneNumber data ?u2 st] =>
        assert (User._id u2 = User._id user ∧ User.username u2 = User.username user
                ∧ User.password u2 = User.password user
                ∧ User.deletedAt u2 = None
                ∧ User.createdAt u2 = User.createdAt user
                ∧ User.role u2 = User.role user
                ∧ User.roleId u2 = User.roleId user) as (?&?&?&?&?&?&?)
          by (by destruct (Js.truthy_opt (uu_status data)));
        destruct (update_phoneNumber_cases data u2 st) as [[e ->]|[p ->]]
    end; [by left; eexists|].
    right. eexists. split_and!; [..|reflexivity];
      try (destruct (uu_profilePicturePath data); simpl; congruence).
    apply role_agrees_same;
      destruct (uu_profilePicturePath data); simpl; congruence.
  - apply find_role_elem in Hfound.
    match goal with
    | |- context [UserService.update_phoneNumber data ?u2 st] =>
        assert (User._id u2 = User._id user ∧ User.username u2 = User.username user
                ∧ User.password u2 = User.password user
                ∧ User.deletedAt u2 = None
                ∧ User.createdAt u2 = User.createdAt user
                ∧ User.role u2 = Role.name role
                ∧ User.roleId u2 = Role._id role) as (?&?&?&?&?&?&?)
          by (by destruct (Js.truthy_opt (uu_status data)));
        destruct (update_phoneNumber_cases data u2 st) as [[e ->]|[p ->]]
    end; [by left; eexists|].
    right. eexists. split_and!; [..|reflexivity];
      try (destruct (uu_profilePicturePath data); simpl; congruence).
    + intros Ha. rewrite <- (Hadmin Ha).
      destruct (uu_profilePicturePath data); simpl; congruence.
    + intros _. exists role.
      destruct (uu_profilePicturePath data); simpl; split_and!; congruence.
Qed.

Lemma updateUser_effect (env : Env) (userId : ObjectId) (data : UpdateUserData)
    (st : Store) :
  rtc user_effect st (UserService.updateUser env userId data st).2.
Proof.
  destruct (Mongo.findOne (λ u, User._id u = userId) (users st)) as [user|]
    eqn:Hf.
  - destruct (User.deletedAt user) as [d|] eqn:Hd.
    + unfold UserService.updateUser. monad_step. rewrite Hf, Hd.
      by rewrite bool_decide_eq_true_2 by eauto.
    + destruct (updateUser_run env userId data st user Hf Hd)
        as [[e ->]|(u4 & Hid & Hn & _ & _ & _ & _ & Hrole & ->)]; [done|].
      destruct (findOne_Some _ _ _ Hf) as [_ Hid']. simpl in Hid'.
      pose proof (User_save_effect env u4 user st) as He.
      destruct (User_save env u4 st) as [[e|saved] st']; simpl in *;
        apply He; try done; by rewrite Hid, Hid'.
  - unfold UserService.updateUser. monad_step. by rewrite Hf.
Qed.

Lemma deleteUserPermanent_effect (env : Env) (userId : ObjectId) (st : Store) :
  rtc user_effect st (UserService.deleteUserPermanent env userId st).2.
Proof.
  unfold UserService.deleteUserPermanent. monad_step.
  destruct (Mongo.findOne _ (users st)); [|done].
  destruct (write_ok env "users"); monad_step; [|done].
  apply rtc_once, user_removed.
Qed.

(** [updateCitizen] on an active citizen: a refusal of the field checks
    before anything is written, or the status block and [save] on a
    document that has the keys, the soft-delete mark, the files and still
    the status of the stored one. *)
Lemma updateCitizen_steps (env : Env) (st : Store) nid
    (data : UpdateCitizenData) uid (c : Citizen.t) :
  active_citizen st nid = Some c →
  (∃ e, CitizenService.updateCitizen env nid data uid st = (inl e, st))
  ∨ ∃ c7,
      (Citizen._id c7 = Citizen._id c
       ∧ Citizen.nationalId c7 = Citizen.nationalId c
       ∧ Citizen.deletedAt c7 = Citizen.deletedAt c
       ∧ Citizen.createdAt c7 = Citizen.createdAt c
       ∧ Citizen.status c7 = Citizen.status c
       ∧ Citizen.imagePath c7 = Citizen.imagePath c
       ∧ Citizen.documentPath c7 = Citizen.documentPath c)
      ∧ CitizenService.updateCitizen env nid data uid st
        = match CitizenService.update_status env nid data uid c7 st with
          | (inl e, st1) => (inl e, st1)
          | (inr c8, st1) =>
              match Citizen_save env c8 st1 with
              | (inl e, st2) => (inl e, st2)
              | (inr saved, st2) =>
                  (inr (CitizenService.normalizeCitizen env saved), st2)
              end
          end.
Proof.
  unfold active_citizen. intros Hc.
  unfold CitizenService.updateCitizen. monad_step. rewrite Hc.
  rewrite update_gender_eq.
  set (c3 := CitizenService.set_when (ud_lastName data) _ _).
  destruct (Js.truthy_opt (ud_gender data)).
  - destruct (Js.includes _ _); [|by left; eexists]. simpl.
    rewrite update_dateOfBirth_eq.
    destruct (ud_dateOfBirth data) as [d|].
    + destruct (negb (now env <? d)%Z); [|by left; eexists].
      destruct (negb (d <? hundredYearsAgo env)%Z); [|by left; eexists].
      simpl. right. eexists. split; [|reflexivity].
      split_and!; unfold c3; keep_fields.
    + simpl. right. eexists. split; [|reflexivity].
      split_and!; unfold c3; keep_fields.
  - simpl. rewrite update_dateOfBirth_eq.
    destruct (ud_dateOfBirth data) as [d|].
    + destruct (negb (now env <? d)%Z); [|by left; eexists].
      destruct (negb (d <? hundredYearsAgo env)%Z); [|by left; eexists].
      simpl. right. eexists. split; [|reflexivity].
      split_and!; unfold c3; keep_fields.
    + simpl. right. eexists. split; [|reflexivity].
      split_and!; unfold c3; keep_fields.
Qed.

Lemma StatusChangeLog_create_frame (env : Env) (st : Store) nid o n uid :
  users (StatusChangeLog_create env nid o n uid st).2 = users st
  ∧ citizens (StatusChangeLog_create env nid o n uid st).2 = citizens st.
Proof.
  rewrite StatusChangeLog_create_eq.
  destruct (StatusChangeLog_validate _); [done|].
  by destruct (write_ok env "status_change_logs").
Qed.

Lemma updateCitizen_effect (env : Env) nid (data : UpdateCitizenData) uid
    (st : Store) :
  rtc effect st (CitizenService.updateCitizen env nid data uid st).2.
Proof.
  assert (Hsave : ∀ c c0 st1, c0 ∈ citizens st1 →
            Citizen._id c = Citizen._id c0 →
            Citizen.nationalId c = Citizen.nationalId c0 →
            rtc effect st1
              (match Citizen_save env c st1 with
               | (inl e, st2) => (inl e, st2)
               | (inr saved, st2) =>
                   (inr (CitizenService.normalizeCitizen env saved), st2)
               end).2).
  { intros c c0 st1 Hin Hid Hn.
    pose proof (Citizen_save_effect env c c0 st1 Hin Hid Hn) as Hs.
    apply (rtc_subrel citizen_effect effect) in Hs;
      [|by intros ???; right; left].
    by destruct (Citizen_save env c st1) as [[e|saved] st2]. }
  destruct (active_citizen st nid) as [c|] eqn:Hc.
  - destruct (updateCitizen_steps env st nid data uid c Hc)
      as [[e ->]|(c7 & (Hid & Hn & _) & ->)]; [done|].
    destruct (findOne_Some _ _ _ Hc) as [Hin _].
    rewrite update_status_eq.
    destruct (Js.truthy_opt (ud_status data)); [|by apply (Hsave c7 c)].
    destruct (decide (Citizen.status c7 ≠ _)); [|by apply (Hsave _ c)].
    pose proof (StatusChangeLog_create_effect env st nid (Citizen.status c7)
                  (Js.toUpperCase (default "" (ud_status data))) uid) as Hlog.
    apply (rtc_subrel log_effect effect) in Hlog;
      [|by intros ???; right; right].
    pose proof (StatusChangeLog_create_frame env st nid (Citizen.status c7)
                  (Js.toUpperCase (default "" (ud_status data))) uid)
      as [_ Hframe].
    destruct (StatusChangeLog_create _ _ _ _ _ _) as [[e|row] st1]; [done|].
    simpl in Hlog, Hframe. etrans; [exact Hlog|].
    apply (Hsave _ c); [by rewrite Hframe|done..].
  - unfold CitizenService.updateCitizen. monad_step.
    unfold active_citizen in Hc. by rewrite Hc.
Qed.

Lemma updateCitizenFiles_effect (env : Env) nid (fileData : FileData)
    (st : Store) :
  rtc citizen_effect st (CitizenService.updateCitizenFiles env nid fileData st).2.
Proof.
  unfold CitizenService.updateCitizenFiles. monad_step.
  destruct (Mongo.findOne _ (citizens st)) as [c|] eqn:Hc; [|done].
  destruct (findOne_Some _ _ _ Hc) as [Hin _].
  apply bind_pure_effect; [done|].
  apply (Citizen_save_effect env _ c); [done|..];
    by destruct (Js.truthy_opt (fd_imagePath fileData)),
               (Js.truthy_opt (fd_documentPath fileData)).
Qed.

Lemma deleteCitizen_effect (env : Env) nid uid (st : Store) :
  rtc citizen_effect st (CitizenService.deleteCitizen env nid uid st).2.
Proof.
  unfold CitizenService.deleteCitizen. monad_step.
  destruct (Mongo.findOne _ (citizens st)) as [c|] eqn:Hc; [|done].
  destruct (findOne_Some _ _ _ Hc) as [Hin _].
  apply bind_pure_effect; [done|]. by apply (Citizen_save_effect env _ c).
Qed.

Lemma restoreCitizen_effect (env : Env) nid (st : Store) :
  rtc citizen_effect st (CitizenService.restoreCitizen env nid st).2.
Proof.
  unfold CitizenService.restoreCitizen. monad_step.
  destruct (Mongo.findOne _ (citizens st)) as [c|] eqn:Hc; [|done].
  destruct (findOne_Some _ _ _ Hc) as [Hin _].
  apply bind_pure_effect; [done|]. by apply (Citizen_save_effect env _ c).
Qed.

Lemma deleteCitizenPermanent_effect (env : Env) nid (st : Store) :
  rtc citizen_effect st (CitizenService.deleteCitizenPermanent env nid st).2.
Proof.
  unfold CitizenService.deleteCitizenPermanent. monad_step.
  destruct (Mongo.findOne _ (citizens st)) as [c|]; [|done].
  destruct (write_ok env "citizens"); monad_step; [|done].
  apply rtc_once, citizen_removed.
Qed.

Lemma createCitizen_effect (env : Env) random (data : CreateCitizenData) uid
    (st : Store) :
  rtc citizen_effect st (CitizenService.createCitizen env random data uid st).2.
Proof.
  unfold CitizenService.createCitizen. monad_step.
  destruct (negb (CitizenService.missing (cc_firstName data))); [|done].
  destruct (negb (CitizenService.missing (cc_lastName data))); [|done].
  destruct (negb (CitizenService.missing (cc_gender data))); [|done].
  destruct (cc_dateOfBirth data) as [d|]; [|done]. monad_step.
  destruct (negb (CitizenService.missing (cc_placeOfBirth data))); [|done].
  destruct (Js.includes _ _); [|done].
  destruct (negb (now env <? d)%Z); [|done].
  destruct (negb (d <? hundredYearsAgo env)%Z); [|done].
  destruct (Mongo.findOne _ (citizens st)); [done|].
  apply bind_pure_effect; [done|].
  apply Citizen_insert_effect, freshId_fresh.
Qed.

Lemma user_effect_effect (st st' : Store) :
  rtc user_effect st st' → rtc effect st st'.
Proof. apply rtc_subrel. intros ???. by left. Qed.

Lemma citizen_effect_effect (st st' : Store) :
  rtc citizen_effect st st' → rtc effect st st'.
Proof. apply rtc_subrel. intros ???. by right; left. Qed.

(** Every call of the services is a sequence of such writes. *)
Lemma exec_effect (env : Env) (c : Command) (st : Store) :
  rtc effect st (exec env c st).
Proof.
  destruct c; simpl.
  - apply user_effect_effect, createUser_effect.
  - apply user_effect_effect, updateUser_effect.
  - apply user_effect_effect, updateUserPassword_effect.
  - apply user_effect_effect, changeUserStatus_effect.
  - apply user_effect_effect, deleteUser_effect.
  - apply user_effect_effect, restoreUser_effect.
  - apply user_effect_effect, deleteUserPermanent_effect.
  - apply citizen_effect_effect, createCitizen_effect.
  - apply updateCitizen_effect.
  - apply citizen_effect_effect, updateCitizenFiles_effect.
  - apply citizen_effect_effect, deleteCitizen_effect.
  - apply citizen_effect_effect, restoreCitizen_effect.
  - apply citizen_effect_effect, deleteCitizenPermanent_effect.
Qed.

Lemma run_effect (history : list (Env * Command)) (st : Store) :
  rtc effect st (run history st).
Proof.
  unfold run. revert st. induction history as [|[env c] history IH];
    intros st; simpl; [done|].
  etrans; [apply exec_effect|apply IH].
Qed.

(** ** Invariants of the store *)

Lemma fmap_key_replaceById {A} (key : A → ObjectId) (d : A) (l : list A) :
  key <$> Mongo.replaceById key d l = key <$> l.
Proof.
  unfold Mongo.replaceById. rewrite <- list_fmap_compose.
  apply Forall_fmap_ext, Forall_forall. intros x _. simpl.
  by destruct (decide (key x = key d)).
Qed.

(** With distinct ids, the update of a document changes no field that the
    new version shares with the stored one. *)
Lemma fmap_replaceById {A B} (key : A → ObjectId) (f : A → B) (d x0 : A)
    (l : list A) :
  NoDup (key <$> l) → x0 ∈ l → key d = key x0 → f d = f x0 →
  f <$> Mongo.replaceById key d l = f <$> l.
Proof.
  intros Hnd Hx0 Hk Hf. unfold Mongo.replaceById.
  rewrite <- list_fmap_compose.
  apply Forall_fmap_ext, Forall_forall. intros x Hx. simpl.
  destruct (decide (key x = key d)) as [Heq|]; [|done].
  rewrite Hf. f_equal. apply (NoDup_key_inj key l); [done..|congruence].
Qed.

Lemma Forall_replaceById {A} (P : A → Prop) (key : A → ObjectId) (d : A)
    (l : list A) :
  Forall P l → P d → Forall P (Mongo.replaceById key d l).
Proof.
  intros Hl Hd. unfold Mongo.replaceById. apply Forall_fmap.
  eapply Forall_impl; [exact Hl|]. intros x Hx. simpl.
  by destruct (decide (key x = key d)).
Qed.

Lemma deleteOne_sublist {A} (P : A → Prop) `{!∀ x, Decision (P x)}
    (l : list A) :
  Mongo.deleteOne P l `sublist_of` l.
Proof.
  induction l as [|x l IH]; simpl; [done|].
  destruct (decide (P x)); [by apply sublist_cons|by apply sublist_skip].
Qed.

Lemma elem_of_deleteOne_sub {A} (P : A → Prop) `{!∀ x, Decision (P x)}
    (l : list A) (x : A) :
  x ∈ Mongo.deleteOne P l → x ∈ l.
Proof.
  induction l as [|y l IH]; simpl; [done|].
  destruct (decide (P y)); [by right|].
  intros [->|Hx]%elem_of_cons; [by left|right; auto].
Qed.

Lemma NoDup_fmap_deleteOne {A B} (f : A → B) (P : A → Prop)
    `{!∀ x, Decision (P x)} (l : list A) :
  NoDup (f <$> l) → NoDup (f <$> Mongo.deleteOne P l).
Proof.
  intros Hnd. eapply sublist_NoDup; [exact Hnd|].
  apply fmap_sublist, deleteOne_sublist.
Qed.

Lemma Forall_deleteOne {A} (Q P : A → Prop) `{!∀ x, Decision (P x)}
    (l : list A) :
  Forall Q l → Forall Q (Mongo.deleteOne P l).
Proof.
  induction 1 as [|x l Hx Hl IH]; simpl; [done|].
  destruct (decide (P x)); [done|by constructor].
Qed.

Lemma NoDup_fmap_snoc {A B} (f : A → B) (l : list A) (x : A) :
  NoDup (f <$> l) → f x ∉ f <$> l → NoDup (f <$> (l ++ [x])).
Proof.
  intros Hnd Hx. rewrite fmap_app. apply NoDup_app. split_and!; [done| |].
  - intros y Hy Hy'. simpl in Hy'. apply list_elem_of_singleton in Hy'.
    by subst y.
  - simpl. apply NoDup_singleton.
Qed.

Lemma effect_keys_unique (st st' : Store) :
  effect st st' → keys_unique st → keys_unique st'.
Proof.
  unfold keys_unique. intros He (Hu & Hn & Hc & Hi & Hl).
  destruct He as [[u Hid Hname _ _|u0 u Hin Hid Hname _ _|userId]
                  |[[c Hid Hnid _|c0 c Hin Hid Hnid _|id]|[row Hid _]]];
    simpl.
  - split_and!; try done; by apply NoDup_fmap_snoc.
  - split_and!; try done.
    + by rewrite fmap_key_replaceById.
    + by rewrite (fmap_replaceById User._id User.username u u0).
  - split_and!; try done; by apply NoDup_fmap_deleteOne.
  - split_and!; try done; by apply NoDup_fmap_snoc.
  - split_and!; try done.
    + by rewrite fmap_key_replaceById.
    + by rewrite (fmap_replaceById Citizen._id Citizen.nationalId c c0).
  - split_and!; try done; by apply NoDup_fmap_deleteOne.
  - split_and!; try done. by apply NoDup_fmap_snoc.
Qed.

Lemma effect_enums_ok (st st' : Store) :
  effect st st' → enums_ok st → enums_ok st'.
Proof.
  unfold enums_ok. intros He (Hu & Hc & Hl).
  destruct He as [[u _ _ He _|u0 u _ _ _ He _|userId]
                  |[[c _ _ He|c0 c _ _ _ He|id]|[row _ He]]]; simpl;
    split_and!; try done.
  - apply Forall_app. split; [done|]. by apply Forall_singleton.
  - by apply Forall_replaceById.
  - by apply Forall_deleteOne.
  - apply Forall_app. split; [done|]. by apply Forall_singleton.
  - by apply Forall_replaceById.
  - by apply Forall_deleteOne.
  - apply Forall_app. split; [done|]. by apply Forall_singleton.
Qed.

Lemma effect_frame (st st' : Store) :
  effect st st' →
  roles st' = roles st ∧ permissions st' = permissions st
  ∧ menus st' = menus st
  ∧ statusChangeLogs st `prefix_of` statusChangeLogs st'.
Proof.
  intros [He|[He|He]]; destruct He; simpl; split_and!; try done.
  by apply prefix_app_r.
Qed.

Lemma rtc_effect_frame (st st' : Store) :
  rtc effect st st' →
  roles st' = roles st ∧ permissions st' = permissions st
  ∧ menus st' = menus st
  ∧ statusChangeLogs st `prefix_of` statusChangeLogs st'.
Proof.
  induction 1 as [st|st st1 st2 He _ (Hr & Hp & Hm & Hl)]; [done|].
  destruct (effect_frame _ _ He) as (Hr1 & Hp1 & Hm1 & Hl1).
  split_and!; [congruence..|by etrans].
Qed.

(** X3.  The keys by which the services look documents up stay unique
    through every history of service calls, whether the calls return or
    throw: user ids and usernames, citizen ids and national ids, and the ids
    of the audit rows. *)
Theorem keys_unique_invariant (history : list (Env * Command)) (st : Store) :
  keys_unique st → keys_unique (run history st).
Proof.
  intros Hk. induction (run_effect history st) as [st|st st1 st2 He _ IH];
    [done|].
  by apply IH, (effect_keys_unique st).
Qed.

(** X3 on the seeded database, after a day of calls. *)
Lemma keys_unique_invariant_witness :
  keys_unique (run sample_history Sample.store).
Proof.
  apply keys_unique_invariant. unfold keys_unique.
  split_and!; apply (bool_decide_unpack _); by vm_compute.
Defined.

(** X4.  The enumerated fields hold values of the schema through every
    history of service calls: the role and status of a user, the gender and
    status of a citizen, the old and new status of an audit row.  The
    services upper-case what they are given and write it through [save],
    which validates the whole document. *)
Theorem enums_ok_invariant (history : list (Env * Command)) (st : Store) :
  enums_ok st → enums_ok (run history st).
Proof.
  intros Hk. induction (run_effect history st) as [st|st st1 st2 He _ IH];
    [done|].
  by apply IH, (effect_enums_ok st).
Qed.

(** X5.  No call of the user and citizen services writes to the roles, the
    permissions or the menus, and none removes or rewrites a row of the
    status audit trail: after any history of calls the trail starts with the
    rows that it had. *)
Theorem services_frame (history : list (Env * Command)) (st : Store) :
  roles (run history st) = roles st
  ∧ permissions (run history st) = permissions st
  ∧ menus (run history st) = menus st
  ∧ statusChangeLogs st `prefix_of` statusChangeLogs (run history st).
Proof. apply rtc_effect_frame, run_effect. Qed.

(** X4 on the seeded database, after a day of calls. *)
Lemma enums_ok_invariant_witness :
  enums_ok (run sample_history Sample.store).
Proof.
  apply enums_ok_invariant. unfold enums_ok.
  split_and!; apply (bool_decide_unpack _); by vm_compute.
Defined.

(** ** The lifecycle, call by call *)

Lemma replaceById_twice {A} (key : A → ObjectId) (d d' : A) (l : list A) :
  key d' = key d →
  Mongo.replaceById key d' (Mongo.replaceById key d l)
  = Mongo.replaceById key d' l.
Proof.
  intros Hk. unfold Mongo.replaceById. rewrite <- list_fmap_compose.
  apply Forall_fmap_ext, Forall_forall. intros x _. simpl. rewrite Hk.
  destruct (decide (key x = key d)) as [Hx|Hx].
  - by rewrite decide_True.
  - by rewrite decide_False.
Qed.

Lemma username_taken_replaceById (u d : User.t) (l : list User.t) :
  User._id d = User._id u →
  username_taken u (Mongo.replaceById User._id d l) = username_taken u l.
Proof.
  intros Hid. unfold username_taken. apply bool_decide_ext.
  unfold Mongo.replaceById. rewrite Exists_fmap. apply Exists_proper; [|done].
  intros x. simpl. destruct (decide (User._id x = User._id d)); [|done].
  split; intros [_ Hne]; destruct Hne; congruence.
Qed.

Lemma nationalId_taken_replaceById (c d : Citizen.t) (l : list Citizen.t) :
  Citizen._id d = Citizen._id c →
  nationalId_taken c (Mongo.replaceById Citizen._id d l)
  = nationalId_taken c l.
Proof.
  intros Hid. unfold nationalId_taken. apply bool_decide_ext.
  unfold Mongo.replaceById. rewrite Exists_fmap. apply Exists_proper; [|done].
  intros x. simpl. destruct (decide (Citizen._id x = Citizen._id d)); [|done].
  split; intros [_ Hne]; destruct Hne; congruence.
Qed.

(** [save] goes through for a modified, valid document when the write does
    and the unique index has no other holder of the username. *)
Lemma User_save_writes (env : Env) (u stored : User.t) (st : Store) :
  Mongo.findOne (λ x, User._id x = User._id u) (users st) = Some stored →
  stored ≠ u → User_validate u = None → write_ok env "users" = true →
  username_taken u (users st) = false →
  User_save env u st
  = (inr (saved_user env stored u),
     set_users st
       (Mongo.replaceById User._id (saved_user env stored u) (users st))).
Proof.
  intros Hf Hne Hv Hw Ht. unfold User_save. monad_step.
  rewrite Hv. monad_step. rewrite Hf, decide_False by done.
  rewrite Hw. monad_step. fold (saved_user env stored u).
  assert (username_taken (saved_user env stored u) (users st)
          = username_taken u (users st)) as ->; [|by rewrite Ht].
  unfold saved_user. by destruct (decide _).
Qed.

Lemma Citizen_save_writes (env : Env) (c stored : Citizen.t) (st : Store) :
  Mongo.findOne (λ x, Citizen._id x = Citizen._id c) (citizens st)
    = Some stored →
  stored ≠ c → Citizen_validate env c = None →
  write_ok env "citizens" = true →
  nationalId_taken c (citizens st) = false →
  Citizen_save env c st
  = (inr (Citizen.set_updatedAt c (now env)),
     set_citizens st
       (Mongo.replaceById Citizen._id (Citizen.set_updatedAt c (now env))
                          (citizens st))).
Proof.
  intros Hf Hne Hv Hw Ht. unfold Citizen_save. monad_step.
  rewrite Hv. monad_step. rewrite Hf, decide_False by done.
  rewrite Hw. monad_step.
  change (nationalId_taken (Citizen.set_updatedAt c (now env)) (citizens st))
    with (nationalId_taken c (citizens st)).
  by rewrite Ht.
Qed.

(** What a successful [save] leaves under the id of the document. *)
Lemma User_save_stored (env : Env) (u r : User.t) (st st' : Store) :
  User_save env u st = (inr r, st') →
  Mongo.findOne (λ x, User._id x = User._id u) (users st') = Some r
  ∧ User.status r = User.status u ∧ User.deletedAt r = User.deletedAt u
  ∧ User.role r = User.role u.
Proof.
  intros Hs.
  assert (Hcases : (r = u ∧ st' = st
                    ∧ Mongo.findOne (λ x, User._id x = User._id u) (users st)
                      = Some u)
                   ∨ ∃ stored,
                       Mongo.findOne (λ x, User._id x = User._id u) (users st)
                         = Some stored
                       ∧ r = saved_user env stored u
                       ∧ st' = set_users st
                                 (Mongo.replaceById User._id
                                    (saved_user env stored u) (users st))).
  { revert Hs. unfold User_save. monad_step.
    destruct (User_validate u); [done|]. monad_step.
    destruct (Mongo.findOne _ (users st)) as [stored|] eqn:Hf; [|done].
    destruct (decide (stored = u)) as [->|]; [intros [= <- <-]; by left|].
    destruct (write_ok env "users"); monad_step; [|done].
    destruct (negb (username_taken _ _)); monad_step; [|done].
    intros [= <- <-]. right. by exists stored. }
  destruct Hcases as [(-> & -> & Hf)|(stored & Hf & -> & ->)]; [done|].
  destruct (saved_user_fields env stored u)
    as (Hid & _ & _ & Hr & Hst & Hd & _).
  split_and!; [|done..]. simpl. rewrite <- Hid.
  apply (findOne_replaceById User._id _ stored). by rewrite Hid.
Qed.

Lemma NoDup_not_taken_username (u : User.t) (l : list User.t) :
  NoDup (User.username <$> l) → u ∈ l → username_taken u l = false.
Proof.
  intros Hnd Hu. unfold username_taken. apply bool_decide_eq_false.
  intros (x & Hx & Hn & Hid)%Exists_exists. apply Hid. f_equal.
  by apply (NoDup_key_inj User.username l).
Qed.

Lemma NoDup_not_taken_nationalId (c : Citizen.t) (l : list Citizen.t) :
  NoDup (Citizen.nationalId <$> l) → c ∈ l → nationalId_taken c l = false.
Proof.
  intros Hnd Hc. unfold nationalId_taken. apply bool_decide_eq_false.
  intros (x & Hx & Hn & Hid)%Exists_exists. apply Hid. f_equal.
  by apply (NoDup_key_inj Citizen.nationalId l).
Qed.

Lemma elem_of_replaceById_same {A} (key : A → ObjectId) (d x0 : A)
    (l : list A) :
  x0 ∈ l → key d = key x0 → d ∈ Mongo.replaceById key d l.
Proof.
  intros Hx Hk. unfold Mongo.replaceById. apply list_elem_of_fmap.
  exists x0. by rewrite decide_True.
Qed.

Lemma deleteUser_active (env : Env) (st : Store) (userId : ObjectId) u :
  NoDup (User.username <$> users st) →
  Mongo.findOne (λ x, User._id x = userId) (users st) = Some u →
  User.deletedAt u = None → User_validate u = None →
  write_ok env "users" = true →
  UserService.deleteUser env userId st
  = (inr true,
     set_users st
       (Mongo.replaceById User._id (trashed_user env u) (users st))).
Proof.
  intros Hnd Hf Hd Hv Hw. destruct (findOne_Some _ _ _ Hf) as [Hin Hid].
  simpl in Hid. subst userId.
  unfold UserService.deleteUser. monad_step. rewrite Hf, Hd.
  rewrite bool_decide_eq_false_2 by (by intros [? ?]).
  rewrite (User_save_writes env _ u); try done.
  - unfold saved_user. simpl. by rewrite decide_True.
  - intros Heq. apply (f_equal User.deletedAt) in Heq. simpl in Heq.
    congruence.
  - change (username_taken u (users st) = false).
    by apply NoDup_not_taken_username.
Qed.

Lemma deleteCitizen_active (env : Env) (st : Store) (nationalId : string)
    (actor : ObjectId) c :
  keys_unique st →
  Mongo.findOne (λ x, Citizen.nationalId x = nationalId) (citizens st)
    = Some c →
  Citizen.deletedAt c = None → Citizen_validate env c = None →
  write_ok env "citizens" = true →
  CitizenService.deleteCitizen env nationalId actor st
  = (inr true,
     set_citizens st
       (Mongo.replaceById Citizen._id (trashed_citizen env c) (citizens st))).
Proof.
  intros (_ & _ & Hids & Hnids & _) Hf Hd Hv Hw.
  destruct (findOne_Some _ _ _ Hf) as [Hin Hn]. simpl in Hn.
  unfold CitizenService.deleteCitizen. monad_step.
  rewrite (findOne_key_and Citizen.nationalId nationalId
             (λ x, Citizen.deletedAt x = None) (citizens st) Hnids).
  rewrite Hf, decide_True by done.
  rewrite (Citizen_save_writes env _ c); try done.
  - exact (findOne_by_key Citizen._id (citizens st) c Hids Hin).
  - intros Heq. apply (f_equal Citizen.deletedAt) in Heq. simpl in Heq.
    congruence.
  - change (nationalId_taken c (citizens st) = false).
    by apply NoDup_not_taken_nationalId.
Qed.

Lemma citizen_state_replaced (st : Store) (c c' : Citizen.t) :
  keys_unique st → c ∈ citizens st → Citizen._id c' = Citizen._id c →
  Citizen.nationalId c' = Citizen.nationalId c →
  citizen_state
    (set_citizens st (Mongo.replaceById Citizen._id c' (citizens st)))
    (Citizen.nationalId c)
  = state_of (Citizen.deletedAt c').
Proof.
  intros (_ & _ & Hids & Hnids & _) Hin Hid Hn. unfold citizen_state. simpl.
  rewrite <- Hn.
  rewrite (findOne_by_key Citizen.nationalId _ c'); [done| |].
  - by rewrite (fmap_replaceById Citizen._id Citizen.nationalId c' c).
  - by apply (elem_of_replaceById_same Citizen._id c' c).
Qed.

Lemma user_state_replaced (st : Store) (u u' : User.t) (userId : ObjectId) :
  Mongo.findOne (λ x, User._id x = userId) (users st) = Some u →
  User._id u' = userId →
  user_state (set_users st (Mongo.replaceById User._id u' (users st))) userId
  = state_of (User.deletedAt u').
Proof.
  intros Hf <-. unfold user_state. simpl.
  by rewrite (findOne_replaceById User._id u' u).
Qed.

(** X6.  The soft delete of an active user or citizen whose document passes
    validation goes through when the write does: the call returns [true],
    the document gets [deletedAt] and [updatedAt] set to the time of the
    call and nothing else changes, and the entity is in the trash
    afterwards. *)
Theorem soft_delete_active (env : Env) (st : Store) (userId : ObjectId)
    (nationalId : string) (actor : ObjectId) :
  keys_unique st →
  (∀ u, Mongo.findOne (λ x, User._id x = userId) (users st) = Some u →
        User.deletedAt u = None → User_validate u = None →
        write_ok env "users" = true →
        UserService.deleteUser env userId st
        = (inr true,
           set_users st
             (Mongo.replaceById User._id (trashed_user env u) (users st)))
        ∧ user_state (UserService.deleteUser env userId st).2 userId
          = Trashed)
  ∧ (∀ c, Mongo.findOne (λ x, Citizen.nationalId x = nationalId)
                        (citizens st) = Some c →
          Citizen.deletedAt c = None → Citizen_validate env c = None →
          write_ok env "citizens" = true →
          CitizenService.deleteCitizen env nationalId actor st
          = (inr true,
             set_citizens st
               (Mongo.replaceById Citizen._id (trashed_citizen env c)
                                  (citizens st)))
          ∧ citizen_state
              (CitizenService.deleteCitizen env nationalId actor st).2
              nationalId
            = Trashed).
Proof.
  intros Hk. split.
  - intros u Hf Hd Hv Hw. destruct Hk as (_ & Hn & _).
    rewrite (deleteUser_active env st userId u) by done.
    split; [done|]. simpl.
    rewrite (user_state_replaced st u); [done|done|].
    by destruct (findOne_Some _ _ _ Hf).
  - intros c Hf Hd Hv Hw.
    rewrite (deleteCitizen_active env st nationalId actor c) by done.
    split; [done|]. simpl.
    destruct (findOne_Some _ _ _ Hf) as [Hin Hn]. simpl in Hn. subst.
    by rewrite (citizen_state_replaced st c).
Qed.

(** X6 on the seeded database, for the officer and the citizen Amina. *)
Lemma soft_delete_active_witness :
  user_state (UserService.deleteUser Sample.env 32 Sample.store).2 32
    = Trashed
  ∧ citizen_state
      (CitizenService.deleteCitizen Sample.env "1000000001" 31
         Sample.store).2 "1000000001"
    = Trashed.
Proof.
  assert (Hk : keys_unique Sample.store).
  { unfold keys_unique. split_and!; apply (bool_decide_unpack _);
      by vm_compute. }
  destruct (soft_delete_active Sample.env Sample.store 32 "1000000001" 31 Hk)
    as [Hu Hc].
  split.
  - apply (Hu Sample.officer1); by vm_compute.
  - apply (Hc Sample.amina); by vm_compute.
Defined.

(** X7.  Soft delete, then restore, gives the entity back as it was: for an
    active user or citizen whose document passes validation, when both
    writes go through, the store after the two calls is the store before
    them but for [updatedAt] of the entity, which is the time of the
    restore. *)
Theorem delete_restore_round_trip (env env' : Env) (st : Store)
    (userId : ObjectId) (nationalId : string) (actor : ObjectId) :
  keys_unique st →
  (∀ u, Mongo.findOne (λ x, User._id x = userId) (users st) = Some u →
        User.deletedAt u = None → User_validate u = None →
        write_ok env "users" = true → write_ok env' "users" = true →
        UserService.restoreUser env' userId
          (UserService.deleteUser env userId st).2
        = (inr (UserService.normalizeUser env'
                  (User.set_updatedAt u (now env')) Unpopulated),
           set_users st
             (Mongo.replaceById User._id (User.set_updatedAt u (now env'))
                                (users st))))
  ∧ (∀ c, Mongo.findOne (λ x, Citizen.nationalId x = nationalId)
                        (citizens st) = Some c →
          Citizen.deletedAt c = None →
          Citizen_validate env c = None → Citizen_validate env' c = None →
          write_ok env "citizens" = true → write_ok env' "citizens" = true →
          CitizenService.restoreCitizen env' nationalId
            (CitizenService.deleteCitizen env nationalId actor st).2
          = (inr (CitizenService.normalizeCitizen env'
                    (Citizen.set_updatedAt c (now env'))),
             set_citizens st
               (Mongo.replaceById Citizen._id
                  (Citizen.set_updatedAt c (now env')) (citizens st)))).
Proof.
  intros Hk. split.
  - intros u Hf Hd Hv Hw Hw'. destruct Hk as (_ & Hn & _).
    destruct (findOne_Some _ _ _ Hf) as [Hin Hid]. simpl in Hid.
    rewrite (deleteUser_active env st userId u) by done. simpl.
    assert (Hback : User.set_updatedAt
                      (User.set_deletedAt (trashed_user env u) None)
                      (now env')
                    = User.set_updatedAt u (now env')).
    { destruct u. simpl in Hd. by subst. }
    rewrite (restoreUser_trashed env' _ userId (trashed_user env u)
               (now env)); simpl.
    + by rewrite Hback, replaceById_twice.
    + subst userId.
      exact (findOne_replaceById User._id (trashed_user env u) u (users st)
               Hf).
    + done.
    + done.
    + done.
    + rewrite username_taken_replaceById by done.
      change (username_taken u (users st) = false).
      by apply NoDup_not_taken_username.
  - intros c Hf Hd Hv Hv' Hw Hw'.
    destruct (findOne_Some _ _ _ Hf) as [Hin Hn]. simpl in Hn.
    rewrite (deleteCitizen_active env st nationalId actor c) by done. simpl.
    destruct Hk as (Hk1 & Hk2 & Hids & Hnids & Hk3).
    assert (Hback : Citizen.set_updatedAt
                      (Citizen.set_deletedAt (trashed_citizen env c) None)
                      (now env')
                    = Citizen.set_updatedAt c (now env')).
    { destruct c. simpl in Hd. by subst. }
    rewrite (restoreCitizen_trashed env' _ nationalId (trashed_citizen env c)
               (now env)); simpl.
    + by rewrite Hback, replaceById_twice.
    + by rewrite fmap_key_replaceById.
    + subst nationalId.
      apply (findOne_by_key Citizen.nationalId _ (trashed_citizen env c)).
      * by rewrite (fmap_replaceById Citizen._id Citizen.nationalId _ c).
      * by apply (elem_of_replaceById_same Citizen._id _ c).
    + done.
    + done.
    + done.
    + rewrite nationalId_taken_replaceById by done.
      change (nationalId_taken c (citizens st) = false).
      by apply NoDup_not_taken_nationalId.
Qed.

(** X7 on the seeded database: the officer and the citizen Amina, deleted
    and restored a while later. *)
Lemma delete_restore_round_trip_witness :
  UserService.restoreUser Sample.env_log_down 32
    (UserService.deleteUser Sample.env 32 Sample.store).2
  = (inr (UserService.normalizeUser Sample.env_log_down
            (User.set_updatedAt Sample.officer1 10000) Unpopulated),
     set_users Sample.store
       (Mongo.replaceById User._id (User.set_updatedAt Sample.officer1 10000)
                          (users Sample.store)))
  ∧ CitizenService.restoreCitizen Sample.env_log_down "1000000001"
      (CitizenService.deleteCitizen Sample.env "1000000001" 31
         Sample.store).2
    = (inr (CitizenService.normalizeCitizen Sample.env_log_down
              (Citizen.set_updatedAt Sample.amina 10000)),
       set_citizens Sample.store
         (Mongo.replaceById Citizen._id
            (Citizen.set_updatedAt Sample.amina 10000)
            (citizens Sample.store))).
Proof.
  assert (Hk : keys_unique Sample.store).
  { unfold keys_unique. split_and!; apply (bool_decide_unpack _);
      by vm_compute. }
  destruct (delete_restore_round_trip Sample.env Sample.env_log_down
              Sample.store 32 "1000000001" 31 Hk) as [Hu Hc].
  split.
  - apply (Hu Sample.officer1); by vm_compute.
  - apply (Hc Sample.amina); by vm_compute.
Defined.

Lemma elem_of_deleteOne {A} (key : A → ObjectId) (x0 x : A) (l : list A) :
  NoDup (key <$> l) → x0 ∈ l →
  x ∈ Mongo.deleteOne (λ y, key y = key x0) l ↔ x ∈ l ∧ key x ≠ key x0.
Proof.
  intros Hnd Hx0. induction l as [|y l IH]; simpl.
  - split; [by intros ?%elem_of_nil|by intros [?%elem_of_nil _]].
  - rewrite fmap_cons in Hnd. apply NoDup_cons in Hnd as [Hy Hnd].
    destruct (decide (key y = key x0)) as [Hk|Hk].
    + split.
      * intros Hx. split; [by right|]. intros Hkx. apply Hy. rewrite Hk, <- Hkx.
        apply list_elem_of_fmap. by exists x.
      * intros [[->|Hx]%elem_of_cons Hne]; done.
    + apply elem_of_cons in Hx0 as [->|Hx0]; [done|].
      rewrite !elem_of_cons, (IH Hnd Hx0). split.
      * intros [->|[? ?]]; split; auto.
      * intros [[->|?] ?]; auto.
Qed.

(** X8.  The permanent delete takes no notice of the trash: an existing user
    or citizen, active or trashed, is removed when the write goes through;
    the key names no document afterwards, and every other document stays as
    it was. *)
Theorem permanent_delete_any_state (env : Env) (st : Store)
    (userId : ObjectId) (nationalId : string) :
  keys_unique st →
  (∀ u, Mongo.findOne (λ x, User._id x = userId) (users st) = Some u →
        write_ok env "users" = true →
        (UserService.deleteUserPermanent env userId st).1 = inr true
        ∧ user_state (UserService.deleteUserPermanent env userId st).2 userId
          = Purged
        ∧ ∀ x, x ∈ users (UserService.deleteUserPermanent env userId st).2
               ↔ x ∈ users st ∧ User._id x ≠ userId)
  ∧ (∀ c, Mongo.findOne (λ x, Citizen.nationalId x = nationalId)
                        (citizens st) = Some c →
          write_ok env "citizens" = true →
          (CitizenService.deleteCitizenPermanent env nationalId st).1
          = inr true
          ∧ citizen_state
              (CitizenService.deleteCitizenPermanent env nationalId st).2
              nationalId
            = Purged
          ∧ ∀ x, x ∈ citizens
                       (CitizenService.deleteCitizenPermanent env nationalId
                          st).2
                 ↔ x ∈ citizens st ∧ Citizen.nationalId x ≠ nationalId).
Proof.
  intros (Hids & _ & Hcids & Hnids & _). split.
  - intros u Hf Hw. destruct (findOne_Some _ _ _ Hf) as [Hin Hid].
    simpl in Hid. subst userId.
    unfold UserService.deleteUserPermanent. monad_step. rewrite Hf, Hw.
    simpl. split_and!; [done| |].
    + unfold user_state. simpl.
      destruct (Mongo.findOne _ (Mongo.deleteOne _ _)) as [x|] eqn:Hx;
        [|done].
      apply findOne_Some in Hx as [Hx Hk].
      by apply (elem_of_deleteOne User._id u) in Hx as [_ ?].
    + intros x. by apply (elem_of_deleteOne User._id u).
  - intros c Hf Hw. destruct (findOne_Some _ _ _ Hf) as [Hin Hn].
    simpl in Hn. subst nationalId.
    unfold CitizenService.deleteCitizenPermanent. monad_step. rewrite Hf, Hw.
    simpl.
    assert (Hrest : ∀ x,
              x ∈ Mongo.deleteOne (λ y, Citizen._id y = Citizen._id c)
                    (citizens st)
              ↔ x ∈ citizens st
                ∧ Citizen.nationalId x ≠ Citizen.nationalId c).
    { intros x. rewrite (elem_of_deleteOne Citizen._id c) by done.
      split; intros [Hx Hne]; (split; [done|]); intros Heq; apply Hne.
      - f_equal. by apply (NoDup_key_inj Citizen.nationalId (citizens st)).
      - f_equal. by apply (NoDup_key_inj Citizen._id (citizens st)). }
    split_and!; [done| |done].
    unfold citizen_state. simpl.
    destruct (Mongo.findOne _ (Mongo.deleteOne _ _)) as [x|] eqn:Hx; [|done].
    apply findOne_Some in Hx as [Hx Hk]. by apply Hrest in Hx as [_ ?].
Qed.

(** X8 on the seeded database: the administrator, who is active, and the
    citizen Bashir, who is in the trash. *)
Lemma permanent_delete_any_state_witness :
  user_state (UserService.deleteUserPermanent Sample.env 31 Sample.store).2 31
    = Purged
  ∧ citizen_state
      (CitizenService.deleteCitizenPermanent Sample.env "1000000002"
         Sample.store).2 "1000000002"
    = Purged.
Proof.
  assert (Hk : keys_unique Sample.store).
  { unfold keys_unique. split_and!; apply (bool_decide_unpack _);
      by vm_compute. }
  destruct (permanent_delete_any_state Sample.env Sample.store 31
              "1000000002" Hk) as [Hu Hc].
  split.
  - apply (Hu Sample.admin); by vm_compute.
  - apply (Hc Sample.bashir); by vm_compute.
Defined.

(** X9.  An entity that is in the trash, or that does not exist, is out of
    reach of the reads and the updates: [getUserById] and
    [getCitizenByNationalId] return [null], and [updateUser],
    [updateUserPassword], [changeUserStatus], [updateCitizen] and
    [updateCitizenFiles] throw "not found" and leave the store as it
    was. *)
Theorem not_active_out_of_reach (env : Env) (st : Store) (userId : ObjectId)
    (nationalId : string) :
  NoDup (Citizen.nationalId <$> citizens st) →
  (user_state st userId ≠ Active →
   UserService.getUserById env st userId = None
   ∧ (∀ data, UserService.updateUser env userId data st
              = (inl (Error "User not found"), st))
   ∧ (∀ newPassword, UserService.updateUserPassword env userId newPassword st
                     = (inl (Error "User not found"), st))
   ∧ (∀ status, UserService.changeUserStatus env userId status st
                = (inl (Error "User not found"), st)))
  ∧ (citizen_state st nationalId ≠ Active →
     CitizenService.getCitizenByNationalId env st nationalId = None
     ∧ (∀ data actor, CitizenService.updateCitizen env nationalId data actor st
                      = (inl (Error "Citizen not found"), st))
     ∧ (∀ fileData, CitizenService.updateCitizenFiles env nationalId fileData
                      st
                    = (inl (Error "Citizen not found"), st))).
Proof.
  intros Hnd. split.
  - intros Hs. pose proof (user_state_cases st userId) as Hc.
    unfold UserService.getUserById, UserService.updateUser,
      UserService.updateUserPassword, UserService.changeUserStatus.
    monad_step.
    destruct (user_state st userId); [done| |].
    + destruct Hc as (u & d & -> & Hd). rewrite Hd.
      rewrite bool_decide_eq_true_2 by eauto. done.
    + by rewrite Hc.
  - intros Hs. pose proof (citizen_state_cases st nationalId) as Hc.
    unfold CitizenService.getCitizenByNationalId,
      CitizenService.updateCitizen, CitizenService.updateCitizenFiles.
    monad_step.
    rewrite (findOne_key_and Citizen.nationalId nationalId
               (λ c, Citizen.deletedAt c = None) (citizens st) Hnd).
    destruct (citizen_state st nationalId); [done| |].
    + destruct Hc as (c & d & -> & Hd). rewrite Hd, decide_False; done.
    + by rewrite Hc.
Qed.

(** X9 on the seeded database, for the trashed officer and citizen. *)
Lemma not_active_out_of_reach_witness :
  UserService.getUserById Sample.env Sample.store 35 = None
  ∧ CitizenService.getCitizenByNationalId Sample.env Sample.store
      "1000000002" = None.
Proof.
  assert (Hnd : NoDup (Citizen.nationalId <$> citizens Sample.store)).
  { apply (bool_decide_unpack _). by vm_compute. }
  destruct (not_active_out_of_reach Sample.env Sample.store 35 "1000000002"
              Hnd) as [Hu Hc].
  split; [apply Hu|apply Hc]; by vm_compute.
Defined.

(** ** User updates *)

Lemma User_save_error (env : Env) (u : User.t) (st st' : Store) e :
  User_save env u st = (inl e, st') → st' = st.
Proof.
  destruct (User_save_cases env u st) as [[r ->]|(s0 & _ & _ & _ & _ & ->)];
    congruence.
Qed.

Lemma find_role_truthy (st : Store) (data : UpdateUserData) role :
  UserService.find_role st data = Some role →
  RoleKey_truthy (uu_role_id data) || RoleKey_truthy (uu_roleId data)
  || Js.truthy_opt (uu_roleName data) = true.
Proof.
  unfold UserService.find_role.
  destruct (RoleKey_truthy (uu_role_id data) || RoleKey_truthy (uu_roleId data));
    [done|].
  by destruct (Js.truthy_opt (uu_roleName data)).
Qed.

(** X10.  [updateUser] does not take the ADMIN role from a user: whatever
    the request, a stored user whose role name is ADMIN is stored with the
    role name ADMIN after the call; and a request that names a stored role
    other than ADMIN for such an active user throws "Cannot change role of
    an Admin user" and writes nothing. *)
Theorem updateUser_keeps_admin (env : Env) (st : Store) (userId : ObjectId)
    (data : UpdateUserData) (u : User.t) :
  Mongo.findOne (λ x, User._id x = userId) (users st) = Some u →
  User.role u = "ADMIN" →
  (∃ u', Mongo.findOne (λ x, User._id x = userId)
           (users (UserService.updateUser env userId data st).2) = Some u'
         ∧ User.role u' = "ADMIN")
  ∧ (∀ role, User.deletedAt u = None →
             UserService.find_role st data = Some role →
             Role.name role ≠ "ADMIN" →
             UserService.updateUser env userId data st
             = (inl (Error "Cannot change role of an Admin user"), st)).
Proof.
  intros Hf Hadmin. split.
  - destruct (User.deletedAt u) as [d|] eqn:Hd.
    + unfold UserService.updateUser. monad_step. rewrite Hf, Hd.
      rewrite bool_decide_eq_true_2 by eauto. by exists u.
    + destruct (updateUser_run env userId data st u Hf Hd)
        as [[e ->]|(u4 & Hid & _ & _ & _ & _ & Hrole & _ & ->)];
        [by exists u|].
      destruct (findOne_Some _ _ _ Hf) as [_ Hid']. simpl in Hid'.
      destruct (User_save env u4 st) as [[e|saved] st'] eqn:Hs; simpl.
      * apply User_save_error in Hs as ->. by exists u.
      * apply User_save_stored in Hs as (Hs & _ & _ & Hr).
        exists saved. split; [by rewrite <- Hid', <- Hid|].
        rewrite Hr. by apply Hrole.
  - intros role Hd Hrole Hname.
    unfold UserService.updateUser, UserService.update_role. monad_step.
    rewrite Hf, Hd. rewrite bool_decide_eq_false_2 by (by intros [? ?]).
    rewrite (find_role_truthy st data role Hrole), Hrole. monad_step.
    rewrite bool_decide_eq_true_2 by done.
    by rewrite bool_decide_eq_true_2 by done.
Qed.

(** X10 on the seeded database: the administrator, and a request for the
    role that the hard-coded id ["3"] stands for. *)
Lemma updateUser_keeps_admin_witness :
  UserService.updateUser Sample.env 31
    (mkUpdateUserData (Some (Literal "3")) None None None None None)
    Sample.store
  = (inl (Error "Cannot change role of an Admin user"), Sample.store).
Proof.
  destruct (updateUser_keeps_admin Sample.env Sample.store 31
              (mkUpdateUserData (Some (Literal "3")) None None None None None)
              Sample.admin) as [_ Hthrow]; [by vm_compute..|].
  apply (Hthrow Sample.viewerRole); by vm_compute.
Defined.

(** X11.  [updateUserPassword] stores the hash of the new password, never
    the password itself: on an active user, a new password whose [length] is
    six or more, in UTF-16 code units as [newPassword.length] counts it, and
    that differs from the stored value is written as
    [bcrypt_hash newPassword] when the document passes validation and the
    write goes through; a shorter one is refused before anything is
    written. *)
Theorem updateUserPassword_hashes (env : Env) (st : Store) (userId : ObjectId)
    (newPassword : string) (u : User.t) :
  NoDup (User.username <$> users st) →
  Mongo.findOne (λ x, User._id x = userId) (users st) = Some u →
  User.deletedAt u = None →
  ((Js.length newPassword < 6)%nat →
   UserService.updateUserPassword env userId newPassword st
   = (inl (Error "Password must be at least 6 characters"), st))
  ∧ ((6 ≤ Js.length newPassword)%nat → newPassword ≠ User.password u →
     User_validate (User.set_password u newPassword) = None →
     write_ok env "users" = true →
     UserService.updateUserPassword env userId newPassword st
     = (inr true,
        set_users st
          (Mongo.replaceById User._id
             (User.set_updatedAt
                (User.set_password u (bcrypt_hash env newPassword))
                (now env))
             (users st)))).
Proof.
  intros Hnd Hf Hd. destruct (findOne_Some _ _ _ Hf) as [Hin Hid].
  simpl in Hid. subst userId.
  unfold UserService.updateUserPassword. monad_step. rewrite Hf, Hd.
  rewrite bool_decide_eq_false_2 by (by intros [? ?]). split.
  - intros Hlen. by destruct (Nat.ltb_spec (Js.length newPassword) 6);
      [|lia].
  - intros Hlen Hne Hv Hw.
    destruct (Nat.ltb_spec (Js.length newPassword) 6); [lia|]. simpl.
    rewrite (User_save_writes env _ u); try done.
    + unfold saved_user. simpl. by rewrite decide_False by done.
    + intros Heq. apply (f_equal User.password) in Heq. simpl in Heq.
      congruence.
    + change (username_taken u (users st) = false).
      by apply NoDup_not_taken_username.
Qed.

(** X11 on the seeded database: the officer takes a new password. *)
Lemma updateUserPassword_hashes_witness :
  UserService.updateUserPassword Sample.env 32 "newsecret" Sample.store
  = (inr true,
     set_users Sample.store
       (Mongo.replaceById User._id
          (User.set_updatedAt
             (User.set_password Sample.officer1 "$2a$10$newsecret") 10000)
          (users Sample.store))).
Proof.
  assert (Hnd : NoDup (User.username <$> users Sample.store)).
  { apply (bool_decide_unpack _). by vm_compute. }
  destruct (updateUserPassword_hashes Sample.env Sample.store 32 "newsecret"
              Sample.officer1 Hnd) as [_ Hok]; [by vm_compute..|].
  apply Hok; [simpl; lia|by vm_compute..].
Defined.

(** The calls on a user that are not about the password. *)
Lemma User_save_password (env : Env) (u stored : User.t) (st : Store) :
  NoDup (User._id <$> users st) →
  Mongo.findOne (λ x, User._id x = User._id u) (users st) = Some stored →
  User.password u = User.password stored →
  User.password <$> users (User_save env u st).2 = User.password <$> users st.
Proof.
  intros Hnd Hf Hp.
  destruct (User_save_cases env u st) as [[r ->]|(s0 & Hs & _ & _ & _ & ->)];
    [done|].
  assert (s0 = stored) as -> by congruence. simpl.
  destruct (saved_user_fields env stored u) as (Hid & _ & _ & _ & _ & _ & _ & _ & Hpw).
  destruct (findOne_Some _ _ _ Hf) as [Hin Hid']. simpl in Hid'.
  apply (fmap_replaceById User._id User.password _ stored); [done|done| |].
  - congruence.
  - rewrite Hpw. by rewrite decide_True.
Qed.

(** X12.  Only [updateUserPassword] changes a stored password: [updateUser],
    [changeUserStatus], [deleteUser] and [restoreUser] leave the password of
    every user as it was, whether they return or throw. *)
Theorem password_untouched (env : Env) (st : Store) (userId : ObjectId) :
  NoDup (User._id <$> users st) →
  (∀ data,
     User.password <$> users (UserService.updateUser env userId data st).2
     = User.password <$> users st)
  ∧ (∀ status,
       User.password
         <$> users (UserService.changeUserStatus env userId status st).2
       = User.password <$> users st)
  ∧ User.password <$> users (UserService.deleteUser env userId st).2
    = User.password <$> users st
  ∧ User.password <$> users (UserService.restoreUser env userId st).2
    = User.password <$> users st.
Proof.
  intros Hnd.
  assert (Hsave : ∀ {B} u stored (f : User.t → B),
            Mongo.findOne (λ x, User._id x = User._id u) (users st)
              = Some stored →
            User.password u = User.password stored →
            User.password
              <$> users (match User_save env u st with
                         | (inl e, st') => (inl e, st')
                         | (inr saved, st') => (inr (f saved), st')
                         end).2
            = User.password <$> users st).
  { intros B u stored f Hf Hp.
    pose proof (User_save_password env u stored st Hnd Hf Hp) as Hs.
    by destruct (User_save env u st) as [[e|saved] st']. }
  destruct (Mongo.findOne (λ x, User._id x = userId) (users st)) as [u|]
    eqn:Hf.
  - destruct (findOne_Some _ _ _ Hf) as [_ Hid]. simpl in Hid. subst userId.
    split_and!.
    + intros data. destruct (User.deletedAt u) as [d|] eqn:Hd.
      * unfold UserService.updateUser. monad_step. rewrite Hf, Hd.
        by rewrite bool_decide_eq_true_2 by eauto.
      * destruct (updateUser_run env (User._id u) data st u Hf Hd)
          as [[e ->]|(u4 & Hid & _ & Hp & _ & _ & _ & _ & ->)]; [done|].
        apply (Hsave _ u4 u); [by rewrite Hid|done].
    + intros status. unfold UserService.changeUserStatus. monad_step.
      rewrite Hf. destruct (bool_decide _); [done|].
      by apply (Hsave _ (User.set_status u _) u).
    + unfold UserService.deleteUser. monad_step.
      rewrite Hf. destruct (bool_decide _); [done|].
      by apply (Hsave _ (User.set_deletedAt u _) u (λ _, true)).
    + unfold UserService.restoreUser. monad_step. rewrite Hf.
      by apply (Hsave _ (User.set_deletedAt u _) u).
  - unfold UserService.updateUser, UserService.changeUserStatus,
      UserService.deleteUser, UserService.restoreUser.
    monad_step. by rewrite Hf.
Qed.

(** X12 on the seeded database: the officer is disabled. *)
Lemma password_untouched_witness :
  User.password
    <$> users (UserService.changeUserStatus Sample.env 32 "disabled"
                 Sample.store).2
  = User.password <$> users Sample.store.
Proof.
  assert (Hnd : NoDup (User._id <$> users Sample.store)).
  { apply (bool_decide_unpack _). by vm_compute. }
  destruct (password_untouched Sample.env Sample.store 32 Hnd)
    as (_ & Hs & _).
  apply Hs.
Defined.

Lemma authorize_inactive (env : Env) (st : Store) (req : Request)
    (codes : list string) uid u :
  principal_of env req = Some uid →
  Mongo.findOne (λ x, User._id x = uid) (users st) = Some u →
  User.status u ≠ "ACTIVE" ∨ User.deletedAt u ≠ None →
  allowed (authorize env st codes req) = false.
Proof.
  intros Hp Hf Hi. unfold authorize, run_middlewares.
  by rewrite (authenticate_inactive env st req uid u Hp Hf Hi).
Qed.

(** X13.  Disabling or soft-deleting a user closes every guarded route to
    that user at once: after [changeUserStatus] returned for a status other
    than ACTIVE, or [deleteUser] returned, a request whose token names the
    user is denied, whatever codes the route requires. *)
Theorem disabled_or_trashed_is_denied (env env' : Env) (st : Store)
    (userId : ObjectId) (req : Request) (codes : list string) :
  principal_of env' req = Some userId →
  (∀ status n st',
     UserService.changeUserStatus env userId status st = (inr n, st') →
     Js.toUpperCase status ≠ "ACTIVE" →
     allowed (authorize env' st' codes req) = false)
  ∧ (∀ b st',
       UserService.deleteUser env userId st = (inr b, st') →
       allowed (authorize env' st' codes req) = false).
Proof.
  intros Hp. split.
  - intros status n st'. unfold UserService.changeUserStatus. monad_step.
    destruct (Mongo.findOne _ (users st)) as [u|] eqn:Hf; [|done].
    destruct (findOne_Some _ _ _ Hf) as [_ Hid]. simpl in Hid.
    destruct (bool_decide _); [done|].
    destruct (User_save env _ st) as [[e|saved] st1] eqn:Hs; [done|].
    intros [= _ <-] Hne.
    apply User_save_stored in Hs as (Hs & Hst & _). simpl in Hs, Hst.
    rewrite Hid in Hs.
    apply (authorize_inactive env' st1 req codes userId saved Hp Hs).
    left. by rewrite Hst.
  - intros b st'. unfold UserService.deleteUser. monad_step.
    destruct (Mongo.findOne _ (users st)) as [u|] eqn:Hf; [|done].
    destruct (findOne_Some _ _ _ Hf) as [_ Hid]. simpl in Hid.
    destruct (bool_decide _); [done|].
    destruct (User_save env _ st) as [[e|saved] st1] eqn:Hs; [done|].
    intros [= _ <-].
    apply User_save_stored in Hs as (Hs & _ & Hd & _). simpl in Hs, Hd.
    rewrite Hid in Hs.
    apply (authorize_inactive env' st1 req codes userId saved Hp Hs).
    right. by rewrite Hd.
Qed.

(** X13 on the seeded database: the administrator is disabled, and a
    request with the administrator's token follows. *)
Lemma disabled_or_trashed_is_denied_witness :
  allowed (authorize Sample.env
             (UserService.changeUserStatus Sample.env 31 "disabled"
                Sample.store).2
             ["MANAGE_USERS"]
             (mkRequest (Some "Bearer id:31") None None None)) = false.
Proof.
  destruct (disabled_or_trashed_is_denied Sample.env Sample.env Sample.store
              31 (mkRequest (Some "Bearer id:31") None None None)
              ["MANAGE_USERS"]) as [Hs _]; [by vm_compute|].
  eapply (Hs "disabled"); [|by vm_compute].
  by vm_compute.
Defined.

(** ** The national id generator *)

Section Generator.
Import NationalIdGenerator.

Lemma pretty_N_char_value (d : N) :
  (d < 10)%N → N.of_nat (Ascii.nat_of_ascii (pretty_N_char d) - 48) = d.
Proof.
  intros Hd.
  assert (d = 0 ∨ d = 1 ∨ d = 2 ∨ d = 3 ∨ d = 4 ∨ d = 5 ∨ d = 6 ∨ d = 7
          ∨ d = 8 ∨ d = 9)%N as Hcases by lia.
  repeat (destruct Hcases as [->|Hcases]; [done|]). by subst d.
Qed.

Lemma parseInt_from_pretty_N_go (x : N) (s : string) :
  parseInt_from 0 (pretty_N_go x s) = parseInt_from x s.
Proof.
  revert s. induction (N.lt_wf_0 x) as [x _ IH]. intros s.
  assert (x = 0 ∨ 0 < x)%N as [->|Hx] by lia; [by rewrite pretty_N_go_0|].
  rewrite pretty_N_go_step by done.
  rewrite IH by (by apply N.div_lt). simpl.
  rewrite pretty_N_char_value by (by apply N.mod_lt).
  f_equal. rewrite (N.div_mod x 10) at 3 by done. lia.
Qed.

Lemma parseInt_from_zeros (k : nat) (s : string) :
  parseInt_from 0 (zeros k +:+ s) = parseInt_from 0 s.
Proof. induction k as [|k IH]; [done|]. simpl. apply IH. Qed.

(** [parseInt] reads back the number that [toString] and [padStart] wrote. *)
Lemma parseInt_padStart (n : nat) (x : N) :
  parseInt (padStart n (pretty x)) = x.
Proof.
  unfold parseInt, padStart. rewrite parseInt_from_zeros.
  unfold pretty, pretty_N. destruct (decide (x = 0%N)) as [->|]; [done|].
  by rewrite parseInt_from_pretty_N_go.
Qed.

Lemma padStart_pretty_inj (n : nat) (x y : N) :
  padStart n (pretty x) = padStart n (pretty y) → x = y.
Proof.
  intros Heq. rewrite <- (parseInt_padStart n x), <- (parseInt_padStart n y).
  by rewrite Heq.
Qed.

(** The candidates that the search has seen when it runs out of rounds. *)
Lemma next_unused_cases (fuel : nat) (coll : list Citizen.t) (nextId : N) :
  next_unused fuel coll nextId ∉ Citizen.nationalId <$> coll
  ∨ ∀ k, k < fuel →
         padStart ID_LENGTH (pretty (nextId + N.of_nat k)%N)
         ∈ Citizen.nationalId <$> coll.
Proof.
  revert nextId. induction fuel as [|fuel IH]; intros nextId.
  - right. intros k Hk. lia.
  - simpl.
    destruct (Mongo.findOne _ coll) as [c|] eqn:Hf.
    + destruct (IH (nextId + 1)%N) as [Hfree|Hused]; [by left|right].
      intros [|k] Hk.
      * rewrite N.add_0_r. apply findOne_Some in Hf as [Hc Hn].
        apply list_elem_of_fmap. by exists c.
      * replace (nextId + N.of_nat (S k))%N
          with (nextId + 1 + N.of_nat k)%N by lia.
        apply Hused. lia.
    + left. rewrite findOne_None in Hf.
      intros (c & Hn & Hc)%list_elem_of_fmap. by apply (Hf c).
Qed.

Lemma next_unused_fresh (coll : list Citizen.t) (nextId : N) :
  next_unused (S (length coll)) coll nextId ∉ Citizen.nationalId <$> coll.
Proof.
  destruct (next_unused_cases (S (length coll)) coll nextId)
    as [Hfree|Hused]; [done|].
  exfalso.
  set (candidates :=
         (λ k, padStart ID_LENGTH (pretty (nextId + N.of_nat k)%N))
           <$> seq 0 (S (length coll))).
  assert (Hnd : NoDup candidates).
  { apply NoDup_fmap_2; [|apply NoDup_seq].
    intros j k Hjk. apply padStart_pretty_inj in Hjk. lia. }
  assert (Hsub : candidates ⊆ Citizen.nationalId <$> coll).
  { intros s (k & -> & Hk)%list_elem_of_fmap. apply Hused.
    apply elem_of_seq in Hk. lia. }
  pose proof (submseteq_length _ _ (NoDup_submseteq _ _ Hnd Hsub)) as Hlen.
  unfold candidates in Hlen. rewrite !length_fmap, length_seq in Hlen. lia.
Qed.

Lemma random_attempts_fresh random (coll : list Citizen.t) attempt n id :
  random_attempts random coll attempt n = Some id →
  id ∉ Citizen.nationalId <$> coll.
Proof.
  revert attempt. induction n as [|n IH]; intros attempt; [done|]. simpl.
  destruct (Mongo.findOne _ coll) eqn:Hf; [apply IH|].
  intros [= <-]. rewrite findOne_None in Hf.
  intros (c & Hn & Hc)%list_elem_of_fmap. by apply (Hf c).
Qed.

Lemma generateNationalId_fresh (random : nat → nat) (coll : list Citizen.t) :
  generateNationalId random coll ∉ Citizen.nationalId <$> coll.
Proof.
  unfold generateNationalId.
  destruct (random_attempts random coll 0 100) as [id|] eqn:Hr.
  - by apply random_attempts_fresh in Hr.
  - apply next_unused_fresh.
Qed.










Lemma next_unused_more_fuel (fuel fuel' : nat) (coll : list Citizen.t)
    (nextId : N) :
  next_unused fuel coll nextId ∉ Citizen.nationalId <$> coll →
  fuel ≤ fuel' →
  next_unused fuel' coll nextId = next_unused fuel coll nextId.
Proof.
  revert fuel' nextId. induction fuel as [|fuel IH]; intros fuel' nextId.
  - simpl. intros Hfree _. destruct fuel' as [|fuel']; [done|]. simpl.
    destruct (Mongo.findOne _ coll) as [c|] eqn:Hf; [|done].
    destruct Hfree. apply findOne_Some in Hf as [Hc Hn].
    apply list_elem_of_fmap. by exists c.
  - intros Hfree Hle. destruct fuel' as [|fuel']; [lia|].
    simpl in *. destruct (Mongo.findOne _ coll); [|done].
    apply IH; [done|lia].
Qed.

(** The id that the search returns is the first candidate that is free. *)
Lemma next_unused_first (fuel : nat) (coll : list Citizen.t) (nextId : N) :
  ∃ k, k ≤ fuel
       ∧ next_unused fuel coll nextId
         = padStart ID_LENGTH (pretty (nextId + N.of_nat k)%N)
       ∧ ∀ j, j < k →
              padStart ID_LENGTH (pretty (nextId + N.of_nat j)%N)
              ∈ Citizen.nationalId <$> coll.
Proof.
  revert nextId. induction fuel as [|fuel IH]; intros nextId.
  - exists 0. simpl. rewrite N.add_0_r. split_and!; [done..|]. lia.
  - simpl. destruct (Mongo.findOne _ coll) as [c|] eqn:Hf.
    + destruct (IH (nextId + 1)%N) as (k & Hk & -> & Hused).
      exists (S k). split_and!; [lia|f_equal; f_equal; lia|].
      intros [|j] Hj.
      * rewrite N.add_0_r. apply findOne_Some in Hf as [Hc Hn].
        apply list_elem_of_fmap. by exists c.
      * replace (nextId + N.of_nat (S j))%N
          with (nextId + 1 + N.of_nat j)%N by lia.
        apply Hused. lia.
    + exists 0. rewrite N.add_0_r. split_and!; [lia|done|]. lia.
Qed.

Lemma used_candidates_bound (coll : list Citizen.t) (nextId : N) (k : nat) :
  (∀ j, j < k →
        padStart ID_LENGTH (pretty (nextId + N.of_nat j)%N)
        ∈ Citizen.nationalId <$> coll) →
  k ≤ length coll.
Proof.
  intros Hused.
  set (candidates :=
         (λ j, padStart ID_LENGTH (pretty (nextId + N.of_nat j)%N))
           <$> seq 0 k).
  assert (Hnd : NoDup candidates).
  { apply NoDup_fmap_2; [|apply NoDup_seq].
    intros i j Hij. apply padStart_pretty_inj in Hij. lia. }
  assert (Hsub : candidates ⊆ Citizen.nationalId <$> coll).
  { intros s (j & -> & Hj)%list_elem_of_fmap. apply Hused.
    apply elem_of_seq in Hj. lia. }
  pose proof (submseteq_length _ _ (NoDup_submseteq _ _ Hnd Hsub)) as Hlen.
  unfold candidates in Hlen. by rewrite !length_fmap, length_seq in Hlen.
Qed.

(** X15.  The sequential search of [generateSequentialId] ends, when the
    counter starts low enough for the candidates to be exact JavaScript
    numbers: one round more than there are citizens is enough, any larger
    number of rounds gives the same id, that id is free, and it is the
    first free candidate, that of a counter that has moved up by at most the
    number of citizens, hence one below 2^53. *)
Theorem next_unused_enough_fuel (fuel : nat) (coll : list Citizen.t)
    (nextId : N) :
  length coll < fuel →
  (nextId + N.of_nat (length coll) < 2 ^ 53)%N →
  next_unused fuel coll nextId = next_unused (S (length coll)) coll nextId
  ∧ (next_unused fuel coll nextId ∉ Citizen.nationalId <$> coll)
  ∧ ∃ k, k ≤ length coll
         ∧ (nextId + N.of_nat k < 2 ^ 53)%N
         ∧ next_unused fuel coll nextId
           = padStart ID_LENGTH (pretty (nextId + N.of_nat k)%N)
         ∧ ∀ j, j < k →
                padStart ID_LENGTH (pretty (nextId + N.of_nat j)%N)
                ∈ Citizen.nationalId <$> coll.
Proof.
  intros Hfuel Hexact.
  rewrite (next_unused_more_fuel (S (length coll)) fuel);
    [|apply next_unused_fresh|lia].
  split_and!; [done|apply next_unused_fresh|].
  destruct (next_unused_first (S (length coll)) coll nextId)
    as (k & _ & Hk & Hused).
  pose proof (used_candidates_bound coll nextId k Hused) as Hle.
  exists k. split_and!; [done|lia|done|done].
Qed.

(** X15 on the seeded citizens, whose ids follow one another. *)
Lemma next_unused_enough_fuel_witness :
  next_unused 7 (citizens Sample.store) 1000000001 = "1000000003"
  ∧ "1000000003" ∉ Citizen.nationalId <$> citizens Sample.store.
Proof.
  destruct (next_unused_enough_fuel 7 (citizens Sample.store) 1000000001)
    as (Heq & Hfree & _); [simpl; lia|by vm_compute|].
  split; [by rewrite Heq|].
  rewrite Heq in Hfree. exact Hfree.
Defined.

End Generator.

(** ** Registration, and the calls that leave the status alone *)

(** What a registration does to the store. *)
Lemma createCitizen_outcome (env : Env) (random : nat → nat)
    (data : CreateCitizenData) (actor : ObjectId) (st : Store) :
  (∀ n st',
     CitizenService.createCitizen env random data actor st = (inr n, st') →
     ∃ c, st' = set_citizens st (citizens st ++ [c])
          ∧ n = CitizenService.normalizeCitizen env c
          ∧ Citizen.nationalId c
            = NationalIdGenerator.generateNationalId random (citizens st)
          ∧ (Citizen.nationalId c ∉ Citizen.nationalId <$> citizens st)
          ∧ (Citizen._id c ∉ Citizen._id <$> citizens st)
          ∧ Citizen.status c = "ACTIVE" ∧ Citizen.deletedAt c = None
          ∧ Citizen.imagePath c = None ∧ Citizen.documentPath c = None
          ∧ Citizen.createdAt c = now env)
  ∧ (∀ e st',
       CitizenService.createCitizen env random data actor st = (inl e, st') →
       st' = st ∧ e ≠ Error "National ID collision. Please try again.").
Proof.
  pose proof (generateNationalId_fresh random (citizens st)) as Hfree.
  unfold CitizenService.createCitizen. monad_step.
  destruct (negb (CitizenService.missing (cc_firstName data)));
    [|by split; [|intros ?? [= <- <-]]].
  destruct (negb (CitizenService.missing (cc_lastName data)));
    [|by split; [|intros ?? [= <- <-]]].
  destruct (negb (CitizenService.missing (cc_gender data)));
    [|by split; [|intros ?? [= <- <-]]].
  destruct (cc_dateOfBirth data) as [d|];
    [|by split; [|intros ?? [= <- <-]]].
  monad_step.
  destruct (negb (CitizenService.missing (cc_placeOfBirth data)));
    [|by split; [|intros ?? [= <- <-]]].
  destruct (Js.includes _ _); [|by split; [|intros ?? [= <- <-]]].
  destruct (negb (now env <? d)%Z); [|by split; [|intros ?? [= <- <-]]].
  destruct (negb (d <? hundredYearsAgo env)%Z);
    [|by split; [|intros ?? [= <- <-]]].
  destruct (Mongo.findOne _ (citizens st)) as [c|] eqn:Hf.
  { destruct Hfree. apply findOne_Some in Hf as [Hc Hn].
    apply list_elem_of_fmap. by exists c. }
  match goal with
  | |- context [Citizen_insert env ?c st] =>
      destruct (Citizen_insert_outcome env c st) as [[e He]|(_ & _ & Hi)];
      [pose proof He as He'; unfold Citizen_insert in He'; rewrite He
      |rewrite Hi]
  end.
  - split; [done|]. intros e' st' [= <- <-]. split; [done|].
    revert He'. monad_step.
    destruct (Citizen_validate env _); [by intros [= <-]|]. monad_step.
    destruct (write_ok env "citizens"); monad_step; [|by intros [= <-]].
    destruct (negb (nationalId_taken _ _)); monad_step; [done|].
    by intros [= <-].
  - split; [|done]. intros n st' [= <- <-].
    eexists. split_and!; try reflexivity; [done|]. apply freshId_fresh.
Qed.

(** X16.  A registration that returns has added one citizen and nothing
    else: the new citizen is ACTIVE and not in the trash, has no files yet,
    and carries the generated national id, which no citizen had; a
    registration that throws has written nothing; and the error "National ID
    collision" is never the one thrown. *)
Theorem createCitizen_registers (env : Env) (random : nat → nat)
    (data : CreateCitizenData) (actor : ObjectId) (st : Store) :
  (∀ n st',
     CitizenService.createCitizen env random data actor st = (inr n, st') →
     ∃ c, st' = set_citizens st (citizens st ++ [c])
          ∧ n = CitizenService.normalizeCitizen env c
          ∧ Citizen.nationalId c
            = NationalIdGenerator.generateNationalId random (citizens st)
          ∧ (Citizen.nationalId c ∉ Citizen.nationalId <$> citizens st)
          ∧ (Citizen._id c ∉ Citizen._id <$> citizens st)
          ∧ Citizen.status c = "ACTIVE" ∧ Citizen.deletedAt c = None
          ∧ Citizen.imagePath c = None ∧ Citizen.documentPath c = None
          ∧ Citizen.createdAt c = now env)
  ∧ (∀ e st',
       CitizenService.createCitizen env random data actor st = (inl e, st') →
       st' = st ∧ e ≠ Error "National ID collision. Please try again.").
Proof. apply createCitizen_outcome. Qed.

(** X16 on the seeded database, with the draws 0, 1, 2, ... *)
Lemma createCitizen_registers_witness :
  ∃ c, (CitizenService.createCitizen Sample.env (λ i, i) sample_registration
          32 Sample.store).2
       = set_citizens Sample.store (citizens Sample.store ++ [c])
       ∧ Citizen.nationalId c = "0123456789"
       ∧ Citizen.status c = "ACTIVE".
Proof.
  destruct (createCitizen_registers Sample.env (λ i, i) sample_registration
              32 Sample.store) as [Hok _].
  destruct (CitizenService.createCitizen Sample.env (λ i, i)
              sample_registration 32 Sample.store) as [[e|n] st'] eqn:Hc;
    [by vm_compute in Hc|].
  destruct (Hok n st' eq_refl) as (c & -> & _ & Hn & _ & _ & Hs & _).
  exists c. split_and!; [done| |done].
  rewrite Hn. by vm_compute.
Defined.

Lemma user_effect_frame (st st' : Store) :
  rtc user_effect st st' →
  citizens st' = citizens st ∧ statusChangeLogs st' = statusChangeLogs st.
Proof.
  induction 1 as [st|st st1 st2 He _ [Hc Hl]]; [done|].
  destruct He; simpl in *; by split.
Qed.

Lemma citizen_effect_frame (st st' : Store) :
  rtc citizen_effect st st' →
  users st' = users st ∧ statusChangeLogs st' = statusChangeLogs st.
Proof.
  induction 1 as [st|st st1 st2 He _ [Hc Hl]]; [done|].
  destruct He; simpl in *; by split.
Qed.

Lemma status_kept_refl (l : list Citizen.t) : status_kept l l.
Proof. intros x Hx. left. by exists x. Qed.

Lemma Citizen_save_status_kept {B} (env : Env) (c c0 : Citizen.t)
    (f : Citizen.t → B) (st : Store) :
  c0 ∈ citizens st → Citizen._id c = Citizen._id c0 →
  Citizen.status c = Citizen.status c0 →
  status_kept (citizens st)
    (citizens (match Citizen_save env c st with
               | (inl e, st') => (inl e, st')
               | (inr saved, st') => (inr (f saved), st')
               end).2).
Proof.
  intros Hin Hid Hs.
  destruct (Citizen_save_written env c st)
    as [[r ->]|(stored & _ & _ & _ & _ & ->)].
  - destruct r; apply status_kept_refl.
  - simpl. intros x' [->|[Hx _]]%elem_of_replaceById; left.
    + by exists c0.
    + by exists x'.
Qed.

(** X17.  Only [updateCitizen] changes the status of a citizen or writes to
    the audit trail: every other call of the user and citizen services,
    whether it returns or throws, leaves the trail as it was and every
    citizen with the status that it had; a citizen that the call registers
    is ACTIVE. *)
Theorem status_changes_only_in_updateCitizen (env : Env) (c : Command)
    (st : Store) :
  (∀ nationalId data actor, c ≠ UpdateCitizen nationalId data actor) →
  statusChangeLogs (exec env c st) = statusChangeLogs st
  ∧ status_kept (citizens st) (citizens (exec env c st)).
Proof.
  intros Hc.
  assert (Huser : ∀ st', rtc user_effect st st' →
            statusChangeLogs st' = statusChangeLogs st
            ∧ status_kept (citizens st) (citizens st')).
  { intros st' (-> & ->)%user_effect_frame. split; [done|].
    apply status_kept_refl. }
  destruct c as [data|userId data|userId newPassword|userId status|userId
                 |userId|userId|random data actor|nationalId data actor
                 |nationalId fileData|nationalId actor|nationalId|nationalId];
    simpl.
  - apply Huser, createUser_effect.
  - apply Huser, updateUser_effect.
  - apply Huser, updateUserPassword_effect.
  - apply Huser, changeUserStatus_effect.
  - apply Huser, deleteUser_effect.
  - apply Huser, restoreUser_effect.
  - apply Huser, deleteUserPermanent_effect.
  - split.
    + by destruct (citizen_effect_frame _ _
                     (createCitizen_effect env random data actor st)).
    + destruct (createCitizen_outcome env random data actor st)
        as [Hok Herr].
      destruct (CitizenService.createCitizen env random data actor st)
        as [[e|n] st'].
      * destruct (Herr e st' eq_refl) as [-> _]. apply status_kept_refl.
      * destruct (Hok n st' eq_refl)
          as (x & -> & _ & _ & _ & Hid & Hs & _).
        simpl. intros x' [Hx|Hx]%elem_of_app.
        -- left. by exists x'.
        -- apply list_elem_of_singleton in Hx as ->. by right.
  - by destruct (Hc nationalId data actor).
  - split.
    + by destruct (citizen_effect_frame _ _
                     (updateCitizenFiles_effect env nationalId fileData st)).
    + unfold CitizenService.updateCitizenFiles. monad_step.
      destruct (Mongo.findOne _ (citizens st)) as [x|] eqn:Hx;
        [|apply status_kept_refl].
      destruct (findOne_Some _ _ _ Hx) as [Hin _].
      apply (Citizen_save_status_kept env _ x); [done|..];
        by destruct (Js.truthy_opt (fd_imagePath fileData)),
                   (Js.truthy_opt (fd_documentPath fileData)).
  - split.
    + by destruct (citizen_effect_frame _ _
                     (deleteCitizen_effect env nationalId actor st)).
    + unfold CitizenService.deleteCitizen. monad_step.
      destruct (Mongo.findOne _ (citizens st)) as [x|] eqn:Hx;
        [|apply status_kept_refl].
      destruct (findOne_Some _ _ _ Hx) as [Hin _].
      by apply (Citizen_save_status_kept env _ x (λ _, true)).
  - split.
    + by destruct (citizen_effect_frame _ _
                     (restoreCitizen_effect env nationalId st)).
    + unfold CitizenService.restoreCitizen. monad_step.
      destruct (Mongo.findOne _ (citizens st)) as [x|] eqn:Hx;
        [|apply status_kept_refl].
      destruct (findOne_Some _ _ _ Hx) as [Hin _].
      by apply (Citizen_save_status_kept env _ x).
  - split.
    + by destruct (citizen_effect_frame _ _
                     (deleteCitizenPermanent_effect env nationalId st)).
    + unfold CitizenService.deleteCitizenPermanent. monad_step.
      destruct (Mongo.findOne _ (citizens st)) as [x|];
        [|apply status_kept_refl].
      destruct (write_ok env "citizens"); monad_step;
        [|apply status_kept_refl].
      simpl. intros x' Hx'. left. exists x'. split; [|done].
      by apply elem_of_deleteOne_sub in Hx'.
Qed.

(** X17 on the seeded database: the citizen Amina is moved to the trash. *)
Lemma status_changes_only_in_updateCitizen_witness :
  statusChangeLogs (exec Sample.env (DeleteCitizen "1000000001" 31)
                      Sample.store)
  = statusChangeLogs Sample.store
  ∧ status_kept (citizens Sample.store)
      (citizens (exec Sample.env (DeleteCitizen "1000000001" 31)
                   Sample.store)).
Proof.
  apply status_changes_only_in_updateCitizen. intros ???. discriminate.
Defined.

(** ** The role name kept on the user *)

Lemma effect_role_agrees (st st' : Store) :
  effect st st' →
  Forall (role_agrees (roles st)) (users st) →
  Forall (role_agrees (roles st')) (users st').
Proof.
  intros [He|[He|He]] Hall; destruct He; simpl; try done.
  - apply Forall_app. split; [done|]. by apply Forall_singleton.
  - apply Forall_replaceById; [done|].
    match goal with H : role_agrees _ _ → _ |- _ => apply H end.
    by eapply Forall_forall in Hall.
  - by apply Forall_deleteOne.
Qed.

(** X18.  The role name that a user document keeps beside its role
    reference agrees with the roles collection through every history of
    service calls: when the ids of the roles are distinct and every user
    starts with the name of the role that its reference names, then after
    any calls the reference of every user resolves, to a role of the name
    kept on the user.  [createUser] and [updateUser] write the two together,
    from one stored role. *)
Theorem role_name_invariant (history : list (Env * Command)) (st : Store) :
  NoDup (Role._id <$> roles st) →
  Forall (role_agrees (roles st)) (users st) →
  ∀ u, u ∈ users (run history st) →
       ∃ r, RBACService.populate_role (run history st) u = Some r
            ∧ Role.name r = User.role u.
Proof.
  intros Hnd Hall.
  assert (Hinv : Forall (role_agrees (roles (run history st)))
                        (users (run history st))).
  { induction (run_effect history st) as [st|st st1 st2 He _ IH]; [done|].
    destruct (effect_frame _ _ He) as (Hr & _).
    apply IH; [by rewrite Hr|by apply (effect_role_agrees st)]. }
  destruct (rtc_effect_frame _ _ (run_effect history st)) as (Hroles & _).
  intros u Hu. rewrite Forall_forall in Hinv.
  destruct (Hinv u Hu) as (r & Hr & Hid & Hname).
  exists r. split; [|done]. unfold RBACService.populate_role.
  rewrite <- Hid. apply (findOne_by_key Role._id); [|done].
  by rewrite Hroles.
Qed.

(** X18 on the seeded database, after a day of calls: the viewer, disabled
    in the course of the day. *)
Lemma role_name_invariant_witness :
  ∃ r, RBACService.populate_role (run sample_history Sample.store)
         (User.mk 33 "viewer1" "$2a$10$viewer1" 13 "VIEWER" "DISABLED" None
                  None None 300 10000)
       = Some r
       ∧ Role.name r = "VIEWER".
Proof.
  apply (role_name_invariant sample_history Sample.store).
  - apply (bool_decide_unpack _). by vm_compute.
  - unfold Sample.store, Sample.admin, Sample.officer1, Sample.viewer1,
      Sample.disabledAdmin, Sample.trashedOfficer. simpl.
    repeat apply Forall_cons_2; [..|apply Forall_nil_2].
    + exists Sample.adminRole. split_and!; [|done..]. repeat constructor.
    + exists Sample.officerRole. split_and!; [|done..]. repeat constructor.
    + exists Sample.viewerRole. split_and!; [|done..]. repeat constructor.
    + exists Sample.adminRole. split_and!; [|done..]. repeat constructor.
    + exists Sample.officerRole. split_and!; [|done..]. repeat constructor.
  - apply (bool_decide_unpack _). by vm_compute.
Defined.

(** ** Roles, permissions and menus *)

(** X19.  A user whose role reference does not resolve, like a user id that
    names nobody, has no permissions and no menus, and no guarded route lets
    a request of that principal through. *)
Theorem no_role_no_access (env : Env) (st : Store) (userId : ObjectId)
    (req : Request) (codes : list string) :
  RBACService.getUserRole st userId = None →
  RBACService.getUserPermissions st userId = []
  ∧ RBACService.getUserMenus st userId = []
  ∧ (principal_of env req = Some userId →
     allowed (authorize env st codes req) = false).
Proof.
  intros Hrole.
  assert (Hperm : RBACService.getUserPermissions st userId = []).
  { revert Hrole.
    unfold RBACService.getUserRole, RBACService.getUserPermissions.
    destruct (Mongo.findOne _ (users st)) as [u|]; [|done].
    by destruct (RBACService.populate_role st u). }
  split_and!; [done| |].
  - unfold RBACService.getUserMenus. by rewrite Hperm.
  - intros Hp. unfold authorize, run_middlewares.
    destruct (authenticate env st req) as [res|req'] eqn:Ha; [done|].
    apply authenticate_Next in Ha as (u & Hu & ->).
    destruct (active_principal_stored env st req u Hu) as (Hp' & Hf & _).
    assert (userId = User._id u) as -> by congruence.
    revert Hrole. unfold RBACService.getUserRole, requirePermission.
    rewrite Hf. simpl.
    by destruct (RBACService.populate_role st u).
Qed.

(** X19 on the seeded database without the ADMIN role document, for the
    administrator. *)
Lemma no_role_no_access_witness :
  RBACService.getUserPermissions
    (mkStore (users Sample.store) [Sample.officerRole; Sample.viewerRole]
       Sample.permissions Sample.menus (citizens Sample.store) []) 31 = []
  ∧ RBACService.getUserMenus
      (mkStore (users Sample.store) [Sample.officerRole; Sample.viewerRole]
         Sample.permissions Sample.menus (citizens Sample.store) []) 31 = []
  ∧ allowed (authorize Sample.env
               (mkStore (users Sample.store)
                  [Sample.officerRole; Sample.viewerRole]
                  Sample.permissions Sample.menus (citizens Sample.store) [])
               ["MANAGE_USERS"]
               (mkRequest (Some "Bearer id:31") None None None)) = false.
Proof.
  destruct (no_role_no_access Sample.env
              (mkStore (users Sample.store)
                 [Sample.officerRole; Sample.viewerRole]
                 Sample.permissions Sample.menus (citizens Sample.store) [])
              31 (mkRequest (Some "Bearer id:31") None None None)
              ["MANAGE_USERS"]) as (Hp & Hm & Ha); [by vm_compute|].
  split_and!; [done..|]. apply Ha. by vm_compute.
Defined.

Lemma parent_of_mono (menus menus' : list Menu.t) (y z : ObjectId) :
  NoDup (Menu._id <$> menus') → menus ⊆ menus' →
  parent_of menus y = Some z → parent_of menus' y = Some z.
Proof.
  intros Hnd Hsub. unfold parent_of.
  destruct (Mongo.findOne _ menus) as [m|] eqn:Hm; [|done]. simpl.
  intros Hp. apply findOne_Some in Hm as [Hin Hid]. simpl in Hid. subst y.
  by rewrite (findOne_by_key Menu._id menus' m Hnd (Hsub m Hin)).
Qed.

Lemma ancestor_mono (menus menus' : list Menu.t) (e : nat) (x r : ObjectId) :
  NoDup (Menu._id <$> menus') → menus ⊆ menus' →
  ancestor menus e x = Some r → ancestor menus' e x = Some r.
Proof.
  intros Hnd Hsub. revert r. induction e as [|e IH]; intros r; [done|].
  simpl. destruct (ancestor menus e x) as [y|]; [|done]. simpl.
  intros Hp. rewrite (IH y eq_refl). simpl. by apply (parent_of_mono menus).
Qed.

(** X20.  More permissions never hide a menu: when the permissions of one
    user are among those of another, every menu in the tree of the first is
    in the tree of the second.  A menu is in the tree when its chain of
    parents is fetched up to a root, and a chain that is fetched for the
    first user is fetched for the second. *)
Theorem more_permissions_more_menus (st : Store) (userId userId' : ObjectId) :
  NoDup (Menu._id <$> menus st) →
  RBACService.getUserPermissions st userId
    ⊆ RBACService.getUserPermissions st userId' →
  forest_ids (RBACService.getUserMenus st userId)
    ⊆ forest_ids (RBACService.getUserMenus st userId').
Proof.
  intros Hnd Hsub. unfold RBACService.getUserMenus.
  destruct (decide (length (RBACService.getUserPermissions st userId) = 0%nat))
    as [|Hne]; [by intros x ?%elem_of_nil|].
  rewrite decide_False.
  2:{ intros Hlen. apply nil_length_inv in Hlen. rewrite Hlen in Hsub.
      destruct (RBACService.getUserPermissions st userId) as [|c l]; [done|].
      assert (c ∈ @nil string) as ?%elem_of_nil by (apply Hsub; by left).
      done. }
  intros x.
  rewrite !elem_of_buildMenuTree by (by apply fetchMenus_NoDup).
  assert (Hfetch : RBACService.fetchMenus st
                     (RBACService.getUserPermissions st userId)
                   ⊆ RBACService.fetchMenus st
                       (RBACService.getUserPermissions st userId')).
  { intros m. rewrite !elem_of_fetchMenus.
    intros [Hm [Hnone|(c & Hc & Hin)]]; (split; [done|]); [by left|].
    right. exists c. split; [done|]. by apply Hsub. }
  intros (e & r & Ha & m & Hm & Hid & Hp).
  exists e, r. split.
  - apply (ancestor_mono
             (RBACService.fetchMenus st
                (RBACService.getUserPermissions st userId))); [|done..].
    by apply fetchMenus_NoDup.
  - exists m. split_and!; [|done..]. by apply Hfetch.
Qed.

(** X20 on the seeded database: the viewer and the officer. *)
Lemma more_permissions_more_menus_witness :
  forest_ids (RBACService.getUserMenus Sample.store 33)
    ⊆ forest_ids (RBACService.getUserMenus Sample.store 32).
Proof.
  apply more_permissions_more_menus.
  - apply (bool_decide_unpack _). by vm_compute.
  - apply (bool_decide_unpack _). by vm_compute.
Defined.

(** ** The numbers of the listings, the dashboard and the report *)

Lemma pages_of_ceil (total limit : Z) :
  (0 ≤ total)%Z → (1 ≤ limit)%Z →
  ∃ n, pages_of total limit = Some n
       ∧ ((n - 1) * limit < total ≤ n * limit)%Z.
Proof.
  intros Ht Hl. unfold pages_of.
  destruct (Z.eqb_spec limit 0); [lia|].
  eexists. split; [done|].
  pose proof (Z.div_mod (- total) limit).
  pose proof (Z.mod_pos_bound (- total) limit). nia.
Qed.

Lemma window_length {A} (l : list A) (page limit : Z) :
  (1 ≤ page)%Z → (1 ≤ limit)%Z →
  Z.of_nat (length (window page limit l))
  = Z.min limit (Z.max 0 (Z.of_nat (length l) - (page - 1) * limit)).
Proof.
  intros Hp Hl. unfold window. rewrite length_take, length_drop.
  assert (0 ≤ (page - 1) * limit)%Z by nia.
  generalize dependent ((page - 1) * limit)%Z. intros s Hs. lia.
Qed.

Lemma listing_metadata {A B} (f : A → B) (l : list A) (page limit : Z) :
  (1 ≤ page)%Z → (1 ≤ limit)%Z →
  page_metadata_ok
    (inr (mkListing (f <$> window page limit l)
            (mkPagination page limit (Z.of_nat (length l))
               (pages_of (Z.of_nat (length l)) limit)))).
Proof.
  intros Hp Hl. simpl.
  destruct (pages_of_ceil (Z.of_nat (length l)) limit) as (n & -> & Hn);
    [lia|done|].
  exists n. split_and!; [done|lia|lia| |].
  - pose proof (window_length l page limit Hp Hl) as Hlen.
    assert (0 ≤ (page - 1) * limit)%Z by nia.
    split.
    + intros Hne.
      assert (0 < length (f <$> window page limit l)) as Hpos.
      { destruct (f <$> window page limit l); [done|simpl; lia]. }
      rewrite length_fmap in Hpos. nia.
    + intros Hle Hnil. apply (f_equal length) in Hnil.
      rewrite length_fmap in Hnil. simpl in Hnil. nia.
  - rewrite length_fmap. by apply window_length.
Qed.

(** X21.  The pagination that the four listings return agrees with the page
    that they return, for a page number and a page size of at least one:
    [pages] is the least number of pages that hold [total] entries, the page
    has entries exactly when its number is at most [pages], and it has
    [limit] entries or, on the last page, the ones that are left. *)
Theorem listings_metadata (env : Env) (st : Store) (page limit : Z) :
  (1 ≤ page)%Z → (1 ≤ limit)%Z →
  page_metadata_ok (UserService.listUsers env st page limit)
  ∧ page_metadata_ok (UserService.listTrash env st page limit)
  ∧ page_metadata_ok (CitizenService.listCitizens env st page limit)
  ∧ page_metadata_ok (CitizenService.listTrash env st page limit).
Proof.
  intros Hp Hl.
  rewrite listUsers_page, listTrash_users_page, listCitizens_page,
    listTrash_citizens_page by done.
  split_and!; by apply listing_metadata.
Qed.

(** X21 on the seeded database: the second page of two users a page. *)
Lemma listings_metadata_witness :
  page_metadata_ok (UserService.listUsers Sample.env Sample.store 2 2)
  ∧ page_metadata_ok (UserService.listTrash Sample.env Sample.store 2 2)
  ∧ page_metadata_ok (CitizenService.listCitizens Sample.env Sample.store 2 2)
  ∧ page_metadata_ok (CitizenService.listTrash Sample.env Sample.store 2 2).
Proof. apply listings_metadata; lia. Defined.

Lemma length_filter_sort_by {A} (le : A → A → bool) (P : A → Prop)
    `{!∀ x, Decision (P x)} (l : list A) :
  length (filter P (sort_by le l)) = length (filter P l).
Proof. by rewrite sort_by_Permutation. Qed.

Lemma length_filter_split {A} (P Q : A → Prop) `{!∀ x, Decision (P x)}
    `{!∀ x, Decision (Q x)} (l : list A) :
  Forall (λ x, (P x ∨ Q x) ∧ ¬ (P x ∧ Q x)) l →
  length (filter P l) + length (filter Q l) = length l.
Proof.
  induction 1 as [|x l [Hor Hnand] _ IH]; [done|].
  rewrite !filter_cons.
  destruct (decide (P x)), (decide (Q x)); simpl; try lia; tauto.
Qed.

Lemma length_filter_and {A} (P Q : A → Prop) `{!∀ x, Decision (P x)}
    `{!∀ x, Decision (Q x)} (l : list A) :
  length (filter (λ x, P x ∧ Q x) l) = length (filter Q (filter P l)).
Proof.
  rewrite list_filter_filter. f_equal. apply list_filter_iff. tauto.
Qed.

Lemma two_values (v a b : string) :
  a ≠ b → v ∈ [a; b] → (v = a ∨ v = b) ∧ ¬ (v = a ∧ v = b).
Proof.
  intros Hne Hv. rewrite !elem_of_cons in Hv.
  destruct Hv as [->|[->|Hv]]; [| |by apply elem_of_nil in Hv].
  - split; [by left|]. by intros [_ ?].
  - split; [by right|]. intros [? _]. by apply Hne.
Qed.

Lemma report_found_enums (st : Store) (startDate endDate : option Date) :
  enums_ok st →
  Forall Citizen_enums
    (cr_data (ReportService.getCitizenReport st startDate endDate)).
Proof.
  intros (_ & Hc & _). simpl. apply Forall_forall. intros c Hin.
  apply elem_of_sort_by in Hin. apply list_elem_of_filter in Hin as [_ Hin].
  by eapply Forall_forall in Hc.
Qed.

(** X22.  The numbers of the report and of the dashboard add up and agree,
    on a store whose enumerated fields hold values of the schema: in the
    citizen report of any period the counts by gender and the counts by
    status each sum to the total; and the report of all time has the total,
    the ACTIVE count and, as its DECEASED count, the difference that the
    dashboard shows as [deceasedCitizens]. *)
Theorem report_and_dashboard_agree (env : Env) (st : Store)
    (activities : list Activity.t) (startDate endDate : option Date) :
  enums_ok st →
  (cr_MALE (ReportService.getCitizenReport st startDate endDate)
   + cr_FEMALE (ReportService.getCitizenReport st startDate endDate)
   = cr_total (ReportService.getCitizenReport st startDate endDate))
  ∧ (cr_ACTIVE (ReportService.getCitizenReport st startDate endDate)
     + cr_DECEASED (ReportService.getCitizenReport st startDate endDate)
     = cr_total (ReportService.getCitizenReport st startDate endDate))
  ∧ totalCitizens (DashboardService.getDashboardStats env st activities)
    = Z.of_nat (cr_total (ReportService.getCitizenReport st None None))
  ∧ activeCitizens (DashboardService.getDashboardStats env st activities)
    = Z.of_nat (cr_ACTIVE (ReportService.getCitizenReport st None None))
  ∧ deceasedCitizens (DashboardService.getDashboardStats env st activities)
    = Z.of_nat (cr_DECEASED (ReportService.getCitizenReport st None None)).
Proof.
  intros Hok.
  assert (Hsum : ∀ s e,
            cr_MALE (ReportService.getCitizenReport st s e)
            + cr_FEMALE (ReportService.getCitizenReport st s e)
            = cr_total (ReportService.getCitizenReport st s e)
            ∧ cr_ACTIVE (ReportService.getCitizenReport st s e)
              + cr_DECEASED (ReportService.getCitizenReport st s e)
              = cr_total (ReportService.getCitizenReport st s e)).
  { intros s e. pose proof (report_found_enums st s e Hok) as Hall.
    simpl in *. split; apply length_filter_split;
      (eapply Forall_impl; [exact Hall|]); intros c [Hg Hs]; simpl.
    - by apply two_values.
    - by apply two_values. }
  assert (Htotal :
            Mongo.countDocuments (λ c, Citizen.deletedAt c = None) (citizens st)
            = Z.of_nat (cr_total (ReportService.getCitizenReport st None None))).
  { simpl. rewrite length_sort_by. unfold Mongo.countDocuments, Mongo.find.
    do 2 f_equal. apply list_filter_iff. intros c.
    unfold ReportService.in_report. simpl. tauto. }
  assert (Hactive :
            Mongo.countDocuments (λ c, Citizen.deletedAt c = None
                                       ∧ Citizen.status c = "ACTIVE")
                                 (citizens st)
            = Z.of_nat (cr_ACTIVE (ReportService.getCitizenReport st None None))).
  { simpl. rewrite length_filter_sort_by. unfold Mongo.countDocuments, Mongo.find.
    rewrite length_filter_and. do 3 f_equal. apply list_filter_iff. intros c.
    unfold ReportService.in_report. simpl. tauto. }
  split_and!; [apply Hsum|apply Hsum|exact Htotal|exact Hactive|].
  unfold DashboardService.getDashboardStats. simpl deceasedCitizens.
  rewrite Htotal, Hactive. destruct (Hsum None None) as [_ Hs]. lia.
Qed.

(** X22 on the seeded database, with an empty activity log. *)
Lemma report_and_dashboard_agree_witness :
  deceasedCitizens (DashboardService.getDashboardStats Sample.env Sample.store
                      [])
  = Z.of_nat (cr_DECEASED (ReportService.getCitizenReport Sample.store None
                             None)).
Proof.
  destruct (report_and_dashboard_agree Sample.env Sample.store [] None None)
    as (_ & _ & _ & _ & Hd); [|exact Hd].
  unfold enums_ok. split_and!; apply (bool_decide_unpack _); by vm_compute.
Defined.

(** ** What a new user and an updated citizen are stored as *)

(** X23.  A [createUser] that returns has added one user and nothing else:
    the user is stored with the hash of the password, not the password, is
    not in the trash, has an id that no user had, and has the reference and
    the name of one stored role. *)
Theorem createUser_stores_hash (env : Env) (data : CreateUserData)
    (st : Store) (n : NormalizedUser) (st' : Store) :
  UserService.createUser env data st = (inr n, st') →
  ∃ u, st' = set_users st (users st ++ [u])
       ∧ n = UserService.normalizeUser env u Unpopulated
       ∧ User.password u = bcrypt_hash env (default "" (cu_password data))
       ∧ User.deletedAt u = None
       ∧ (User._id u ∉ User._id <$> users st)
       ∧ role_agrees (roles st) u.
Proof.
  unfold UserService.createUser. monad_step.
  destruct (_ && _); monad_step; [|done].
  destruct (_ && _); monad_step; [|done].
  destruct (match cu_role_id data with Some _ => _ | None => _ end);
    [|done].
  monad_step.
  destruct (negb _); monad_step; [|done].
  destruct (negb _); monad_step; [|done].
  destruct (Mongo.findOne _ (roles st)) as [role|] eqn:Hrole; [|done].
  destruct (findOne_Some _ _ _ Hrole) as [Hin Hid]. simpl in Hid.
  destruct (Mongo.findOne _ (users st)); [done|]. monad_step.
  destruct (negb _); monad_step; [|done].
  match goal with
  | |- context [User_insert env ?u st] =>
      destruct (User_insert_outcome env u st) as [[e ->]|(_ & _ & ->)]
  end; [done|].
  intros [= <- <-]. eexists. split_and!; try reflexivity.
  - apply freshId_fresh.
  - by exists role.
Qed.

(** X23 on the seeded database: a new officer. *)
Lemma createUser_stores_hash_witness :
  ∃ u, (UserService.createUser Sample.env
          (mkCreateUserData (Some "clerk1") (Some "secret1") (Some 12) None
                            None None None) Sample.store).2
       = set_users Sample.store (users Sample.store ++ [u])
       ∧ User.password u = "$2a$10$secret1".
Proof.
  destruct (UserService.createUser Sample.env
              (mkCreateUserData (Some "clerk1") (Some "secret1") (Some 12)
                                None None None None) Sample.store)
    as [[e|n] st'] eqn:Hc; [by vm_compute in Hc|].
  destruct (createUser_stores_hash Sample.env _ Sample.store n st' Hc)
    as (u & -> & _ & Hp & _).
  exists u. split; [done|]. rewrite Hp. by vm_compute.
Defined.

(** What a successful [save] of a citizen leaves under its id. *)
Lemma Citizen_save_stored (env : Env) (c r : Citizen.t) (st st' : Store) :
  Citizen_save env c st = (inr r, st') →
  Mongo.findOne (λ x, Citizen._id x = Citizen._id c) (citizens st') = Some r
  ∧ (r = c ∨ r = Citizen.set_updatedAt c (now env))
  ∧ users st' = users st ∧ statusChangeLogs st' = statusChangeLogs st.
Proof.
  unfold Citizen_save. monad_step.
  destruct (Citizen_validate env c); [done|]. monad_step.
  destruct (Mongo.findOne _ (citizens st)) as [stored|] eqn:Hf; [|done].
  destruct (decide (stored = c)) as [->|].
  { intros [= <- <-]. split_and!; auto. }
  destruct (write_ok env "citizens"); monad_step; [|done].
  destruct (negb (nationalId_taken _ _)); monad_step; [|done].
  intros [= <- <-]. simpl. split_and!; auto.
  exact (findOne_replaceById Citizen._id
           (Citizen.set_updatedAt c (now env)) stored (citizens st) Hf).
Qed.

(** X24.  [updateCitizen] changes the names, the gender, the dates and
    places and the status only: a call that returns for an active citizen
    stores, under the same id, a citizen with the same national id and
    registration time and the same files, still not in the trash, and
    returns that citizen. *)
Theorem updateCitizen_keeps_identity (env : Env) (st : Store)
    (nationalId : string) (data : UpdateCitizenData) (actor : ObjectId)
    (c : Citizen.t) (n : NormalizedCitizen) (st' : Store) :
  active_citizen st nationalId = Some c →
  CitizenService.updateCitizen env nationalId data actor st = (inr n, st') →
  ∃ c', Mongo.findOne (λ x, Citizen._id x = Citizen._id c) (citizens st')
          = Some c'
        ∧ n = CitizenService.normalizeCitizen env c'
        ∧ Citizen.nationalId c' = nationalId
        ∧ Citizen.deletedAt c' = None
        ∧ Citizen.createdAt c' = Citizen.createdAt c
        ∧ Citizen.imagePath c' = Citizen.imagePath c
        ∧ Citizen.documentPath c' = Citizen.documentPath c.
Proof.
  intros Hc. destruct (findOne_Some _ _ _ Hc) as [_ [Hn Hd]].
  destruct (updateCitizen_steps env st nationalId data actor c Hc)
    as [[e ->]|(c7 & (Hid & Hn7 & Hd7 & Hc7 & _ & Hi7 & Hp7) & ->)]; [done|].
  assert (Hsave : ∀ c8 st1,
            Citizen._id c8 = Citizen._id c7 →
            Citizen.nationalId c8 = Citizen.nationalId c7 →
            Citizen.deletedAt c8 = Citizen.deletedAt c7 →
            Citizen.createdAt c8 = Citizen.createdAt c7 →
            Citizen.imagePath c8 = Citizen.imagePath c7 →
            Citizen.documentPath c8 = Citizen.documentPath c7 →
            match Citizen_save env c8 st1 with
            | (inl e, st2) => (inl e, st2)
            | (inr saved, st2) =>
                (inr (CitizenService.normalizeCitizen env saved), st2)
            end = (inr n, st') →
            ∃ c', Mongo.findOne (λ x, Citizen._id x = Citizen._id c)
                    (citizens st') = Some c'
                  ∧ n = CitizenService.normalizeCitizen env c'
                  ∧ Citizen.nationalId c' = nationalId
                  ∧ Citizen.deletedAt c' = None
                  ∧ Citizen.createdAt c' = Citizen.createdAt c
                  ∧ Citizen.imagePath c' = Citizen.imagePath c
                  ∧ Citizen.documentPath c' = Citizen.documentPath c).
  { intros c8 st1 H1 H2 H3 H4 H5 H6.
    destruct (Citizen_save env c8 st1) as [[e|saved] st2] eqn:Hs; [done|].
    intros [= <- <-].
    apply Citizen_save_stored in Hs as (Hf & Hsaved & _).
    exists saved. rewrite H1, Hid in Hf. split; [done|]. split; [done|].
    destruct Hsaved as [->| ->]; simpl; split_and!; congruence. }
  rewrite update_status_eq.
  destruct (Js.truthy_opt (ud_status data)); [|by apply Hsave].
  destruct (decide (Citizen.status c7 ≠ _)); [|by apply Hsave].
  destruct (StatusChangeLog_create _ _ _ _ _ _) as [[e|row] st1]; [done|].
  by apply Hsave.
Qed.

(** X24 on the seeded database: the citizen Amina takes a new last name. *)
Lemma updateCitizen_keeps_identity_witness :
  ∃ c', Mongo.findOne (λ x, Citizen._id x = 41)
          (citizens (CitizenService.updateCitizen Sample.env "1000000001"
                       (mkUpdateCitizenData None None (Some "Warsame") None
                          None None None None) 32 Sample.store).2)
        = Some c'
        ∧ Citizen.nationalId c' = "1000000001"
        ∧ Citizen.deletedAt c' = None.
Proof.
  destruct (CitizenService.updateCitizen Sample.env "1000000001"
              (mkUpdateCitizenData None None (Some "Warsame") None None None
                 None None) 32 Sample.store) as [[e|n] st'] eqn:Hu;
    [by vm_compute in Hu|].
  destruct (updateCitizen_keeps_identity Sample.env Sample.store
              "1000000001" _ 32 Sample.amina n st' eq_refl Hu)
    as (c' & Hf & _ & Hn & Hd & _).
  by exists c'.
Defined.

(** X25.  An id that [generateRandomId] draws passes the check of the
    schema on [nationalId]: it is made of ten decimal digits, whatever the
    random numbers are. *)
Theorem generateRandomId_valid (random : nat → nat) (i : nat) :
  nationalId_ok (NationalIdGenerator.generateRandomId random i) = true.
Proof.
  unfold nationalId_ok, NationalIdGenerator.generateRandomId, in_range.
  assert (Hdigits : ∀ n j,
            Js.all_digits (NationalIdGenerator.random_digits random j n)
            = true
            ∧ Js.length (NationalIdGenerator.random_digits random j n)
              = n).
  { induction n as [|n IH]; intros j; [done|].
    cbn [NationalIdGenerator.random_digits Js.all_digits Js.length].
    destruct (IH (S j)) as [-> ->].
    pose proof (Nat.mod_upper_bound (random j) 10).
    unfold Js.is_digit, Js.units, NationalIdGenerator.digit. cbv zeta.
    rewrite Ascii.nat_ascii_embedding by lia. split.
    - rewrite andb_true_r. apply andb_true_iff.
      split; apply Nat.leb_le; lia.
    - destruct (Nat.ltb_spec (48 + random j mod 10) 128); [done|lia]. }
  destruct (Hdigits NationalIdGenerator.ID_LENGTH i) as [-> ->].
  reflexivity.
Qed.
